(** * ExecModel_Burger: the star-disc-envelope example script

    A shallow embedding of [examples/hamburger_standard/ExecModel_Burger.py].
    The script is glue code: it derives a handful of stellar parameters with
    float arithmetic, calls the modelling library ([sf3dmodels]: [Model],
    [Res], [Plot_model], [U]), [time], [print] and [matplotlib.colors], and
    combines numpy arrays with [+], [/] and [*].

    - Floats are an interface ([PyFloat]); the script is generic in it and is
      read over the reals where a claim speaks of real identities.
    - Python values are a small dynamic universe ([value]); arrays and
      attribute-carrying objects live in a store ([heap]) and are passed by
      reference, as in Python.
    - Calls into the libraries go through one oracle ([library]) that may
      change the store and the outside world and may raise.
    - The script is a computation in a state-and-exception monad ([M]) that
      also logs every library call and every exception raised by an
      operator of the script itself. *)

From Stdlib Require Import ZArith QArith Qround Reals Lra Lia Ascii String List Sorted.
From stdpp Require Import gmap strings pretty.

#[local] Set Warnings "-register-all".
Local Open Scope string_scope.
Local Open Scope list_scope.

(** ** Exceptions and results *)

(** A Python exception, identified by its class name. *)
Inductive exn : Type :=
| PyExc (cls : string).

Definition ZeroDivisionError : exn := PyExc "ZeroDivisionError".
Definition TypeError : exn := PyExc "TypeError".
Definition AttributeError : exn := PyExc "AttributeError".
Definition ValueError : exn := PyExc "ValueError".

Inductive result (A : Type) : Type :=
| Ok (a : A)
| Raise (e : exn).
Arguments Ok {A} a.
Arguments Raise {A} e.

#[global] Instance result_ret : MRet result := fun A a => Ok a.
#[global] Instance result_bind : MBind result := fun A B k r =>
  match r with
  | Ok a => k a
  | Raise e => Raise e
  end.

(** ** Floats *)

(** What the script needs of Python's [float] (and of numpy's [float64]):
    literals, the conversion of an [int] operand, the IEEE operations (which
    never raise), the test used by [/] to raise [ZeroDivisionError] and the
    power operator (which may raise). *)
Class PyFloat (F : Type) : Type := {
  lit : Q -> F;
  of_int : Z -> F;
  fadd : F -> F -> F;
  fsub : F -> F -> F;
  fmul : F -> F -> F;
  fdiv_ieee : F -> F -> F;
  fis_zero : F -> bool;
  fpow : F -> F -> result F
}.

(** ['%.3f' % x]. *)
Class PyFormat (F : Type) : Type := {
  fmt3f : F -> string
}.

(** [x / y] on Python floats. *)
Definition py_truediv {F} `{PyFloat F} (x y : F) : result F :=
  if fis_zero y then Raise ZeroDivisionError else Ok (fdiv_ieee x y).

(** The constants of the library's unit module [U] that the script reads. *)
Record units (F : Type) : Type := {
  MSun : F;
  MSun_yr : F;
  RSun : F;
  LSun : F;
  TSun : F;
  AU : F
}.
Arguments MSun {F} _.
Arguments MSun_yr {F} _.
Arguments RSun {F} _.
Arguments LSun {F} _.
Arguments TSun {F} _.
Arguments AU {F} _.

(** The names bound by the "General Parameters" block (lines 22-27). *)
Record params (F : Type) : Type := {
  MStar : F;
  MRate : F;
  RStar : F;
  LStar : F;
  TStar : F;
  Rd : F
}.
Arguments MStar {F} _.
Arguments MRate {F} _.
Arguments RStar {F} _.
Arguments LStar {F} _.
Arguments TStar {F} _.
Arguments Rd {F} _.

(** Lines 22-27.  Operands are evaluated left to right. *)
Definition general_parameters {F} `{PyFloat F} (U : units F) : result (params F) :=
  let MStar := fmul (lit 0.86) (MSun U) in
  let MRate := fmul (lit 5e-6) (MSun_yr U) in
  m ← py_truediv MStar (MSun U);
  m08 ← fpow m (lit 0.8);
  let RStar := fmul (RSun U) m08 in
  m ← py_truediv MStar (MSun U);
  m4 ← fpow m (of_int 4);
  let LStar := fmul (LSun U) m4 in
  l ← py_truediv LStar (LSun U);
  r ← py_truediv RStar (RSun U);
  r2 ← fpow r (of_int 2);
  q ← py_truediv l r2;
  t ← fpow q (lit 0.25);
  let TStar := fmul (TSun U) t in
  let Rd := fmul (lit 264) (AU U) in
  Ok {| MStar := MStar; MRate := MRate; RStar := RStar;
        LStar := LStar; TStar := TStar; Rd := Rd |}.

(** ** Strings *)

Definition nl : string := String (Ascii.ascii_of_nat 10) EmptyString.

(** [fmt % arg] for a format holding one [%s]: the first [%s] is replaced by
    [arg]; a format without one raises [TypeError] (not all arguments
    converted). *)
Fixpoint percent_s (fmt arg : string) : result string :=
  match fmt with
  | EmptyString => Raise TypeError
  | String c rest =>
      match rest with
      | String c' rest' =>
          if (Ascii.eqb c "%"%char && Ascii.eqb c' "s"%char)%bool then Ok (arg +:+ rest')
          else s ← percent_s rest arg; Ok (String c s)
      | EmptyString => Raise TypeError
      end
  end.

(** ** Values, the store and the run-time configuration *)

Abbreviation loc := positive (only parsing).

Section Model.
Context {F : Type} `{PyFloat F}.
(** Everything outside the Python store: the clock, the terminal, the
    files the library writes. *)
Context {W : Type}.

(** Python values.  Arrays and attribute-carrying objects are references
    into the store. *)
Inductive value : Type :=
| VNone
| VBool (b : bool)
| VInt (z : Z)
| VFloat (x : F)
| VStr (s : string)
| VList (l : list value)
| VDict (d : list (string * value))
| VRef (l : loc).

(** Stored objects: a one-dimensional numpy array, or an object with
    attributes (the library's [Struct] aggregates, its grid, a
    [LogNorm]). *)
Inductive obj : Type :=
| OArr (xs : list F)
| OStruct (attrs : gmap string value).

Record state : Type := {
  heap : gmap loc obj;
  world : W
}.

(** A call of the library function [f] with positional and keyword
    arguments, in a state: its result and the state it leaves. *)
Definition library : Type :=
  string → list value → list (string * value) → state → result value * state.

(** The log of a run: every library call with its arguments, the state it
    started in, its result and the state it left; and every exception
    raised by an operator of the script itself. *)
Inductive event : Type :=
| ECall (f : string) (args : list value) (kwargs : list (string * value))
        (pre : state) (res : result value) (post : state)
| ERaise (e : exn).

Record cfg : Type := {
  st : state;
  log : list event
}.

(** State, exceptions and the log. *)
Definition M (A : Type) : Type := cfg → result A * cfg.

#[global] Instance M_ret : MRet M := fun A a c => (Ok a, c).
#[global] Instance M_bind : MBind M := fun A B k m c =>
  match m c with
  | (Ok a, c') => k a c'
  | (Raise e, c') => (Raise e, c')
  end.

(** An operator of the script raises. *)
Definition raise {A} (e : exn) : M A := fun c =>
  (Raise e, {| st := st c; log := log c ++ [ERaise e] |}).

Definition lift {A} (r : result A) : M A :=
  match r with
  | Ok a => mret a
  | Raise e => raise e
  end.

(** A call whose effect on the state is [body], logged. *)
Definition logged (f : string) (args : list value) (kwargs : list (string * value))
    (body : state → result value * state) : M value := fun c =>
  let '(r, s') := body (st c) in
  (r, {| st := s'; log := log c ++ [ECall f args kwargs (st c) r s'] |}).

(** A new object at an unused address. *)
Definition new_object (o : obj) (s : state) : loc * state :=
  let l := fresh (dom (heap s)) in
  (l, {| heap := <[l := o]> (heap s); world := world s |}).

Definition alloc (o : obj) : M value := fun c =>
  let '(l, s') := new_object o (st c) in
  (Ok (VRef l), {| st := s'; log := log c |}).

(** [v.a]: only objects with attributes have the attributes the script
    reads; everything else raises [AttributeError]. *)
Definition getattr_in (h : gmap loc obj) (v : value) (a : string) : result value :=
  match v with
  | VRef l =>
      match h !! l with
      | Some (OStruct d) =>
          match d !! a with
          | Some x => Ok x
          | None => Raise AttributeError
          end
      | _ => Raise AttributeError
      end
  | _ => Raise AttributeError
  end.

Definition getattr (v : value) (a : string) : M value := fun c =>
  lift (getattr_in (heap (st c)) v a) c.

(** The array a value refers to.  The operators [+], [/] and [*] of the
    script are modelled on numpy arrays, the operands the library gives
    them; any other operand is reported as [TypeError]. *)
Definition array_in (h : gmap loc obj) (v : value) : result (list F) :=
  match v with
  | VRef l =>
      match h !! l with
      | Some (OArr xs) => Ok xs
      | _ => Raise TypeError
      end
  | _ => Raise TypeError
  end.

Definition read_array (v : value) : M (list F) := fun c =>
  lift (array_in (heap (st c)) v) c.

(** numpy broadcasting of a binary operation over one-dimensional arrays:
    equal lengths pair up, a length-one array is stretched, anything else
    raises [ValueError]. *)
Definition np_broadcast (f : F → F → F) (xs ys : list F) : result (list F) :=
  if (length xs =? length ys)%nat then Ok (zip_with f xs ys)
  else match xs, ys with
       | [x], _ => Ok (map (f x) ys)
       | _, [y] => Ok (map (fun x => f x y) xs)
       | _, _ => Raise ValueError
       end.

(** [a + b] and [a * b] on arrays: a new array. *)
Definition ndarray_binop (f : F → F → F) (a b : value) : M value :=
  xs ← read_array a;
  ys ← read_array b;
  zs ← lift (np_broadcast f xs ys);
  alloc (OArr zs).

(** [a / y] for an array [a] and a float [y]: a new array; numpy's
    division does not raise. *)
Definition ndarray_div_float (a : value) (y : F) : M value :=
  xs ← read_array a;
  alloc (OArr (map (fun x => fdiv_ieee x y) xs)).

(** [x, y = a] for an array [a]. *)
Definition unpack2 (a : value) : M (F * F) :=
  xs ← read_array a;
  match xs with
  | [x; y] => mret (x, y)
  | _ => raise ValueError
  end.

(** [a - b] on floats, the operands [time.time()] gives it; any other
    operand is reported as [TypeError]. *)
Definition py_sub (a b : value) : M F :=
  match a, b with
  | VFloat x, VFloat y => mret (fsub x y)
  | _, _ => raise TypeError
  end.

(** The keyword argument [k] of a call, if it was given. *)
Definition kwarg (k : string) (kwargs : list (string * value)) : option value :=
  snd <$> List.find (fun kv => String.eqb (fst kv) k) kwargs.

(** ** The libraries *)

Context (lib : library).

(** A call answered by the library. *)
Definition call (f : string) (args : list value) (kwargs : list (string * value)) : M value :=
  logged f args kwargs (lib f args kwargs).

(** Modelled from the spec: the library's class [Model.Struct], which is
    not among the sources.  It is an aggregate whose sub-components are
    the keyword arguments it is built from: a new object with these
    attributes.  The script builds the composite density with it and
    reads [density.total] back. *)
Definition Model_Struct (entries : list (string * value)) : M value :=
  logged "Model.Struct" [] entries (fun s =>
    let '(l, s') := new_object (OStruct (list_to_map entries)) s in
    (Ok (VRef l), s')).

(** [np.array([x, ...])] on a list of floats: a new array. *)
Definition np_array (xs : list F) : M value :=
  logged "np.array" [VList (map VFloat xs)] [] (fun s =>
    let '(l, s') := new_object (OArr xs) s in
    (Ok (VRef l), s')).

End Model.

Arguments value : clear implicits.
Arguments obj : clear implicits.
Arguments state : clear implicits.
Arguments library : clear implicits.
Arguments event : clear implicits.
Arguments cfg : clear implicits.
Arguments M : clear implicits.

(** ** The script *)

(** What the operating system hands to the interpreter.  The script imports
    [os] but reads neither the arguments nor the environment. *)
Record process : Type := {
  argv : list string;
  environ : gmap string string
}.

Section Script.
Context {F : Type} `{PyFloat F} `{PyFormat F} {W : Type}.
Context (U : units F) (lib : library F W).

Definition dashes : string := "-------------------------------------------------".

(** The module body, line by line. *)
Definition script (proc : process) : M F W (value F) :=
  (* 17 *)
  t0 ← call lib "time.time" [] [];
  (* 22-27 General Parameters *)
  p ← lift (general_parameters U);
  let MStar := MStar p in
  let MRate := MRate p in
  let RStar := RStar p in
  let LStar := LStar p in
  let TStar := TStar p in
  let Rd := Rd p in
  (* 29 *)
  r ← lift (py_truediv RStar (RSun U));
  l ← lift (py_truediv LStar (LSun U));
  _ ← call lib "print" [VStr "RStar:"; VFloat r; VStr ", LStar:"; VFloat l;
                        VStr ", TStar:"; VFloat TStar] [];
  (* 36-39 GRID Definition *)
  let sizex := fmul (of_int 500) (AU U) in
  let sizey := sizex in
  let sizez := sizex in
  let Nx := 200%Z in
  let Ny := Nx in
  let Nz := Nx in
  GRID ← call lib "Model.grid" [VList [VFloat sizex; VFloat sizey; VFloat sizez];
                                VList [VInt Nx; VInt Ny; VInt Nz]] [];
  NPoints ← getattr GRID "NPoints";
  (* 48-52 ENVELOPE *)
  Rho0 ← call lib "Res.Rho0" [VFloat MRate; VFloat Rd; VFloat MStar] [];
  let Arho := VNone in
  let Renv := fmul (lit 2.5) Rd in
  densEnv ← call lib "Model.density_Env_Disc"
              [VFloat RStar; VFloat Rd; Rho0; Arho; GRID]
              [("discFlag", VBool false); ("envFlag", VBool true);
               ("renv_max", VFloat Renv)];
  (* 56-60 DISC *)
  let H0sf := lit 0.03 in
  let Arho := VFloat (lit 5.25) in
  let Rdisc := fmul (lit 1.5) Rd in
  densDisc ← call lib "Model.density_Hamburgers"
               [VFloat RStar; VFloat H0sf; VFloat Rd; Rho0; Arho; GRID]
               [("discFlag", VBool true); ("rdisc_max", VFloat Rdisc)];
  (* 64-73 The COMPOSITE DENSITY *)
  env_total ← getattr densEnv "total";
  disc_total ← getattr densDisc "total";
  total ← ndarray_binop fadd env_total disc_total;
  disc ← getattr densDisc "total";
  env ← getattr densEnv "total";
  H_ ← getattr densDisc "H";
  Rt ← getattr densDisc "Rt";
  r_disc ← getattr densDisc "r_disc";
  r_env ← getattr densEnv "r_env";
  streamline ← getattr densEnv "streamline";
  density ← Model_Struct [("total", total); ("disc", disc); ("env", env);
                          ("H", H_); ("Rt", Rt);
                          ("discFlag", VBool true); ("envFlag", VBool true);
                          ("r_disc", r_disc); ("r_env", r_env);
                          ("streamline", streamline)];
  (* 78-82 TEMPERATURE *)
  let T10Env := lit 250 in
  let Tmin := lit 10 in
  let BT := lit 60 in
  temperature ← call lib "Model.temperature_Hamburgers"
                  [VFloat TStar; VFloat RStar; VFloat MStar; VFloat MRate; VFloat Rd;
                   VFloat T10Env; VFloat BT; density; GRID]
                  [("Tmin_disc", VFloat Tmin); ("inverted", VBool false)];
  (* 87 VELOCITY *)
  vel ← call lib "Model.velocity" [VFloat RStar; VFloat MStar; VFloat Rd; density; GRID] [];
  (* 92-96 ABUNDANCE and GAS-to-DUST RATIO *)
  let ab0 := lit 5e-8 in
  abundance ← call lib "Model.abundance" [VFloat ab0; NPoints] [];
  let gtd0 := lit 100 in
  gtdratio ← call lib "Model.gastodust" [VFloat gtd0; NPoints] [];
  (* 101 WRITING DATA with LIME format *)
  density_total ← getattr density "total";
  temperature_total ← getattr temperature "total";
  _ ← call lib "Model.DataTab_LIME"
        [density_total; temperature_total; vel; abundance; gtdratio; GRID] [];
  (* 106 PRINTING resultant PROPERTIES *)
  _ ← call lib "Model.PrintProperties" [density; temperature; GRID] [];
  (* 111-112 TIMING *)
  t1 ← call lib "time.time" [] [];
  dt ← py_sub t1 t0;
  _ ← call lib "print" [VStr ("Ellapsed time: " +:+ fmt3f dt +:+ "s")] [];
  _ ← call lib "print" [VStr (dashes +:+ nl +:+ dashes +:+ nl)] [];
  (* 117-125 3D PLOTTING (weighting with temperature) *)
  let tag := "Burger" in
  density_total ← getattr density "total";
  dens_plot ← ndarray_div_float density_total (lit 1e6);
  a ← np_array [lit 5e11; lit 5e15];
  a ← ndarray_div_float a (lit 1e6);
  '(vmin, vmax) ← unpack2 a;
  norm ← call lib "colors.LogNorm" [] [("vmin", VFloat vmin); ("vmax", VFloat vmax)];
  let weight := fmul (of_int 10) T10Env in
  temperature_total ← getattr temperature "total";
  output ← lift (percent_s "3Dpoints%s.png" tag);
  _ ← call lib "Plot_model.scatter3D" [GRID; temperature_total; VFloat weight]
        [("NRand", VInt 4000); ("colordim", dens_plot); ("axisunit", VFloat (AU U));
         ("cmap", VStr "hot"); ("norm", norm);
         ("colorlabel", VStr "$\rho$ $[cm^{-3}]$");
         ("output", VStr output); ("show", VBool false)];
  (* 131-135 2D PLOTTING (Density and Temperature) *)
  a ← np_array [lit 1e12; lit 1e17];
  a ← ndarray_div_float a (lit 1e6);
  '(vmin, vmax) ← unpack2 a;
  norm ← call lib "colors.LogNorm" [] [("vmin", VFloat vmin); ("vmax", VFloat vmax)];
  output ← lift (percent_s "DensMidplane_%s.png" tag);
  _ ← call lib "Plot_model.plane2D" [GRID; dens_plot]
        [("axisunit", VFloat (AU U)); ("cmap", VStr "ocean_r");
         ("plane", VDict [("z", VFloat (fmul (of_int 0) (AU U)))]); ("norm", norm);
         ("colorlabel", VStr "$[\rm cm^{-3}]$");
         ("output", VStr output); ("show", VBool false)];
  (* 137-141 *)
  a ← np_array [lit 1e11; lit 5e15];
  a ← ndarray_div_float a (lit 1e6);
  '(vmin, vmax) ← unpack2 a;
  norm ← call lib "colors.LogNorm" [] [("vmin", VFloat vmin); ("vmax", VFloat vmax)];
  output ← lift (percent_s "DensVertical_%s.png" tag);
  _ ← call lib "Plot_model.plane2D" [GRID; dens_plot]
        [("axisunit", VFloat (AU U)); ("cmap", VStr "ocean_r");
         ("plane", VDict [("y", VFloat (fmul (of_int 0) (AU U)))]); ("norm", norm);
         ("colorlabel", VStr "$[\rm cm^{-3}]$");
         ("output", VStr output); ("show", VBool false)];
  (* 143-147 *)
  a ← np_array [lit 5e1; lit 3e3];
  '(vmin, vmax) ← unpack2 a;
  norm ← call lib "colors.LogNorm" [] [("vmin", VFloat vmin); ("vmax", VFloat vmax)];
  temperature_total ← getattr temperature "total";
  output ← lift (percent_s "TempMidplane_%s.png" tag);
  _ ← call lib "Plot_model.plane2D" [GRID; temperature_total]
        [("axisunit", VFloat (AU U)); ("cmap", VStr "ocean_r");
         ("plane", VDict [("z", VFloat (fmul (of_int 0) (AU U)))]); ("norm", norm);
         ("colorlabel", VStr "[Kelvin]");
         ("output", VStr output); ("show", VBool false)];
  (* 149-153 *)
  a ← np_array [lit 5e1; lit 2e3];
  '(vmin, vmax) ← unpack2 a;
  norm ← call lib "colors.LogNorm" [] [("vmin", VFloat vmin); ("vmax", VFloat vmax)];
  temperature_total ← getattr temperature "total";
  output ← lift (percent_s "TempVertical_%s.png" tag);
  _ ← call lib "Plot_model.plane2D" [GRID; temperature_total]
        [("axisunit", VFloat (AU U)); ("cmap", VStr "ocean_r");
         ("plane", VDict [("y", VFloat (fmul (of_int 0) (AU U)))]); ("norm", norm);
         ("colorlabel", VStr "[Kelvin]");
         ("output", VStr output); ("show", VBool false)];
  (* 156-160 *)
  a ← np_array [lit 3e7; lit 5e12];
  '(vmin, vmax) ← unpack2 a;
  norm ← call lib "colors.LogNorm" [] [("vmin", VFloat vmin); ("vmax", VFloat vmax)];
  temperature_total ← getattr temperature "total";
  emissivity ← ndarray_binop fmul temperature_total dens_plot;
  output ← lift (percent_s "Emissivity_%s.png" tag);
  _ ← call lib "Plot_model.plane2D" [GRID; emissivity]
        [("axisunit", VFloat (AU U)); ("cmap", VStr "ocean_r");
         ("plane", VDict [("y", VFloat (fmul (of_int 0) (AU U)))]); ("norm", norm);
         ("colorlabel", VStr "[$\rho$ T]");
         ("output", VStr output); ("show", VBool false)];
  mret VNone.

(** A run from a state, with an empty log. *)
Definition run (proc : process) (s : state F W) : result (value F) * cfg F W :=
  script proc {| st := s; log := [] |}.

End Script.

(** ** What a run shows *)

Section Observations.
Context {F W : Type}.

(** The library function an event calls. *)
Definition call_name (ev : event F W) : option string :=
  match ev with
  | ECall f _ _ _ _ _ => Some f
  | ERaise _ => None
  end.

(** The library functions called in a log, in order. *)
Definition calls (l : list (event F W)) : list string := omap call_name l.

(** The exception an event raised, if it raised one. *)
Definition ev_failed (ev : event F W) : option exn :=
  match ev with
  | ECall _ _ _ _ (Raise e) _ => Some e
  | ECall _ _ _ _ (Ok _) _ => None
  | ERaise e => Some e
  end.

Definition all_normal (l : list (event F W)) : Prop :=
  Forall (fun ev => ev_failed ev = None) l.

(** The library calls of the module body, in source order. *)
Definition script_calls : list string :=
  [ "time.time"; "print"; "Model.grid"; "Res.Rho0"; "Model.density_Env_Disc";
    "Model.density_Hamburgers"; "Model.Struct"; "Model.temperature_Hamburgers";
    "Model.velocity"; "Model.abundance"; "Model.gastodust";
    "Model.DataTab_LIME"; "Model.PrintProperties"; "time.time"; "print"; "print";
    "np.array"; "colors.LogNorm"; "Plot_model.scatter3D";
    "np.array"; "colors.LogNorm"; "Plot_model.plane2D";
    "np.array"; "colors.LogNorm"; "Plot_model.plane2D";
    "np.array"; "colors.LogNorm"; "Plot_model.plane2D";
    "np.array"; "colors.LogNorm"; "Plot_model.plane2D";
    "np.array"; "colors.LogNorm"; "Plot_model.plane2D" ].

(** The stages of the pipeline, after the section headers of the source. *)
Inductive stage : Type :=
| GridCreation
| DensityEnvelope
| DensityDisc
| DensityComposite
| Temperature
| Velocity
| AbundanceGasToDust
| FileExport
| PropertyPrinting
| Plotting.

Definition stage_eqb (a b : stage) : bool :=
  match a, b with
  | GridCreation, GridCreation | DensityEnvelope, DensityEnvelope
  | DensityDisc, DensityDisc | DensityComposite, DensityComposite
  | Temperature, Temperature | Velocity, Velocity
  | AbundanceGasToDust, AbundanceGasToDust | FileExport, FileExport
  | PropertyPrinting, PropertyPrinting | Plotting, Plotting => true
  | _, _ => false
  end.

(** The stage a library function belongs to; the clock and the console
    messages belong to none. *)
Definition stage_of (f : string) : option stage :=
  if String.eqb f "Model.grid" then Some GridCreation
  else if (String.eqb f "Res.Rho0" || String.eqb f "Model.density_Env_Disc")%bool
    then Some DensityEnvelope
  else if String.eqb f "Model.density_Hamburgers" then Some DensityDisc
  else if String.eqb f "Model.Struct" then Some DensityComposite
  else if String.eqb f "Model.temperature_Hamburgers" then Some Temperature
  else if String.eqb f "Model.velocity" then Some Velocity
  else if (String.eqb f "Model.abundance" || String.eqb f "Model.gastodust")%bool
    then Some AbundanceGasToDust
  else if String.eqb f "Model.DataTab_LIME" then Some FileExport
  else if String.eqb f "Model.PrintProperties" then Some PropertyPrinting
  else if (String.eqb f "np.array" || String.eqb f "colors.LogNorm"
           || String.eqb f "Plot_model.scatter3D" || String.eqb f "Plot_model.plane2D")%bool
    then Some Plotting
  else None.

(** Consecutive calls of one stage form one block. *)
Fixpoint blocks (l : list stage) : list stage :=
  match l with
  | [] => []
  | a :: l' =>
      match l' with
      | b :: _ => if stage_eqb a b then blocks l' else a :: blocks l'
      | [] => [a]
      end
  end.

Definition stage_blocks (names : list string) : list stage :=
  blocks (omap stage_of names).

Definition pipeline : list stage :=
  [ GridCreation; DensityEnvelope; DensityDisc; DensityComposite; Temperature;
    Velocity; AbundanceGasToDust; FileExport; PropertyPrinting; Plotting ].

(** The function that carries out each stage short of plotting. *)
Definition stage_functions : list string :=
  [ "Model.grid"; "Model.density_Env_Disc"; "Model.density_Hamburgers"; "Model.Struct";
    "Model.temperature_Hamburgers"; "Model.velocity"; "Model.abundance";
    "Model.gastodust"; "Model.DataTab_LIME"; "Model.PrintProperties" ].

Definition occurrences (f : string) (names : list string) : nat :=
  length (List.filter (String.eqb f) names).

(** The image file a call is asked to write: its [output] argument. *)
Definition image_request (ev : event F W) : option (string * value F) :=
  match ev with
  | ECall f _ kwargs _ _ _ => (fun v => (f, v)) <$> kwarg "output" kwargs
  | ERaise _ => None
  end.

Definition image_requests (l : list (event F W)) : list (string * value F) :=
  omap image_request l.

(** The calls of [f] in a log. *)
Definition calls_of (f : string) (l : list (event F W)) : list (event F W) :=
  List.filter (fun ev => match call_name ev with
                         | Some g => String.eqb f g
                         | None => false
                         end) l.

(** [v] was returned by a call of [f] in the log. *)
Definition returned_by (f : string) (l : list (event F W)) (v : value F) : Prop :=
  ∃ args kwargs pre post, In (ECall f args kwargs pre (Ok v) post) l.

(** *** Weakest preconditions *)

(** [m] run in [c] ends normally in a configuration satisfying [Q], or
    raises into one satisfying [E]. *)
Definition wp {A} (m : M F W A) (Q : A → cfg F W → Prop) (E : exn → cfg F W → Prop)
    (c : cfg F W) : Prop :=
  match m c with
  | (Ok a, c') => Q a c'
  | (Raise e, c') => E e c'
  end.

(** The log so far is free of exceptions and [rest] is what remains of
    [script_calls]. *)
Definition on_track (rest : list string) (c : cfg F W) : Prop :=
  all_normal (log c) ∧ calls (log c) ++ rest = script_calls.

(** The log ends with the event that raised [e]; nothing before it
    raised, and the calls made are an initial part of [script_calls]. *)
Definition stopped_by (e : exn) (c : cfg F W) : Prop :=
  ∃ l ev, log c = l ++ [ev] ∧ all_normal l ∧ ev_failed ev = Some e ∧
          calls (log c) `prefix_of` script_calls.

(** [b] holds every object of [a], unchanged, and has the same world. *)
Definition state_grows (a b : state F W) : Prop :=
  heap a ⊆ heap b ∧ world a = world b.

(** The script leaves the objects it finds as they are: the state it
    hands to a library call, and the one it ends with, grow from the state
    it was last given ([given] at first, then what each call left). *)
Fixpoint script_frames (given : state F W) (l : list (event F W)) (final : state F W) : Prop :=
  match l with
  | [] => state_grows given final
  | ECall _ _ _ pre _ post :: l' => state_grows given pre ∧ script_frames post l' final
  | ERaise _ :: l' => script_frames given l' final
  end.

(** The states an event starts in and leaves. *)
Definition ev_pre (ev : event F W) : option (state F W) :=
  match ev with
  | ECall _ _ _ pre _ _ => Some pre
  | ERaise _ => None
  end.

Definition ev_post (ev : event F W) : option (state F W) :=
  match ev with
  | ECall _ _ _ _ _ post => Some post
  | ERaise _ => None
  end.

(** The exception a library call raised. *)
Definition ev_library_raise (ev : event F W) : option exn :=
  match ev with
  | ECall _ _ _ _ (Raise e) _ => Some e
  | _ => None
  end.

(** A call as the library sees it: the function, its arguments and the
    result it gave. *)
Definition call_record (ev : event F W)
    : option (string * list (value F) * list (string * value F) * result (value F)) :=
  match ev with
  | ECall f args kwargs _ r _ => Some (f, args, kwargs, r)
  | ERaise _ => None
  end.

Definition call_records (l : list (event F W)) :=
  omap call_record l.

(** The state the [i]-th event of a log starts in, and the one it leaves. *)
Definition pre_state (l : list (event F W)) (i : nat) : option (state F W) :=
  l !! i ≫= ev_pre.

Definition post_state (l : list (event F W)) (i : nat) : option (state F W) :=
  l !! i ≫= ev_post.

(** All the values a call is given, positional and keyword. *)
Definition ev_arguments (ev : event F W) : list (value F) :=
  match ev with
  | ECall _ args kwargs _ _ _ => args ++ map snd kwargs
  | ERaise _ => []
  end.

(** An object of the store that did not exist when some library call of
    the log returned and exists when the next one starts: the script made
    it in between. *)
Definition script_made (l : list (event F W)) (o : loc) : Prop :=
  ∃ i post pre,
    post_state l i = Some post ∧ pre_state l (S i) = Some pre ∧
    heap post !! o = None ∧ is_Some (heap pre !! o).

(** Some call of the log is given an object the script made. *)
Definition passes_computed (l : list (event F W)) : Prop :=
  ∃ j ev o,
    l !! j = Some ev ∧ In (VRef o) (ev_arguments ev) ∧ script_made (take (S j) l) o.

(** The image requests addressed to [f]. *)
Definition requests_of (f : string) (reqs : list (string * value F)) : list (string * value F) :=
  List.filter (fun r => String.eqb f (fst r)) reqs.

(** A run that ends normally with a call of [Plot_model.plane2D], which
    returned, as its last event. *)
Definition ends_after_last_plot (r : result (value F) * cfg F W) : Prop :=
  ∃ v args kwargs pre res post,
    fst r = Ok v ∧
    last (log (snd r)) = Some (ECall "Plot_model.plane2D" args kwargs pre (Ok res) post).

End Observations.

(** ** Straight-line code *)

Section StraightLine.
Context {F W : Type}.
Context (lib : library F W).

(** A computation that calls no library: it leaves the log alone, or adds
    the exception it raises; it leaves the objects of the store as they
    are. *)
Definition quiet {A} (m : M F W A) : Prop :=
  ∀ c, match m c with
       | (Ok _, c') => log c' = log c ∧ state_grows (st c) (st c')
       | (Raise e, c') => log c' = log c ++ [ERaise e] ∧ state_grows (st c) (st c')
       end.

(** An event is a call answered by the library, or the construction of a
    new object that leaves the others as they are. *)
Definition answered (ev : event F W) : Prop :=
  match ev with
  | ECall f args kwargs pre r post =>
      lib f args kwargs pre = (r, post) ∨ state_grows pre post
  | ERaise _ => True
  end.

(** A computation that is one call of [f], made in the state it is
    started in. *)
Definition calling (f : string) (m : M F W (value F)) : Prop :=
  ∀ c, ∃ args kwargs r s',
    m c = (r, {| st := s'; log := log c ++ [ECall f args kwargs (st c) r s'] |}) ∧
    answered (ECall f args kwargs (st c) r s').

(** Straight-line code making the calls [names], in this order, whatever
    the calls return: quiet steps and calls, in sequence. *)
Inductive straight : ∀ {A}, list string → M F W A → Prop :=
| straight_quiet {A} (m : M F W A) :
    quiet m → straight [] m
| straight_call f (m : M F W (value F)) :
    calling f m → straight [f] m
| straight_bind {A B} n1 n2 (m : M F W A) (k : A → M F W B) :
    straight n1 m → (∀ a, straight n2 (k a)) → straight (n1 ++ n2) (m ≫= k).

(** The library leaves the objects of the store as they are. *)
Definition library_keeps_objects : Prop :=
  ∀ f args kwargs s, heap s ⊆ heap (snd (lib f args kwargs s)).

End StraightLine.

(** ** The store along a run *)

Section StoreObservations.
Context {F : Type} `{PyFloat F} {W : Type}.

(** The stores a run goes through: the one it starts with, the ones each
    library call is given and leaves, and the one it ends with. *)
Definition store_history (s : state F W) (l : list (event F W)) (final : state F W)
    : list (gmap loc (obj F)) :=
  heap s :: flat_map (fun ev => match ev with
                                | ECall _ _ _ pre _ post => [heap pre; heap post]
                                | ERaise _ => []
                                end) l ++ [heap final].

(** What the call of [Model.Struct] that builds the composite density is
    given and returns, [before] being the events that precede it. *)
Definition composite_density_built (before : list (event F W)) (ev : event F W) : Prop :=
  match ev with
  | ECall _ _ _ pre res post =>
      ∃ densEnv densDisc le ld lt lc xs ys zs,
        returned_by "Model.density_Env_Disc" before densEnv ∧
        returned_by "Model.density_Hamburgers" before densDisc ∧
        getattr_in (heap pre) densEnv "total" = Ok (VRef le) ∧
        getattr_in (heap pre) densDisc "total" = Ok (VRef ld) ∧
        heap pre !! le = Some (OArr xs) ∧
        heap pre !! ld = Some (OArr ys) ∧
        np_broadcast fadd xs ys = Ok zs ∧
        res = Ok (VRef lc) ∧
        getattr_in (heap post) (VRef lc) "total" = Ok (VRef lt) ∧
        heap post !! lt = Some (OArr zs) ∧
        getattr_in (heap post) (VRef lc) "disc" = Ok (VRef ld) ∧
        heap post !! ld = Some (OArr ys) ∧
        getattr_in (heap post) (VRef lc) "env" = Ok (VRef le) ∧
        heap post !! le = Some (OArr xs) ∧
        getattr_in (heap post) (VRef lc) "discFlag" = Ok (VBool true) ∧
        getattr_in (heap post) (VRef lc) "envFlag" = Ok (VBool true) ∧
        (length xs = length ys →
         length zs = length xs ∧
         ∀ i x y, xs !! i = Some x → ys !! i = Some y → zs !! i = Some (fadd x y))
  | ERaise _ => False
  end.

(** Every call of [Model.Struct] in a log builds the composite density. *)
Definition composite_inv (l : list (event F W)) : Prop :=
  ∀ i ev, l !! i = Some ev → call_name ev = Some "Model.Struct" →
          composite_density_built (take i l) ev.

(** A literal of the source: [None], a boolean, a number or a string
    written out in the text.  Lists, dictionaries and references to stored
    objects are built when the script runs. *)
Definition is_literal (v : value F) : Prop :=
  match v with
  | VNone | VBool _ | VInt _ | VStr _ => True
  | VFloat x => ∃ q, x = lit q
  | VList _ | VDict _ | VRef _ => False
  end.

(** Every call of the log is given literals only. *)
Definition only_literal_arguments (l : list (event F W)) : Prop :=
  Forall (fun ev => Forall is_literal (ev_arguments ev)) l.

(** An event other than a call of [Model.Struct]. *)
Definition not_struct (ev : event F W) : bool :=
  match call_name ev with
  | Some f => negb (String.eqb f "Model.Struct")
  | None => true
  end.

End StoreObservations.

(** ** Calls, their arguments and their answers *)

Section CallObservations.
Context {F : Type} `{PyFloat F} {W : Type}.

(** The value a call returned. *)
Definition ev_value (ev : event F W) : option (value F) :=
  match ev with
  | ECall _ _ _ _ (Ok v) _ => Some v
  | _ => None
  end.

(** A plotting function of the library. *)
Definition is_plot (f : string) : bool :=
  (String.eqb f "Plot_model.scatter3D" || String.eqb f "Plot_model.plane2D")%bool.

(** Every library call of a log is made with a function and arguments
    satisfying [P]. *)
Definition every_call (P : string → list (value F) → list (string * value F) → Prop)
    (l : list (event F W)) : Prop :=
  Forall (fun ev => match ev with
                    | ECall f args kwargs _ _ _ => P f args kwargs
                    | ERaise _ => True
                    end) l.

(** [J] holds of the log when the computation ends, normally or not,
    provided it held when the computation started: whatever the library
    answers. *)
Definition log_invariant (J : list (event F W) → Prop) {A} (m : M F W A) : Prop :=
  ∀ c, J (log c) → wp m (fun _ c' => J (log c')) (fun _ c' => J (log c')) c.

(** A plot goes to a named file and opens no window. *)
Definition plots_to_file (f : string) (args : list (value F)) (kwargs : list (string * value F))
    : Prop :=
  is_plot f = true →
  kwarg "show" kwargs = Some (VBool false) ∧ ∃ name, kwarg "output" kwargs = Some (VStr name).

(** The norm a call of [colors.LogNorm] returned. *)
Definition norm_of (ev : event F W) : option (value F) :=
  match ev with
  | ECall f _ _ _ (Ok v) _ => if String.eqb f "colors.LogNorm" then Some v else None
  | _ => None
  end.

(** A plotting call is given, as its [norm], what the event [prev] before
    it returned, a call of [colors.LogNorm]. *)
Definition uses_norm (prev : option (event F W)) (ev : event F W) : Prop :=
  match ev with
  | ECall f _ kwargs _ _ _ =>
      is_plot f = true →
      ∃ lognorm v, prev = Some lognorm ∧ norm_of lognorm = Some v ∧
                   kwarg "norm" kwargs = Some v
  | ERaise _ => True
  end.

(** Every plotting call of a log uses the norm made just before it. *)
Definition norms_fresh (l : list (event F W)) : Prop :=
  ∀ i ev, l !! i = Some ev →
          uses_norm (match i with O => None | S j => l !! j end) ev.

(** [v] has the attribute [a]. *)
Definition has_attr (h : gmap loc (obj F)) (v : value F) (a : string) : Prop :=
  ∃ x, getattr_in h v a = Ok x.

(** The attribute [a] of [v] is an array of [n] values. *)
Definition has_array (h : gmap loc (obj F)) (v : value F) (a : string) (n : nat) : Prop :=
  ∃ l xs, getattr_in h v a = Ok (VRef l) ∧ h !! l = Some (OArr xs) ∧ length xs = n.

(** What the script relies on in the answer of a library call: the call
    returns; the clock gives a float; the grid has [NPoints]; the density
    and temperature aggregates have the attributes the script reads, their
    [total] being an array with one value for each of the [n] grid
    points. *)
Definition usable_result (n : nat) (ev : event F W) : Prop :=
  match ev with
  | ECall f _ _ _ (Ok v) post =>
      if String.eqb f "time.time" then ∃ t, v = VFloat t
      else if String.eqb f "Model.grid" then has_attr (heap post) v "NPoints"
      else if String.eqb f "Model.density_Env_Disc" then
        has_array (heap post) v "total" n ∧ has_attr (heap post) v "r_env" ∧
        has_attr (heap post) v "streamline"
      else if String.eqb f "Model.density_Hamburgers" then
        has_array (heap post) v "total" n ∧ has_attr (heap post) v "H" ∧
        has_attr (heap post) v "Rt" ∧ has_attr (heap post) v "r_disc"
      else if String.eqb f "Model.temperature_Hamburgers" then
        has_array (heap post) v "total" n
      else True
  | ECall _ _ _ _ (Raise _) _ => False
  | ERaise _ => True
  end.

(** The same, as a test. *)
Definition has_attrb (h : gmap loc (obj F)) (v : value F) (a : string) : bool :=
  match getattr_in h v a with
  | Ok _ => true
  | Raise _ => false
  end.

Definition has_arrayb (h : gmap loc (obj F)) (v : value F) (a : string) (n : nat) : bool :=
  match getattr_in h v a with
  | Ok (VRef l) =>
      match h !! l with
      | Some (OArr xs) => (length xs =? n)%nat
      | _ => false
      end
  | _ => false
  end.

Definition usable_resultb (n : nat) (ev : event F W) : bool :=
  match ev with
  | ECall f _ _ _ (Ok v) post =>
      if String.eqb f "time.time" then match v with VFloat _ => true | _ => false end
      else if String.eqb f "Model.grid" then has_attrb (heap post) v "NPoints"
      else if String.eqb f "Model.density_Env_Disc" then
        has_arrayb (heap post) v "total" n && has_attrb (heap post) v "r_env" &&
        has_attrb (heap post) v "streamline"
      else if String.eqb f "Model.density_Hamburgers" then
        has_arrayb (heap post) v "total" n && has_attrb (heap post) v "H" &&
        has_attrb (heap post) v "Rt" && has_attrb (heap post) v "r_disc"
      else if String.eqb f "Model.temperature_Hamburgers" then
        has_arrayb (heap post) v "total" n
      else true
  | ECall _ _ _ _ (Raise _) _ => false
  | ERaise _ => true
  end.

(** What the export is given as its first argument, [l] being the log it
    belongs to: the array that holds, when the call is made, the numpy
    sum of the [total] arrays of the envelope and disc aggregates. *)
Definition density_sum_exported (l : list (event F W)) (ev : event F W) : Prop :=
  match ev with
  | ECall _ args _ pre _ _ =>
      ∃ densEnv densDisc le ld lt xs ys zs rest,
        args = VRef lt :: rest ∧
        returned_by "Model.density_Env_Disc" l densEnv ∧
        returned_by "Model.density_Hamburgers" l densDisc ∧
        getattr_in (heap pre) densEnv "total" = Ok (VRef le) ∧
        heap pre !! le = Some (OArr xs) ∧
        getattr_in (heap pre) densDisc "total" = Ok (VRef ld) ∧
        heap pre !! ld = Some (OArr ys) ∧
        heap pre !! lt = Some (OArr zs) ∧
        np_broadcast fadd xs ys = Ok zs
  | ERaise _ => False
  end.

(** What the last plotting call is given, [l] being the log it belongs
    to: the grid and the array that holds, when the call is made, the
    numpy product of the temperature with the composite density divided
    by [1e6]; the image is the emissivity one. *)
Definition emissivity_plotted (l : list (event F W)) (ev : event F W) : Prop :=
  match ev with
  | ECall f args kwargs pre _ _ =>
      ∃ GRID temperature density lt ld le ts rho zs,
        f = "Plot_model.plane2D" ∧
        args = [GRID; VRef le] ∧
        kwarg "output" kwargs = Some (VStr "Emissivity_Burger.png") ∧
        returned_by "Model.grid" l GRID ∧
        returned_by "Model.temperature_Hamburgers" l temperature ∧
        returned_by "Model.Struct" l density ∧
        getattr_in (heap pre) temperature "total" = Ok (VRef lt) ∧
        heap pre !! lt = Some (OArr ts) ∧
        getattr_in (heap pre) density "total" = Ok (VRef ld) ∧
        heap pre !! ld = Some (OArr rho) ∧
        heap pre !! le = Some (OArr zs) ∧
        np_broadcast fmul ts (map (fun d => fdiv_ieee d (lit 1e6)) rho) = Ok zs
  | ERaise _ => False
  end.

End CallObservations.

(** ** The arguments of the calls, as the source writes them *)

Section WrittenArguments.
Context {F : Type} `{PyFloat F} `{PyFormat F} {W : Type}.
Context (U : units F).

(** The value the [i]-th event of a log returned. *)
Definition result_at (l : list (event F W)) (i : nat) : option (value F) :=
  l !! i ≫= ev_value.

(** The keyword arguments of the [scatter3D] call of lines 124-125 and of
    a [plane2D] call of lines 134-160. *)
Definition scatter3D_keywords (colordim norm : value F) : list (string * value F) :=
  [("NRand", VInt 4000); ("colordim", colordim); ("axisunit", VFloat (AU U));
   ("cmap", VStr "hot"); ("norm", norm);
   ("colorlabel", VStr "$\rho$ $[cm^{-3}]$");
   ("output", VStr "3DpointsBurger.png"); ("show", VBool false)].

Definition plane2D_keywords (axis : string) (norm : value F) (label output : string)
    : list (string * value F) :=
  [("axisunit", VFloat (AU U)); ("cmap", VStr "ocean_r");
   ("plane", VDict [(axis, VFloat (fmul (of_int 0) (AU U)))]); ("norm", norm);
   ("colorlabel", VStr label); ("output", VStr output); ("show", VBool false)].

(** [v] is [GRID.NPoints] of line 39: the attribute as it was when
    [Model.grid], the third event, returned the grid. *)
Definition npoints_read (before : list (event F W)) (v : value F) : Prop :=
  ∃ GRID s2,
    result_at before 2 = Some GRID ∧ post_state before 2 = Some s2 ∧
    getattr_in (heap s2) GRID "NPoints" = Ok v.

(** [v] is [dens_plot] of line 118: a new array the script made between
    the sixteenth and the seventeenth event, holding the [total] of the
    composite density, as it then was, divided by [1e6]. *)
Definition dens_plot_made (before : list (event F W)) (v : value F) : Prop :=
  ∃ density s15 s16 dt ds lp,
    v = VRef lp ∧
    result_at before 6 = Some density ∧
    post_state before 15 = Some s15 ∧ pre_state before 16 = Some s16 ∧
    getattr_in (heap s15) density "total" = Ok dt ∧
    array_in (heap s15) dt = Ok ds ∧
    new_object (OArr (map (fun x => fdiv_ieee x (lit 1e6)) ds)) s15 = (lp, s16).

(** What the source writes for the [i]-th library call of a run: the
    function [f] and its arguments, [before] being the events that precede
    the call and [pre] the store the call is made in.  An argument is a
    literal, a constant of the unit module, a value an earlier call
    returned or an attribute read from one, or a value the script computes
    from those. *)
Definition written_call (before : list (event F W)) (i : nat) (f : string)
    (args : list (value F)) (kwargs : list (string * value F)) (pre : state F W) : Prop :=
  match i with
  | 0 => (* 17 *)
      (f, args, kwargs) = ("time.time", [], [])
  | 1 => (* 29 *)
      ∃ p r l,
        (f, args, kwargs) =
          ("print", [VStr "RStar:"; VFloat r; VStr ", LStar:"; VFloat l;
                     VStr ", TStar:"; VFloat (TStar p)], []) ∧
        general_parameters U = Ok p ∧
        py_truediv (RStar p) (RSun U) = Ok r ∧
        py_truediv (LStar p) (LSun U) = Ok l
  | 2 => (* 36-38 *)
      (f, args, kwargs) =
        ("Model.grid",
         [VList [VFloat (fmul (of_int 500) (AU U)); VFloat (fmul (of_int 500) (AU U));
                 VFloat (fmul (of_int 500) (AU U))];
          VList [VInt 200; VInt 200; VInt 200]], [])
  | 3 => (* 48 *)
      ∃ p,
        (f, args, kwargs) =
          ("Res.Rho0", [VFloat (MRate p); VFloat (Rd p); VFloat (MStar p)], []) ∧
        general_parameters U = Ok p
  | 4 => (* 49-52 *)
      ∃ p GRID Rho0,
        (f, args, kwargs) =
          ("Model.density_Env_Disc",
           [VFloat (RStar p); VFloat (Rd p); Rho0; VNone; GRID],
           [("discFlag", VBool false); ("envFlag", VBool true);
            ("renv_max", VFloat (fmul (lit 2.5) (Rd p)))]) ∧
        general_parameters U = Ok p ∧
        result_at before 2 = Some GRID ∧ result_at before 3 = Some Rho0
  | 5 => (* 56-60 *)
      ∃ p GRID Rho0,
        (f, args, kwargs) =
          ("Model.density_Hamburgers",
           [VFloat (RStar p); VFloat (lit 0.03); VFloat (Rd p); Rho0; VFloat (lit 5.25);
            GRID],
           [("discFlag", VBool true); ("rdisc_max", VFloat (fmul (lit 1.5) (Rd p)))]) ∧
        general_parameters U = Ok p ∧
        result_at before 2 = Some GRID ∧ result_at before 3 = Some Rho0
  | 6 => (* 64-73 *)
      ∃ densEnv densDisc s5 env_total disc_total xs ys zs total
        disc env H_ Rt r_disc r_env streamline,
        (f, args, kwargs) =
          ("Model.Struct", [],
           [("total", VRef total); ("disc", disc); ("env", env); ("H", H_); ("Rt", Rt);
            ("discFlag", VBool true); ("envFlag", VBool true);
            ("r_disc", r_disc); ("r_env", r_env); ("streamline", streamline)]) ∧
        result_at before 4 = Some densEnv ∧ result_at before 5 = Some densDisc ∧
        post_state before 5 = Some s5 ∧
        getattr_in (heap s5) densEnv "total" = Ok env_total ∧
        getattr_in (heap s5) densDisc "total" = Ok disc_total ∧
        array_in (heap s5) env_total = Ok xs ∧
        array_in (heap s5) disc_total = Ok ys ∧
        np_broadcast fadd xs ys = Ok zs ∧
        new_object (OArr zs) s5 = (total, pre) ∧
        getattr_in (heap pre) densDisc "total" = Ok disc ∧
        getattr_in (heap pre) densEnv "total" = Ok env ∧
        getattr_in (heap pre) densDisc "H" = Ok H_ ∧
        getattr_in (heap pre) densDisc "Rt" = Ok Rt ∧
        getattr_in (heap pre) densDisc "r_disc" = Ok r_disc ∧
        getattr_in (heap pre) densEnv "r_env" = Ok r_env ∧
        getattr_in (heap pre) densEnv "streamline" = Ok streamline
  | 7 => (* 78-82 *)
      ∃ p GRID density,
        (f, args, kwargs) =
          ("Model.temperature_Hamburgers",
           [VFloat (TStar p); VFloat (RStar p); VFloat (MStar p); VFloat (MRate p);
            VFloat (Rd p); VFloat (lit 250); VFloat (lit 60); density; GRID],
           [("Tmin_disc", VFloat (lit 10)); ("inverted", VBool false)]) ∧
        general_parameters U = Ok p ∧
        result_at before 2 = Some GRID ∧ result_at before 6 = Some density
  | 8 => (* 87 *)
      ∃ p GRID density,
        (f, args, kwargs) =
          ("Model.velocity",
           [VFloat (RStar p); VFloat (MStar p); VFloat (Rd p); density; GRID], []) ∧
        general_parameters U = Ok p ∧
        result_at before 2 = Some GRID ∧ result_at before 6 = Some density
  | 9 => (* 92-93 *)
      ∃ NPoints,
        (f, args, kwargs) = ("Model.abundance", [VFloat (lit 5e-8); NPoints], []) ∧
        npoints_read before NPoints
  | 10 => (* 95-96 *)
      ∃ NPoints,
        (f, args, kwargs) = ("Model.gastodust", [VFloat (lit 100); NPoints], []) ∧
        npoints_read before NPoints
  | 11 => (* 101 *)
      ∃ GRID density temperature vel abundance gtdratio density_total temperature_total,
        (f, args, kwargs) =
          ("Model.DataTab_LIME",
           [density_total; temperature_total; vel; abundance; gtdratio; GRID], []) ∧
        result_at before 2 = Some GRID ∧ result_at before 6 = Some density ∧
        result_at before 7 = Some temperature ∧ result_at before 8 = Some vel ∧
        result_at before 9 = Some abundance ∧ result_at before 10 = Some gtdratio ∧
        getattr_in (heap pre) density "total" = Ok density_total ∧
        getattr_in (heap pre) temperature "total" = Ok temperature_total
  | 12 => (* 106 *)
      ∃ GRID density temperature,
        (f, args, kwargs) = ("Model.PrintProperties", [density; temperature; GRID], []) ∧
        result_at before 2 = Some GRID ∧ result_at before 6 = Some density ∧
        result_at before 7 = Some temperature
  | 13 => (* 111 *)
      (f, args, kwargs) = ("time.time", [], [])
  | 14 => (* 111 *)
      ∃ t0 t1,
        (f, args, kwargs) =
          ("print", [VStr ("Ellapsed time: " +:+ fmt3f (fsub t1 t0) +:+ "s")], []) ∧
        result_at before 0 = Some (VFloat t0) ∧ result_at before 13 = Some (VFloat t1)
  | 15 => (* 112 *)
      (f, args, kwargs) = ("print", [VStr (dashes +:+ nl +:+ dashes +:+ nl)], [])
  | 16 => (* 120 *)
      (f, args, kwargs) = ("np.array", [VList [VFloat (lit 5e11); VFloat (lit 5e15)]], [])
  | 17 => (* 120-121 *)
      (f, args, kwargs) =
        ("colors.LogNorm", [],
         [("vmin", VFloat (fdiv_ieee (lit 5e11) (lit 1e6)));
          ("vmax", VFloat (fdiv_ieee (lit 5e15) (lit 1e6)))])
  | 18 => (* 123-125 *)
      ∃ GRID temperature temperature_total dens_plot norm,
        (f, args, kwargs) =
          ("Plot_model.scatter3D",
           [GRID; temperature_total; VFloat (fmul (of_int 10) (lit 250))],
           scatter3D_keywords dens_plot norm) ∧
        result_at before 2 = Some GRID ∧ result_at before 7 = Some temperature ∧
        result_at before 17 = Some norm ∧
        getattr_in (heap pre) temperature "total" = Ok temperature_total ∧
        dens_plot_made before dens_plot
  | 19 => (* 131 *)
      (f, args, kwargs) = ("np.array", [VList [VFloat (lit 1e12); VFloat (lit 1e17)]], [])
  | 20 => (* 131-132 *)
      (f, args, kwargs) =
        ("colors.LogNorm", [],
         [("vmin", VFloat (fdiv_ieee (lit 1e12) (lit 1e6)));
          ("vmax", VFloat (fdiv_ieee (lit 1e17) (lit 1e6)))])
  | 21 => (* 134-135 *)
      ∃ GRID dens_plot norm,
        (f, args, kwargs) =
          ("Plot_model.plane2D", [GRID; dens_plot],
           plane2D_keywords "z" norm "$[\rm cm^{-3}]$" "DensMidplane_Burger.png") ∧
        result_at before 2 = Some GRID ∧ result_at before 20 = Some norm ∧
        dens_plot_made before dens_plot
  | 22 => (* 137 *)
      (f, args, kwargs) = ("np.array", [VList [VFloat (lit 1e11); VFloat (lit 5e15)]], [])
  | 23 => (* 137-138 *)
      (f, args, kwargs) =
        ("colors.LogNorm", [],
         [("vmin", VFloat (fdiv_ieee (lit 1e11) (lit 1e6)));
          ("vmax", VFloat (fdiv_ieee (lit 5e15) (lit 1e6)))])
  | 24 => (* 140-141 *)
      ∃ GRID dens_plot norm,
        (f, args, kwargs) =
          ("Plot_model.plane2D", [GRID; dens_plot],
           plane2D_keywords "y" norm "$[\rm cm^{-3}]$" "DensVertical_Burger.png") ∧
        result_at before 2 = Some GRID ∧ result_at before 23 = Some norm ∧
        dens_plot_made before dens_plot
  | 25 => (* 143 *)
      (f, args, kwargs) = ("np.array", [VList [VFloat (lit 5e1); VFloat (lit 3e3)]], [])
  | 26 => (* 143-144 *)
      (f, args, kwargs) =
        ("colors.LogNorm", [], [("vmin", VFloat (lit 5e1)); ("vmax", VFloat (lit 3e3))])
  | 27 => (* 146-147 *)
      ∃ GRID temperature temperature_total norm,
        (f, args, kwargs) =
          ("Plot_model.plane2D", [GRID; temperature_total],
           plane2D_keywords "z" norm "[Kelvin]" "TempMidplane_Burger.png") ∧
        result_at before 2 = Some GRID ∧ result_at before 7 = Some temperature ∧
        result_at before 26 = Some norm ∧
        getattr_in (heap pre) temperature "total" = Ok temperature_total
  | 28 => (* 149 *)
      (f, args, kwargs) = ("np.array", [VList [VFloat (lit 5e1); VFloat (lit 2e3)]], [])
  | 29 => (* 149-150 *)
      (f, args, kwargs) =
        ("colors.LogNorm", [], [("vmin", VFloat (lit 5e1)); ("vmax", VFloat (lit 2e3))])
  | 30 => (* 152-153 *)
      ∃ GRID temperature temperature_total norm,
        (f, args, kwargs) =
          ("Plot_model.plane2D", [GRID; temperature_total],
           plane2D_keywords "y" norm "[Kelvin]" "TempVertical_Burger.png") ∧
        result_at before 2 = Some GRID ∧ result_at before 7 = Some temperature ∧
        result_at before 29 = Some norm ∧
        getattr_in (heap pre) temperature "total" = Ok temperature_total
  | 31 => (* 156 *)
      (f, args, kwargs) = ("np.array", [VList [VFloat (lit 3e7); VFloat (lit 5e12)]], [])
  | 32 => (* 156-157 *)
      (f, args, kwargs) =
        ("colors.LogNorm", [], [("vmin", VFloat (lit 3e7)); ("vmax", VFloat (lit 5e12))])
  | 33 => (* 159-160 *)
      ∃ GRID temperature s32 temperature_total dens_plot ts ds zs emissivity norm,
        (f, args, kwargs) =
          ("Plot_model.plane2D", [GRID; VRef emissivity],
           plane2D_keywords "y" norm "[$\rho$ T]" "Emissivity_Burger.png") ∧
        result_at before 2 = Some GRID ∧ result_at before 7 = Some temperature ∧
        result_at before 32 = Some norm ∧
        post_state before 32 = Some s32 ∧
        getattr_in (heap s32) temperature "total" = Ok temperature_total ∧
        dens_plot_made before dens_plot ∧
        array_in (heap s32) temperature_total = Ok ts ∧
        array_in (heap s32) dens_plot = Ok ds ∧
        np_broadcast fmul ts ds = Ok zs ∧
        new_object (OArr zs) s32 = (emissivity, pre)
  | _ => False
  end.

(** The [i]-th event of a run, when it is a call, is made as the source
    writes it; an exception raised by the script itself is given no
    argument. *)
Definition event_as_written (before : list (event F W)) (i : nat) (ev : event F W) : Prop :=
  match ev with
  | ECall f args kwargs pre _ _ => written_call before i f args kwargs pre
  | ERaise _ => True
  end.

(** Every call of a log is made as the source writes it. *)
Definition arguments_as_written (l : list (event F W)) : Prop :=
  ∀ i ev, l !! i = Some ev → event_as_written (take i l) i ev.

End WrittenArguments.

(** ** A smoke-test double of the libraries

    A small, computable stand-in for the floats and for the libraries, to
    run the script on a concrete input.  It is not a model of IEEE
    arithmetic nor of the modelling library. *)
Module Smoke.
Local Open Scope Q_scope.

(** Rational arithmetic.  Rationals are not closed under fractional
    powers: the exponent is truncated to an integer. *)
Definition q_pow (x y : Q) : result Q :=
  if (Qeq_bool x 0 && (Qnum y <? 0)%Z)%bool then Raise ZeroDivisionError
  else Ok (Qred (Qpower x (Qfloor y))).

(** ['%.3f' % x], truncating. *)
Definition q_fmt3f (x : Q) : string :=
  let n := Qfloor (x * 1000) in
  let digits := pretty (Z.abs n mod 1000)%Z in
  let pad := match String.length digits with
             | 1%nat => "00" | 2%nat => "0" | _ => ""
             end in
  (if (n <? 0)%Z then "-" else "") +:+ pretty (Z.abs n / 1000)%Z +:+ "." +:+ pad +:+ digits.

#[global] Instance q_float : PyFloat Q := {|
  lit := Qred;
  of_int := inject_Z;
  fadd x y := Qred (x + y);
  fsub x y := Qred (x - y);
  fmul x y := Qred (x * y);
  fdiv_ieee x y := Qred (x / y);
  fis_zero x := Qeq_bool x 0;
  fpow := q_pow
|}.

#[global] Instance q_format : PyFormat Q := {| fmt3f := q_fmt3f |}.

Definition q_units : units Q := {|
  MSun := 2; MSun_yr := 3; RSun := 7; LSun := 4; TSun := 5772; AU := 150
|}.

(** The world of the double: the names of the files written so far. *)
Definition wstate : Type := state Q (list string).

Definition new_array (xs : list Q) (s : wstate) : value Q * wstate :=
  let '(l, s') := new_object (OArr xs) s in (VRef l, s').

Definition new_struct (attrs : list (string * value Q)) (s : wstate) : result (value Q) * wstate :=
  let '(l, s') := new_object (OStruct (list_to_map attrs)) s in (Ok (VRef l), s').

Definition write_file (name : string) (s : wstate) : result (value Q) * wstate :=
  (Ok VNone, {| heap := heap s; world := world s ++ [name] |}).

(** The double answers each function the script calls; [fail] names a
    function that raises [IOError] instead. *)
Definition smoke_lib (fail : option string) : library Q (list string) :=
  fun f args kwargs s =>
    if bool_decide (fail = Some f) then (Raise (PyExc "IOError"), s)
    else if String.eqb f "time.time" then (Ok (VFloat 0), s)
    else if String.eqb f "Model.grid" then new_struct [("NPoints", VInt 2)] s
    else if String.eqb f "Res.Rho0" then (Ok (VFloat 1), s)
    else if String.eqb f "Model.density_Env_Disc" then
      let '(t, s1) := new_array [1; 2] s in
      new_struct [("total", t); ("r_env", VNone); ("streamline", VNone)] s1
    else if String.eqb f "Model.density_Hamburgers" then
      let '(t, s1) := new_array [10; 20] s in
      new_struct [("total", t); ("H", VNone); ("Rt", VNone); ("r_disc", VNone)] s1
    else if String.eqb f "Model.temperature_Hamburgers" then
      let '(t, s1) := new_array [100; 200] s in
      new_struct [("total", t)] s1
    else if String.eqb f "Model.velocity" then new_struct [] s
    else if String.eqb f "Model.abundance" then
      let '(t, s1) := new_array [5e-8; 5e-8] s in (Ok t, s1)
    else if String.eqb f "Model.gastodust" then
      let '(t, s1) := new_array [100; 100] s in (Ok t, s1)
    else if String.eqb f "Model.DataTab_LIME" then write_file "datatab.dat" s
    else if String.eqb f "colors.LogNorm" then new_struct kwargs s
    else if (String.eqb f "Plot_model.scatter3D" || String.eqb f "Plot_model.plane2D")%bool then
      match kwarg "output" kwargs with
      | Some (VStr name) => write_file name s
      | _ => (Raise TypeError, s)
      end
    else (Ok VNone, s).

Definition proc0 : process := {| argv := ["ExecModel_Burger.py"]; environ := ∅ |}.

Definition s0 : wstate := {| heap := ∅; world := [] |}.

(** The run of the script on the double, and the same run with the
    velocity function failing. *)
Definition smoke_run : result (value Q) * cfg Q (list string) :=
  run q_units (smoke_lib None) proc0 s0.

Definition failing_run : result (value Q) * cfg Q (list string) :=
  run q_units (smoke_lib (Some "Model.velocity")) proc0 s0.

(** The [i]-th event of a log. *)
Definition event_at (l : list (event Q (list string))) (i : nat) : event Q (list string) :=
  default (ERaise TypeError) (l !! i).

(** Units with a zero solar mass, and the parameters of [q_units]. *)
Definition zero_mass_units : units Q := {|
  MSun := 0; MSun_yr := 3; RSun := 7; LSun := 4; TSun := 5772; AU := 150
|}.

Definition q_params : params Q :=
  match general_parameters q_units with
  | Ok p => p
  | Raise _ => {| MStar := 0; MRate := 0; RStar := 0; LStar := 0; TStar := 0; Rd := 0 |}
  end.

(** A double whose grid is [None], and one whose disc density has three
    values where the envelope density has two. *)
Definition gridless_lib : library Q (list string) :=
  fun f args kwargs s =>
    if String.eqb f "Model.grid" then (Ok VNone, s)
    else smoke_lib None f args kwargs s.

Definition ragged_lib : library Q (list string) :=
  fun f args kwargs s =>
    if String.eqb f "Model.density_Hamburgers" then
      let '(t, s1) := new_array [10; 20; 30] s in
      new_struct [("total", t); ("H", VNone); ("Rt", VNone); ("r_disc", VNone)] s1
    else smoke_lib None f args kwargs s.

Definition zero_mass_run : result (value Q) * cfg Q (list string) :=
  run zero_mass_units (smoke_lib None) proc0 s0.

Definition gridless_run : result (value Q) * cfg Q (list string) :=
  run q_units gridless_lib proc0 s0.

Definition ragged_run : result (value Q) * cfg Q (list string) :=
  run q_units ragged_lib proc0 s0.

(** The store the disc density call of [ragged_run] left. *)
Definition ragged_post : wstate :=
  default s0 (post_state (log (snd ragged_run)) 5).

End Smoke.

(** ** The floats read as real numbers *)
Module RealFloat.
Local Open Scope R_scope.

(** [x ** y] on the reals: [exp (y * ln x)] for a positive base; a zero
    base gives 0, 1 or [ZeroDivisionError] by the sign of the exponent; a
    negative base takes integer exponents only. *)
Definition real_pow (x y : R) : result R :=
  if Rlt_dec 0 x then Ok (Rpower x y)
  else if Req_dec_T x 0 then
    (if Rlt_dec 0 y then Ok 0
     else if Req_dec_T y 0 then Ok 1
     else Raise ZeroDivisionError)
  else if Req_dec_T y (IZR (Int_part y)) then Ok (powerRZ x (Int_part y))
  else Raise ValueError.

#[global] Instance real_float : PyFloat R := {|
  lit := Q2R;
  of_int := IZR;
  fadd := Rplus;
  fsub := Rminus;
  fmul := Rmult;
  fdiv_ieee := Rdiv;
  fis_zero x := if Req_dec_T x 0 then true else false;
  fpow := real_pow
|}.

(** Solar and astronomical constants of the usual SI magnitudes, for a
    concrete reading. *)
Definition si_units : units R := {|
  MSun := 1.9891e30; MSun_yr := 6.3e22; RSun := 6.957e8; LSun := 3.828e26; TSun := 5772;
  AU := 1.495978707e11
|}.

End RealFloat.

(** ** The colour limits over the reals *)

Section ColourLimitsOfARun.
Import RealFloat.
Context {W : Type}.

(** The limits a call of [colors.LogNorm] is given, [prev] being the
    event before it: [prev] is the call of [np.array] on two floats, and
    [vmin] and [vmax], the only arguments, are these two floats, as they
    are or both divided by [1e6]; they are positive and increasing, as a
    logarithmic norm needs them. *)
Definition limits_from (prev : option (event R W)) (ev : event R W) : Prop :=
  match ev with
  | ECall f args kwargs _ _ _ =>
      f = "colors.LogNorm" →
      ∃ a b pre res post lo hi,
        prev = Some (ECall "np.array" [VList [VFloat a; VFloat b]] [] pre res post) ∧
        args = [] ∧ kwargs = [("vmin", VFloat lo); ("vmax", VFloat hi)] ∧
        ((lo = a ∧ hi = b) ∨
         (lo = fdiv_ieee a (lit 1e6) ∧ hi = fdiv_ieee b (lit 1e6))) ∧
        (0 < lo < hi)%R
  | ERaise _ => True
  end.

(** Every call of [colors.LogNorm] in a log is given such limits. *)
Definition limits_valid (l : list (event R W)) : Prop :=
  ∀ i ev, l !! i = Some ev →
          limits_from (match i with O => None | S j => l !! j end) ev.

End ColourLimitsOfARun.

(** * Properties *)

(** ** The weakest-precondition calculus *)

Section Logic.
Context {F : Type} `{PyFloat F} {W : Type}.
Context (lib : library F W).
Implicit Types (c : cfg F W) (e : exn) (s : state F W).

Lemma wp_ret {A} (a : A) Q E c : Q a c → wp (mret a) Q E c.
Proof. exact (fun q => q). Qed.

Lemma wp_bind {A B} (m : M F W A) (k : A → M F W B) Q E c :
  wp m (fun a c' => wp (k a) Q E c') E c → wp (m ≫= k) Q E c.
Proof.
  unfold wp, mbind, M_bind. destruct (m c) as [[a|e] c']; exact (fun q => q).
Qed.

Lemma wp_mono {A} (m : M F W A) (Q Q' : A → cfg F W → Prop) (E E' : exn → cfg F W → Prop) c :
  (∀ a c', Q a c' → Q' a c') → (∀ e c', E e c' → E' e c') →
  wp m Q E c → wp m Q' E' c.
Proof.
  unfold wp. intros HQ HE. destruct (m c) as [[a|e] c']; [apply HQ | apply HE].
Qed.

Lemma wp_raise {A} e (Q : A → cfg F W → Prop) E c :
  E e {| st := st c; log := log c ++ [ERaise e] |} → wp (raise e) Q E c.
Proof. exact (fun q => q). Qed.

Lemma wp_lift {A} (r : result A) Q E c :
  match r with
  | Ok a => Q a c
  | Raise e => E e {| st := st c; log := log c ++ [ERaise e] |}
  end → wp (lift r) Q E c.
Proof. destruct r; exact (fun q => q). Qed.

Lemma wp_logged f args kwargs body Q E c :
  (∀ r s', body (st c) = (r, s') →
     match r with
     | Ok v => Q v {| st := s'; log := log c ++ [ECall f args kwargs (st c) (Ok v) s'] |}
     | Raise e => E e {| st := s'; log := log c ++ [ECall f args kwargs (st c) (Raise e) s'] |}
     end) →
  wp (logged f args kwargs body) Q E c.
Proof.
  intros Hk. unfold wp, logged. destruct (body (st c)) as [r s'] eqn:Hb.
  specialize (Hk r s' eq_refl). destruct r; exact Hk.
Qed.

Lemma wp_call f args kwargs Q E c :
  (∀ r s', lib f args kwargs (st c) = (r, s') →
     match r with
     | Ok v => Q v {| st := s'; log := log c ++ [ECall f args kwargs (st c) (Ok v) s'] |}
     | Raise e => E e {| st := s'; log := log c ++ [ECall f args kwargs (st c) (Raise e) s'] |}
     end) →
  wp (call lib f args kwargs) Q E c.
Proof. apply wp_logged. Qed.

Lemma wp_alloc o Q E c :
  (∀ l s', new_object o (st c) = (l, s') → Q (VRef l) {| st := s'; log := log c |}) →
  wp (alloc o) Q E c.
Proof.
  intros Hk. unfold wp, alloc. destruct (new_object o (st c)) as [l s'] eqn:Hn.
  exact (Hk l s' eq_refl).
Qed.

Lemma wp_getattr v a Q E c :
  wp (lift (getattr_in (heap (st c)) v a)) Q E c → wp (getattr v a) Q E c.
Proof. exact (fun q => q). Qed.

Lemma wp_read_array v Q E c :
  wp (lift (array_in (heap (st c)) v)) Q E c → wp (read_array v) Q E c.
Proof. exact (fun q => q). Qed.

Lemma wp_Model_Struct entries Q E c :
  (∀ l s', new_object (OStruct (list_to_map entries)) (st c) = (l, s') →
     Q (VRef l) {| st := s';
                   log := log c ++ [ECall "Model.Struct" [] entries (st c) (Ok (VRef l)) s'] |}) →
  wp (Model_Struct entries) Q E c.
Proof.
  intros Hk. apply wp_logged. intros r s'.
  destruct (new_object _ (st c)) as [l s1] eqn:Hn. intros [= <- <-]. exact (Hk l s1 eq_refl).
Qed.

Lemma wp_np_array xs Q E c :
  (∀ l s', new_object (OArr xs) (st c) = (l, s') →
     Q (VRef l) {| st := s';
                   log := log c ++ [ECall "np.array" [VList (map VFloat xs)] [] (st c)
                                      (Ok (VRef l)) s'] |}) →
  wp (np_array xs) Q E c.
Proof.
  intros Hk. apply wp_logged. intros r s'.
  destruct (new_object _ (st c)) as [l s1] eqn:Hn. intros [= <- <-]. exact (Hk l s1 eq_refl).
Qed.

(** ** The store only grows under the script's own steps *)

Lemma state_grows_refl s : state_grows s s.
Proof. split; reflexivity. Qed.

Lemma state_grows_trans s1 s2 s3 :
  state_grows s1 s2 → state_grows s2 s3 → state_grows s1 s3.
Proof. intros [h1 w1] [h2 w2]. split; [by trans (heap s2) | congruence]. Qed.

Lemma new_object_grows o s l s' : new_object o s = (l, s') → state_grows s s'.
Proof.
  unfold new_object. intros [= <- <-]. split; [| reflexivity]. cbn.
  apply insert_subseteq, not_elem_of_dom, is_fresh.
Qed.

Lemma new_object_lookup o s l s' : new_object o s = (l, s') → heap s' !! l = Some o.
Proof. unfold new_object. intros [= <- <-]. cbn. apply lookup_insert_eq. Qed.

Lemma array_in_new xs s l s' :
  new_object (OArr xs) s = (l, s') → array_in (heap s') (VRef l) = Ok xs.
Proof. intros Hn. cbn. by rewrite (new_object_lookup _ _ _ _ Hn). Qed.

(** ** Quiet steps and calls *)

Lemma quiet_ret {A} (a : A) : quiet (F:=F) (W:=W) (mret a).
Proof. intros c. split; [reflexivity | apply state_grows_refl]. Qed.

Lemma quiet_raise {A} e : quiet (A:=A) (W:=W) (F:=F) (raise e).
Proof. intros c. split; [reflexivity | apply state_grows_refl]. Qed.

Lemma quiet_lift {A} (r : result A) : quiet (F:=F) (W:=W) (lift r).
Proof. destruct r; [apply quiet_ret | apply quiet_raise]. Qed.

Lemma quiet_bind {A B} (m : M F W A) (k : A → M F W B) :
  quiet m → (∀ a, quiet (k a)) → quiet (m ≫= k).
Proof.
  intros Hm Hk c. specialize (Hm c). unfold mbind, M_bind.
  destruct (m c) as [[a|e] c1]; [| exact Hm].
  destruct Hm as [Hl Hs]. specialize (Hk a c1).
  destruct (k a c1) as [[b|e] c2]; destruct Hk as [Hl' Hs'];
    (split; [congruence | by eapply state_grows_trans]).
Qed.

Lemma quiet_getattr v a : quiet (F:=F) (W:=W) (getattr v a).
Proof. intros c. apply (quiet_lift (getattr_in (heap (st c)) v a) c). Qed.

Lemma quiet_read_array v : quiet (F:=F) (W:=W) (read_array v).
Proof. intros c. apply (quiet_lift (array_in (heap (st c)) v) c). Qed.

Lemma quiet_alloc o : quiet (F:=F) (W:=W) (alloc o).
Proof.
  intros c. unfold alloc. destruct (new_object o (st c)) as [l s'] eqn:Hn.
  split; [reflexivity | by eapply new_object_grows].
Qed.

Lemma quiet_ndarray_binop f a b : quiet (F:=F) (W:=W) (ndarray_binop f a b).
Proof.
  unfold ndarray_binop.
  repeat (apply quiet_bind; [first [apply quiet_read_array | apply quiet_lift] | intros ?]).
  apply quiet_alloc.
Qed.

Lemma quiet_ndarray_div_float a y : quiet (F:=F) (W:=W) (ndarray_div_float a y).
Proof.
  unfold ndarray_div_float. apply quiet_bind; [apply quiet_read_array | intros ?].
  apply quiet_alloc.
Qed.

Lemma quiet_unpack2 a : quiet (F:=F) (W:=W) (unpack2 a).
Proof.
  unfold unpack2. apply quiet_bind; [apply quiet_read_array | intros xs].
  destruct xs as [|x [|y [|z xs]]]; first [apply quiet_ret | apply quiet_raise].
Qed.

Lemma quiet_py_sub a b : quiet (F:=F) (W:=W) (py_sub a b).
Proof. destruct a, b; first [apply quiet_ret | apply quiet_raise]. Qed.

Lemma calling_call f args kwargs : calling lib f (call lib f args kwargs).
Proof.
  intros c. unfold call, logged. destruct (lib f args kwargs (st c)) as [r s'] eqn:Hl.
  exists args, kwargs, r, s'. split; [reflexivity | by left].
Qed.

Lemma calling_Model_Struct entries : calling lib "Model.Struct" (Model_Struct entries).
Proof.
  intros c. unfold Model_Struct, logged.
  destruct (new_object _ (st c)) as [l s'] eqn:Hn.
  exists [], entries, (Ok (VRef l)), s'. split; [reflexivity | right].
  by eapply new_object_grows.
Qed.

Lemma calling_np_array xs : calling lib "np.array" (np_array xs).
Proof.
  intros c. unfold np_array, logged.
  destruct (new_object _ (st c)) as [l s'] eqn:Hn.
  exists [VList (map VFloat xs)], [], (Ok (VRef l)), s'. split; [reflexivity | right].
  by eapply new_object_grows.
Qed.

Lemma straight_quiet_bind {A B} n (m : M F W A) (k : A → M F W B) :
  quiet m → (∀ a, straight lib n (k a)) → straight lib n (m ≫= k).
Proof. intros Hm Hk. apply (straight_bind lib [] n); [by apply straight_quiet | exact Hk]. Qed.

Lemma straight_call_bind {B} f n (m : M F W (value F)) (k : value F → M F W B) :
  calling lib f m → (∀ a, straight lib n (k a)) → straight lib (f :: n) (m ≫= k).
Proof. intros Hm Hk. apply (straight_bind lib [f] n); [by apply straight_call | exact Hk]. Qed.

(** ** What straight-line code does to the log *)

Lemma calls_app (l1 l2 : list (event F W)) : calls (l1 ++ l2) = calls l1 ++ calls l2.
Proof. apply omap_app. Qed.

Lemma all_normal_app (l1 l2 : list (event F W)) :
  all_normal (l1 ++ l2) ↔ all_normal l1 ∧ all_normal l2.
Proof. apply Forall_app. Qed.

Lemma all_normal_calls (l : list (event F W)) : all_normal l → length (calls l) = length l.
Proof.
  induction 1 as [|ev l Hev _ IH]; [reflexivity |].
  destruct ev as [f a k pre r post | e]; [| discriminate]. cbn. f_equal. exact IH.
Qed.

(** Straight-line code follows its list of calls: it ends normally with
    the list used up, or is stopped by the first exception. *)
Lemma straight_on_track {A} names (m : M F W A) :
  straight lib names m →
  ∀ rest c, on_track (names ++ rest) c →
            wp m (fun _ c' => on_track rest c') stopped_by c.
Proof.
  induction 1 as [A m Hq | f m Hc | A B n1 n2 m k _ IHm _ IHk]; intros rest c [Hn Hr].
  - specialize (Hq c). unfold wp. destruct (m c) as [[a|e] c']; destruct Hq as [Hl _].
    + split; rewrite Hl; assumption.
    + exists (log c), (ERaise e).
      split; [assumption |]. split; [assumption |]. split; [reflexivity |].
      rewrite Hl, calls_app, app_nil_r. exists rest. by rewrite <- Hr.
  - destruct (Hc c) as (args & kwargs & r & s' & Hm & _). unfold wp. rewrite Hm.
    assert (Hcalls : calls (log c ++ [ECall f args kwargs (st c) r s']) ++ rest = script_calls).
    { rewrite calls_app, <- app_assoc. exact Hr. }
    destruct r as [v|e]; cbn [log].
    + split; [| exact Hcalls]. apply all_normal_app. split; [assumption |]. by constructor.
    + exists (log c), (ECall f args kwargs (st c) (Raise e) s').
      split; [reflexivity |]. split; [assumption |]. split; [reflexivity |].
      exists rest. symmetry. exact Hcalls.
  - apply wp_bind. rewrite <- app_assoc in Hr.
    eapply wp_mono; [| | apply (IHm (n2 ++ rest) c); by split].
    + intros a c' Hc'. by apply IHk.
    + by intros.
Qed.

Lemma script_frames_end given (l : list (event F W)) s s' :
  script_frames given l s → state_grows s s' → script_frames given l s'.
Proof.
  revert given. induction l as [|[f a k pre r post | e] l IH]; intros given; cbn.
  - apply state_grows_trans.
  - intros [Hg Hl] Hs. split; [assumption | by apply IH].
  - apply IH.
Qed.

Lemma script_frames_raise given (l : list (event F W)) e s :
  script_frames given l s → script_frames given (l ++ [ERaise e]) s.
Proof.
  revert given. induction l as [|[f a k pre r post | e'] l IH]; intros given; cbn.
  - exact (fun h => h).
  - intros [Hg Hl]. split; [assumption | by apply IH].
  - apply IH.
Qed.

Lemma script_frames_call given (l : list (event F W)) f a k r s s' :
  script_frames given l s → script_frames given (l ++ [ECall f a k s r s']) s'.
Proof.
  revert given. induction l as [|[f' a' k' pre r' post | e'] l IH]; intros given; cbn.
  - intros Hg. split; [assumption | apply state_grows_refl].
  - intros [Hg Hl]. split; [assumption | by apply IH].
  - apply IH.
Qed.

(** Straight-line code keeps the frame: between two library calls it
    only adds objects to the store. *)
Lemma straight_frames {A} names (m : M F W A) given :
  straight lib names m →
  ∀ c, script_frames given (log c) (st c) →
       wp m (fun _ c' => script_frames given (log c') (st c'))
            (fun _ c' => script_frames given (log c') (st c')) c.
Proof.
  induction 1 as [A m Hq | f m Hc | A B n1 n2 m k _ IHm _ IHk]; intros c Hf.
  - specialize (Hq c). unfold wp. destruct (m c) as [[a|e] c']; destruct Hq as [Hl Hs];
      rewrite Hl.
    + by eapply script_frames_end.
    + apply script_frames_raise. by eapply script_frames_end.
  - destruct (Hc c) as (args & kwargs & r & s' & Hm & _). unfold wp. rewrite Hm.
    destruct r; cbn [log st]; by apply script_frames_call.
  - apply wp_bind. eapply wp_mono; [| | by apply IHm].
    + intros a c' Hc'. by apply IHk.
    + by intros.
Qed.

(** Every event straight-line code logs is answered by the library or
    builds a new object. *)
Lemma straight_answered {A} names (m : M F W A) :
  straight lib names m →
  ∀ c, Forall (answered lib) (log c) →
       wp m (fun _ c' => Forall (answered lib) (log c'))
            (fun _ c' => Forall (answered lib) (log c')) c.
Proof.
  induction 1 as [A m Hq | f m Hc | A B n1 n2 m k _ IHm _ IHk]; intros c Hf.
  - specialize (Hq c). unfold wp. destruct (m c) as [[a|e] c']; destruct Hq as [Hl Hs];
      rewrite Hl; [assumption |].
    apply Forall_app. split; [assumption | by constructor].
  - destruct (Hc c) as (args & kwargs & r & s' & Hm & Ha). unfold wp. rewrite Hm.
    destruct r; cbn [log]; (apply Forall_app; split; [assumption | by constructor]).
  - apply wp_bind. eapply wp_mono; [| | by apply IHm].
    + intros a c' Hc'. by apply IHk.
    + by intros.
Qed.

End Logic.

Create HintDb quiet discriminated.
#[local] Hint Resolve quiet_ret quiet_raise quiet_lift quiet_getattr quiet_read_array
  quiet_alloc quiet_ndarray_binop quiet_ndarray_div_float quiet_unpack2 quiet_py_sub : quiet.
#[local] Hint Resolve calling_call calling_Model_Struct calling_np_array : quiet.

(** One step of a proof that a computation is straight-line code. *)
Ltac straight_step :=
  lazymatch goal with
  | |- straight _ _ (mbind _ _) =>
      first [ apply straight_call_bind; [solve [auto with quiet] |]
            | apply straight_quiet_bind; [solve [auto with quiet] |] ];
      let a := fresh "a" in
      intros a; cbv beta;
      lazymatch goal with
      | |- straight _ _ (match a with _ => _ end) => destruct a; cbv beta iota
      | |- _ => idtac
      end
  | |- straight _ _ (mret _) => apply straight_quiet, quiet_ret
  end.

(** One step of symbolic execution of a [wp] goal; the raising branch is
    left to [fin]. *)
Ltac wp_step fin :=
  lazymatch goal with
  | |- wp (mbind _ _) _ _ _ => apply wp_bind; wp_step fin
  | |- wp (mret _) _ _ _ => apply wp_ret
  | |- wp (raise _) _ _ _ => apply wp_raise; fin
  | |- wp (call _ _ _ _) _ _ _ =>
      let r := fresh "r" in let s := fresh "s" in let Hc := fresh "Hcall" in
      apply wp_call; intros r s Hc; cbn [st log app] in Hc; destruct r; [| fin]
  | |- wp (getattr _ _) _ _ _ =>
      let Hg := fresh "Hget" in
      apply wp_getattr, wp_lift; cbn [st log];
      lazymatch goal with
      | |- match ?r with _ => _ end => destruct r eqn:Hg; [| fin]
      end
  | |- wp (read_array _) _ _ _ =>
      let Hg := fresh "Harr" in
      apply wp_read_array, wp_lift; cbn [st log];
      lazymatch goal with
      | Hn : new_object (OArr _) _ = (?l, ?s) |- match array_in (heap ?s) (VRef ?l) with _ => _ end =>
          rewrite (array_in_new _ _ _ _ Hn)
      | |- match ?r with _ => _ end => destruct r eqn:Hg; [| fin]
      end
  | |- wp (lift (percent_s ?a ?b)) _ _ _ =>
      let v := eval vm_compute in (percent_s a b) in
      change (percent_s a b) with v; apply wp_lift
  | |- wp (lift ?r) _ _ _ =>
      let Hl := fresh "Hlift" in
      apply wp_lift; destruct r eqn:Hl; [| fin]
  | |- wp (alloc _) _ _ _ =>
      let l := fresh "l" in let s := fresh "s" in let Hn := fresh "Hnew" in
      apply wp_alloc; intros l s Hn; cbn [st log] in Hn
  | |- wp (Model_Struct _) _ _ _ =>
      let l := fresh "l" in let s := fresh "s" in let Hn := fresh "Hnew" in
      apply wp_Model_Struct; intros l s Hn; cbn [st log] in Hn
  | |- wp (np_array _) _ _ _ =>
      let l := fresh "l" in let s := fresh "s" in let Hn := fresh "Hnew" in
      apply wp_np_array; intros l s Hn; cbn [st log] in Hn
  | |- wp (ndarray_binop _ _ _) _ _ _ => unfold ndarray_binop at 1
  | |- wp (ndarray_div_float _ _) _ _ _ => unfold ndarray_div_float at 1
  | |- wp (unpack2 _) _ _ _ => unfold unpack2 at 1
  | |- wp (py_sub ?a ?b) _ _ _ =>
      unfold py_sub; destruct a; try (apply wp_raise; fin);
      destruct b; try (apply wp_raise; fin)
  | |- wp (match ?xs with _ => _ end) _ _ _ =>
      destruct xs as [|? [|? [|? ?]]]; try (apply wp_raise; fin)
  end; cbn beta iota delta [st log app map].

Section ScriptLemmas.
Context {F : Type} `{PyFloat F} `{PyFormat F} {W : Type}.
Context (U : units F) (lib : library F W).

(** The module body is straight-line code making [script_calls]. *)
Lemma script_straight proc : straight lib script_calls (script U lib proc).
Proof.
  unfold script, script_calls.
  repeat straight_step.
Qed.

(** Every run follows [script_calls] until it ends or is stopped. *)
Lemma run_on_track proc s :
  match run U lib proc s with
  | (Ok _, c) => all_normal (log c) ∧ calls (log c) = script_calls
  | (Raise e, c) => stopped_by e c
  end.
Proof.
  pose proof (straight_on_track lib _ _ (script_straight proc) [] {| st := s; log := [] |}) as Hw.
  unfold wp in Hw. unfold run.
  destruct (script U lib proc _) as [[v|e] c].
  - destruct Hw as [Hn Hc]; [split; [constructor | apply app_nil_r] |].
    split; [assumption |]. by rewrite app_nil_r in Hc.
  - apply Hw. split; [constructor | apply app_nil_r].
Qed.

Lemma run_frames proc s :
  script_frames s (log (snd (run U lib proc s))) (st (snd (run U lib proc s))).
Proof.
  pose proof (straight_frames lib _ _ s (script_straight proc) {| st := s; log := [] |}) as Hw.
  unfold wp in Hw. unfold run.
  destruct (script U lib proc _) as [[v|e] c]; apply Hw; apply state_grows_refl.
Qed.

Lemma run_answered proc s : Forall (answered lib) (log (snd (run U lib proc s))).
Proof.
  pose proof (straight_answered lib _ _ (script_straight proc) {| st := s; log := [] |}) as Hw.
  unfold wp in Hw. unfold run.
  destruct (script U lib proc _) as [[v|e] c]; apply Hw; constructor.
Qed.

End ScriptLemmas.

(** ** Lists of stages and of events *)

Lemma stage_eqb_eq (a b : stage) : stage_eqb a b = true → a = b.
Proof. destruct a, b; (reflexivity || discriminate). Qed.

Lemma blocks_cons (a : stage) (l : list stage) : ∃ t, blocks (a :: l) = a :: t.
Proof.
  revert a. induction l as [|b l IH]; intros a; [by exists [] |].
  cbn [blocks]. destruct (stage_eqb a b) eqn:Hab.
  - apply stage_eqb_eq in Hab as ->. apply IH.
  - by eexists.
Qed.

Lemma blocks_prefix (l1 l2 : list stage) : blocks l1 `prefix_of` blocks (l1 ++ l2).
Proof.
  induction l1 as [|a [|b l1] IH]; [apply prefix_nil | |].
  - destruct (blocks_cons a l2) as [t Ht]. cbn [app blocks] in *. rewrite Ht. by exists t.
  - change (blocks (a :: b :: l1)) with
      (if stage_eqb a b then blocks (b :: l1) else a :: blocks (b :: l1)).
    change (blocks ((a :: b :: l1) ++ l2)) with
      (if stage_eqb a b then blocks ((b :: l1) ++ l2) else a :: blocks ((b :: l1) ++ l2)).
    destruct (stage_eqb a b); [exact IH | by apply prefix_cons].
Qed.

Lemma stage_blocks_prefix (names : list string) :
  names `prefix_of` script_calls → stage_blocks names `prefix_of` pipeline.
Proof.
  intros [k Hk]. change pipeline with (stage_blocks script_calls).
  rewrite Hk. unfold stage_blocks. rewrite omap_app. apply blocks_prefix.
Qed.

Section Claims.
Context {F : Type} `{PyFloat F} `{PyFormat F} {W : Type}.
Context (U : units F) (lib : library F W).
Implicit Types (proc : process) (s : state F W).

(** The last event of a log that was stopped is the one that raised. *)
Lemma stopped_last (l0 l l' : list (event F W)) ev0 ev e :
  l0 ++ [ev0] = l ++ ev :: l' → all_normal l0 → ev_failed ev = Some e →
  l' = [] ∧ ev = ev0.
Proof.
  intros Heq Hn He. destruct l' as [|x l'] using rev_ind.
  - apply app_inj_tail in Heq as [_ ->]. done.
  - clear IHl'. rewrite app_comm_cons, app_assoc in Heq.
    apply app_inj_tail in Heq as [-> _].
    apply all_normal_app in Hn as [_ Hn]. inversion Hn as [|? ? Hev _]; subst.
    congruence.
Qed.

(** C2.  The module body is straight-line code.  Whatever the library
    returns, the calls of a run are an initial part of the fixed list
    [script_calls], and the stages they belong to an initial part of the
    pipeline, each stage in one block; a run that ends normally has made
    all of them, and each stage function exactly once. *)
Theorem pipeline_in_fixed_order proc s :
  let r := run U lib proc s in
  straight lib script_calls (script U lib proc) ∧
  calls (log (snd r)) `prefix_of` script_calls ∧
  stage_blocks (calls (log (snd r))) `prefix_of` pipeline ∧
  (∀ v, fst r = Ok v →
     calls (log (snd r)) = script_calls ∧
     stage_blocks (calls (log (snd r))) = pipeline ∧
     Forall (fun f => occurrences f (calls (log (snd r))) = 1%nat) stage_functions).
Proof.
  cbn zeta. split; [apply script_straight |].
  pose proof (run_on_track U lib proc s) as Ht.
  destruct (run U lib proc s) as [[v|e] c]; cbn [fst snd].
  - destruct Ht as [_ Hc]. rewrite Hc. split; [done |]. split; [done |].
    intros _ _. split; [done |]. split; [done |].
    repeat constructor.
  - destruct Ht as (l & ev & _ & _ & _ & Hp).
    split; [exact Hp |]. split; [by apply stage_blocks_prefix |]. discriminate.
Qed.

(** C5.  The exception that ends a run is the one raised by its last
    event, and nothing before that event raised; and any event that raises
    is the last one of the run and its exception is the outcome of the
    script. *)
Theorem exceptions_propagate proc s :
  let r := run U lib proc s in
  (∀ e, fst r = Raise e →
     ∃ l ev, log (snd r) = l ++ [ev] ∧ all_normal l ∧ ev_failed ev = Some e) ∧
  (∀ l ev l' e, log (snd r) = l ++ ev :: l' → ev_failed ev = Some e →
     l' = [] ∧ fst r = Raise e).
Proof.
  cbn zeta. pose proof (run_on_track U lib proc s) as Ht.
  destruct (run U lib proc s) as [[v|e0] c]; cbn [fst snd].
  - destruct Ht as [Hn _]. split; [discriminate |].
    intros l ev l' e Hl He. rewrite Hl in Hn.
    apply all_normal_app in Hn as [_ Hn]. inversion Hn as [|? ? Hev _]; subst. congruence.
  - destruct Ht as (l0 & ev0 & Hl0 & Hn0 & He0 & _). split.
    + intros e [= <-]. by exists l0, ev0.
    + intros l ev l' e Hl He. rewrite Hl0 in Hl.
      destruct (stopped_last _ _ _ _ _ _ Hl Hn0 He) as [-> ->]. split; [done |]. congruence.
Qed.

(** From a [wp] fact about the script to its runs that end normally. *)
Lemma completed_run (P : cfg F W → Prop) proc s v :
  wp (script U lib proc) (fun _ c => P c) (fun _ _ => True) {| st := s; log := [] |} →
  fst (run U lib proc s) = Ok v → P (snd (run U lib proc s)).
Proof.
  unfold wp, run. destruct (script U lib proc _) as [[v'|e] c]; [by intros | discriminate].
Qed.

(** C1 (amended).  A run that ends normally asks for six image files, by
    fixed names without a directory: one from [scatter3D] and five from
    [plane2D]; no other call is given an [output]. *)
Theorem image_files_requested proc s v :
  fst (run U lib proc s) = Ok v →
  image_requests (log (snd (run U lib proc s))) =
    [ ("Plot_model.scatter3D", VStr "3DpointsBurger.png");
      ("Plot_model.plane2D", VStr "DensMidplane_Burger.png");
      ("Plot_model.plane2D", VStr "DensVertical_Burger.png");
      ("Plot_model.plane2D", VStr "TempMidplane_Burger.png");
      ("Plot_model.plane2D", VStr "TempVertical_Burger.png");
      ("Plot_model.plane2D", VStr "Emissivity_Burger.png") ].
Proof.
  apply (completed_run (fun c => image_requests (log c) = _)).
  unfold script. repeat wp_step ltac:(exact I).
  reflexivity.
Qed.

(** C3.  A run that ends normally calls the export once, with no keyword
    argument and with six arguments: the [total] of the composite density
    and of the temperature, read when the call is made, and the velocity,
    the abundance, the gas-to-dust ratio and the grid as the library
    returned them earlier in the run. *)
Theorem export_called_once proc s v :
  fst (run U lib proc s) = Ok v →
  ∃ before after density temperature density_total temperature_total
    vel abundance gtdratio GRID pre res post,
    log (snd (run U lib proc s)) =
      before ++ ECall "Model.DataTab_LIME"
                  [density_total; temperature_total; vel; abundance; gtdratio; GRID] []
                  pre res post :: after ∧
    calls_of "Model.DataTab_LIME" (before ++ after) = [] ∧
    returned_by "Model.Struct" before density ∧
    getattr_in (heap pre) density "total" = Ok density_total ∧
    returned_by "Model.temperature_Hamburgers" before temperature ∧
    getattr_in (heap pre) temperature "total" = Ok temperature_total ∧
    returned_by "Model.velocity" before vel ∧
    returned_by "Model.abundance" before abundance ∧
    returned_by "Model.gastodust" before gtdratio ∧
    returned_by "Model.grid" before GRID.
Proof.
  apply (completed_run (fun c => ∃ before after density temperature density_total
    temperature_total vel abundance gtdratio GRID pre res post, log c = _ ∧ _)).
  unfold script. repeat wp_step ltac:(exact I).
  lazymatch goal with
  | |- ∃ before after, _ => 
      match goal with
      | |- context [?L = _ ++ _ :: _] => exists (take 11 L), (drop 12 L)
      end
  end.
  cbn [take drop].
  do 11 eexists. split; [reflexivity |]. split; [reflexivity |].
  unfold returned_by.
  repeat split; try eassumption;
    do 4 eexists; cbn [In]; repeat (first [left; reflexivity | right]).
Qed.

Lemma answered_keeps (ev : event F W) :
  library_keeps_objects lib → answered lib ev →
  match ev with
  | ECall _ _ _ pre _ post => heap pre ⊆ heap post
  | ERaise _ => True
  end.
Proof.
  intros Hk. destruct ev as [f a k pre r post | e]; [| done].
  intros [Hl | [Hg _]]; [| exact Hg].
  specialize (Hk f a k pre). by rewrite Hl in Hk.
Qed.

Lemma store_history_sorted (l : list (event F W)) given final :
  library_keeps_objects lib → Forall (answered lib) l → script_frames given l final →
  Sorted (⊆) (store_history given l final).
Proof.
  intros Hk. revert given. unfold store_history.
  induction l as [|[f a k pre r post | e] l IH]; intros given Ha Hf; cbn in *.
  - destruct Hf as [Hg _]. repeat constructor. exact Hg.
  - destruct Hf as [[Hg _] Hf]. inversion Ha as [|? ? Hev Ha']; subst.
    apply (answered_keeps _ Hk) in Hev.
    constructor; [| by constructor]. constructor; [by apply IH | by constructor].
  - inversion Ha; subst. by apply IH.
Qed.

(** C6.  Between two library calls, and up to its end, the script only
    adds objects to the store and leaves the world alone; so when the
    library does not change objects either, the stores of the run only
    grow: an object is found as it was created by every later use. *)
Theorem objects_left_as_created proc s :
  let c := snd (run U lib proc s) in
  script_frames s (log c) (st c) ∧
  (library_keeps_objects lib → StronglySorted (⊆) (store_history s (log c) (st c))).
Proof.
  cbn zeta. split; [apply run_frames |].
  intros Hk. apply Sorted_StronglySorted.
  - intros h1 h2 h3 H12 H23. by trans h2.
  - apply store_history_sorted; [assumption | apply run_answered | apply run_frames].
Qed.

(** C7.  The run does not depend on the arguments and the environment of
    the process: the same library, started in the same state, gives the
    same result, the same log and the same final state. *)
Theorem independent_of_process (p1 p2 : process) s :
  run U lib p1 s = run U lib p2 s.
Proof. reflexivity. Qed.

End Claims.

(** ** The composite density *)

Section Composite.
Context {F : Type} `{PyFloat F} `{PyFormat F} {W : Type}.
Context (U : units F) (lib : library F W).
Implicit Types (proc : process) (s : state F W).

Lemma getattr_in_mono (h h' : gmap loc (obj F)) v a x :
  h ⊆ h' → getattr_in h v a = Ok x → getattr_in h' v a = Ok x.
Proof.
  intros Hh. destruct v as [| | | | | | |l]; try discriminate. cbn.
  destruct (h !! l) as [[xs|d]|] eqn:Hl; try discriminate.
  by rewrite (lookup_weaken _ _ _ _ Hl Hh).
Qed.

Lemma array_in_inv (h : gmap loc (obj F)) v xs :
  array_in h v = Ok xs → ∃ l, v = VRef l ∧ h !! l = Some (OArr xs).
Proof.
  destruct v as [| | | | | | |l]; try discriminate. cbn.
  destruct (h !! l) as [[ys|d]|] eqn:Hl; try discriminate.
  intros [= ->]. by exists l.
Qed.

Lemma np_broadcast_same (f : F → F → F) xs ys zs :
  np_broadcast f xs ys = Ok zs → length xs = length ys →
  length zs = length xs ∧
  ∀ i x y, xs !! i = Some x → ys !! i = Some y → zs !! i = Some (f x y).
Proof.
  unfold np_broadcast. intros Hb Hlen. rewrite Hlen, Nat.eqb_refl in Hb.
  injection Hb as <-. split.
  - rewrite length_zip_with. lia.
  - intros i x y Hx Hy. by rewrite lookup_zip_with, Hx, Hy.
Qed.

Lemma composite_inv_snoc (l : list (event F W)) ev :
  composite_inv l → call_name ev ≠ Some "Model.Struct" → composite_inv (l ++ [ev]).
Proof.
  intros Hl Hev i ev' Hi Hn.
  destruct (decide (i < length l)%nat) as [Hlt|Hge].
  - rewrite lookup_app_l in Hi by assumption.
    rewrite take_app_le by lia. by apply Hl.
  - rewrite lookup_app_r in Hi by lia.
    destruct (i - length l)%nat; [| by destruct n]. cbn in Hi. congruence.
Qed.

Lemma composite_inv_none (l : list (event F W)) :
  forallb not_struct l = true → composite_inv l.
Proof.
  induction l as [|ev l IH] using rev_ind; [by intros _ [|i] ev |].
  rewrite forallb_app. cbn. rewrite andb_true_r. intros [Hl Hev]%andb_prop.
  apply composite_inv_snoc; [by apply IH |].
  unfold not_struct in Hev. destruct (call_name ev) as [f|]; [| done].
  intros [= ->]. discriminate.
Qed.

Lemma straight_keeps_composite {A} names (m : M F W A) :
  straight lib names m → Forall (fun f => f ≠ "Model.Struct") names →
  ∀ c, composite_inv (log c) →
       wp m (fun _ c' => composite_inv (log c')) (fun _ c' => composite_inv (log c')) c.
Proof.
  induction 1 as [A m Hq | f m Hc | A B n1 n2 m k _ IHm _ IHk]; intros Hn c Hi.
  - specialize (Hq c). unfold wp. destruct (m c) as [[a|e] c']; destruct Hq as [Hl _];
      rewrite Hl; [assumption |]. by apply composite_inv_snoc.
  - destruct (Hc c) as (args & kwargs & r & s' & Hm & _). unfold wp. rewrite Hm.
    inversion Hn as [|? ? Hf _]; subst.
    destruct r; cbn [log]; (apply composite_inv_snoc; [assumption | cbn; congruence]).
  - apply Forall_app in Hn as [Hn1 Hn2].
    apply wp_bind. eapply wp_mono; [| | by apply IHm].
    + intros a c' Hc'. by apply IHk.
    + by intros.
Qed.

Lemma script_builds_composite proc s :
  wp (script U lib proc) (fun _ c => composite_inv (log c)) (fun _ c => composite_inv (log c))
     {| st := s; log := [] |}.
Proof.
  unfold script.
  repeat (lazymatch goal with
          | |- wp (mbind _ (Model_Struct _)) _ _ _ => fail
          | |- _ => wp_step ltac:(by apply composite_inv_none)
          end).
  wp_step ltac:(by apply composite_inv_none).
  eapply straight_keeps_composite;
    [repeat straight_step | repeat constructor; discriminate |].
  cbn [log]. unfold composite_inv. intros i ev Hi Hn.
  do 7 (destruct i as [|i]; [injection Hi as <-; try discriminate Hn |]);
    [| discriminate Hi].
  cbn [take composite_density_built].
  match goal with
  | He : getattr_in (heap ?s5) ?densEnv "total" = Ok ?et,
    Hd : getattr_in (heap ?s5) ?densDisc "total" = Ok ?dt,
    Hxe : array_in (heap ?s5) ?et = Ok ?xs,
    Hxd : array_in (heap ?s5) ?dt = Ok ?ys,
    Hb : np_broadcast fadd ?xs ?ys = Ok ?zs,
    Hn1 : new_object (OArr ?zs) ?s5 = (?lt, ?s6),
    Hd' : getattr_in (heap ?s6) ?densDisc "total" = Ok ?disc,
    He' : getattr_in (heap ?s6) ?densEnv "total" = Ok ?env,
    Hn2 : new_object (OStruct _) ?s6 = (?lc, ?s7) |- _ =>
      destruct (array_in_inv _ _ _ Hxe) as (le & -> & Hle);
      destruct (array_in_inv _ _ _ Hxd) as (ld & -> & Hld);
      pose proof (new_object_grows _ _ _ _ Hn1) as [Hg56 _];
      pose proof (new_object_grows _ _ _ _ Hn2) as [Hg67 _];
      pose proof (new_object_lookup _ _ _ _ Hn1) as Hlt;
      pose proof (new_object_lookup _ _ _ _ Hn2) as Hlc;
      rewrite (getattr_in_mono _ _ _ _ _ Hg56 Hd) in Hd'; injection Hd' as <-;
      rewrite (getattr_in_mono _ _ _ _ _ Hg56 He) in He'; injection He' as <-;
      exists densEnv, densDisc, le, ld, lt, lc, xs, ys, zs;
      split; [do 4 eexists; cbn [In]; repeat (first [left; reflexivity | right]) |];
      split; [do 4 eexists; cbn [In]; repeat (first [left; reflexivity | right]) |];
      split; [exact (getattr_in_mono _ _ _ _ _ Hg56 He) |];
      split; [exact (getattr_in_mono _ _ _ _ _ Hg56 Hd) |];
      split; [exact (lookup_weaken _ _ _ _ Hle Hg56) |];
      split; [exact (lookup_weaken _ _ _ _ Hld Hg56) |];
      split; [exact Hb |];
      split; [reflexivity |];
      split; [cbn [getattr_in]; rewrite Hlc; reflexivity |];
      split; [exact (lookup_weaken _ _ _ _ Hlt Hg67) |];
      split; [cbn [getattr_in]; rewrite Hlc; reflexivity |];
      split; [exact (lookup_weaken _ _ _ _ (lookup_weaken _ _ _ _ Hld Hg56) Hg67) |];
      split; [cbn [getattr_in]; rewrite Hlc; reflexivity |];
      split; [exact (lookup_weaken _ _ _ _ (lookup_weaken _ _ _ _ Hle Hg56) Hg67) |];
      split; [cbn [getattr_in]; rewrite Hlc; reflexivity |];
      split; [cbn [getattr_in]; rewrite Hlc; reflexivity |];
      exact (np_broadcast_same _ _ _ _ Hb)
  end.
Qed.

(** C9.  Whenever a run calls [Model.Struct], the object it returns is the
    composite density: its [total] is a new array holding, index by index,
    the sum of the [total] arrays of the envelope and disc aggregates the
    library returned before; its [disc] and [env] are those two arrays
    themselves; its [discFlag] and [envFlag] are [True]. *)
Theorem composite_density_fields proc s i ev :
  log (snd (run U lib proc s)) !! i = Some ev →
  call_name ev = Some "Model.Struct" →
  composite_density_built (take i (log (snd (run U lib proc s)))) ev.
Proof.
  pose proof (script_builds_composite proc s) as Hw. unfold wp in Hw. unfold run.
  destruct (script U lib proc _) as [[v|e] c]; apply Hw.
Qed.

End Composite.

(** ** The stellar parameters over the reals *)

Section Stellar.
Import RealFloat.
Local Open Scope R_scope.

Lemma real_truediv (x y : R) : y <> 0 -> py_truediv x y = Ok (x / y).
Proof.
  intros Hy. unfold py_truediv. cbn.
  destruct (Req_dec_T y 0); [contradiction | reflexivity].
Qed.

Lemma real_pow_pos (x y : R) : 0 < x -> fpow x y = Ok (Rpower x y).
Proof.
  intros Hx. cbn. unfold real_pow.
  destruct (Rlt_dec 0 x); [reflexivity | contradiction].
Qed.

(** C10.  Over the reals, with non-zero solar mass, radius and
    luminosity, the parameter block succeeds and its values satisfy
    [RStar/RSun = (MStar/MSun)^0.8], [LStar/LSun = (MStar/MSun)^4] and
    [TStar = TSun * ((LStar/LSun) / (RStar/RSun)^2)^0.25
           = TSun * (MStar/MSun)^0.6]. *)
Theorem stellar_scaling_relations (U : units R) :
  MSun U <> 0 -> RSun U <> 0 -> LSun U <> 0 ->
  exists p, general_parameters U = Ok p /\
    RStar p / RSun U = Rpower (MStar p / MSun U) 0.8 /\
    LStar p / LSun U = (MStar p / MSun U) ^ 4 /\
    TStar p = TSun U * Rpower ((LStar p / LSun U) / (RStar p / RSun U) ^ 2) 0.25 /\
    TStar p = TSun U * Rpower (MStar p / MSun U) 0.6.
Proof.
  intros HM HR HL.
  unfold general_parameters.
  set (m := fmul (lit 0.86) (MSun U)).
  assert (Hm : m / MSun U = 0.86).
  { unfold m. change (0.86 * MSun U / MSun U = 0.86). field. exact HM. }
  rewrite (real_truediv _ _ HM), Hm. cbn [mbind result_bind].
  assert (H086 : 0 < 0.86) by lra.
  rewrite (real_pow_pos _ _ H086). cbn [mbind result_bind].
  rewrite (real_pow_pos _ _ H086). cbn [mbind result_bind].
  set (a := Rpower 0.86 (lit 0.8)).
  set (b := Rpower 0.86 (of_int 4)).
  assert (Ha : 0 < a) by apply exp_pos.
  assert (Hb : 0 < b) by apply exp_pos.
  assert (Hl : fmul (LSun U) b / LSun U = b).
  { change (LSun U * b / LSun U = b). field. exact HL. }
  assert (Hr : fmul (RSun U) a / RSun U = a).
  { change (RSun U * a / RSun U = a). field. exact HR. }
  rewrite (real_truediv _ _ HL), Hl. cbn [mbind result_bind].
  rewrite (real_truediv _ _ HR), Hr. cbn [mbind result_bind].
  rewrite (real_pow_pos _ _ Ha). cbn [mbind result_bind].
  assert (Ha2 : 0 < Rpower a (of_int 2)) by apply exp_pos.
  rewrite (real_truediv b (Rpower a (of_int 2))) by lra. cbn [mbind result_bind].
  assert (Hq : 0 < b / Rpower a (of_int 2)) by (apply Rdiv_lt_0_compat; assumption).
  rewrite (real_pow_pos _ _ Hq). cbn [mbind result_bind].
  eexists; split; [reflexivity |].
  cbn [MStar RStar LStar TStar].
  rewrite Hm, Hl, Hr.
  assert (Eb : b = 0.86 ^ 4).
  { unfold b. replace (of_int 4) with (INR 4) by (simpl; lra). apply Rpower_pow. exact H086. }
  assert (Ea2 : Rpower a (of_int 2) = a ^ 2).
  { replace (of_int 2) with (INR 2) by (simpl; lra). apply Rpower_pow. exact Ha. }
  repeat split.
  - exact Eb.
  - change (TSun U * Rpower (b / Rpower a (of_int 2)) (lit 0.25) =
            TSun U * Rpower (b / a ^ 2) 0.25).
    rewrite Ea2. reflexivity.
  - change (TSun U * Rpower (b / Rpower a (of_int 2)) 0.25 = TSun U * Rpower 0.86 0.6).
    f_equal. unfold a, b. rewrite Rpower_mult.
    unfold Rdiv. rewrite <- Rpower_Ropp, <- Rpower_plus, Rpower_mult.
    f_equal. change (lit 0.8) with 0.8. change (of_int 4) with 4. change (of_int 2) with 2. lra.
Qed.

Lemma stellar_scaling_relations_witness :
  MSun si_units <> 0 /\ RSun si_units <> 0 /\ LSun si_units <> 0 /\
  exists p, general_parameters si_units = Ok p /\
    RStar p / RSun si_units = Rpower (MStar p / MSun si_units) 0.8 /\
    LStar p / LSun si_units = (MStar p / MSun si_units) ^ 4 /\
    TStar p = TSun si_units *
              Rpower ((LStar p / LSun si_units) / (RStar p / RSun si_units) ^ 2) 0.25 /\
    TStar p = TSun si_units * Rpower (MStar p / MSun si_units) 0.6.
Proof.
  assert (HM : MSun si_units <> 0) by (change (1.9891e30 <> 0); lra).
  assert (HR : RSun si_units <> 0) by (change (6.957e8 <> 0); lra).
  assert (HL : LSun si_units <> 0) by (change (3.828e26 <> 0); lra).
  split; [exact HM |]. split; [exact HR |]. split; [exact HL |].
  exact (stellar_scaling_relations si_units HM HR HL).
Defined.

End Stellar.
(** ** The script on the smoke-test double *)

Section SmokeRuns.
Import Smoke.

Lemma new_struct_keeps attrs (s : wstate) : heap s ⊆ heap (snd (new_struct attrs s)).
Proof.
  unfold new_struct. destruct (new_object _ s) as [l s'] eqn:Hn.
  apply (new_object_grows _ _ _ _ Hn).
Qed.

Lemma new_array_keeps xs (s : wstate) : heap s ⊆ heap (snd (new_array xs s)).
Proof.
  unfold new_array. destruct (new_object _ s) as [l s'] eqn:Hn.
  apply (new_object_grows _ _ _ _ Hn).
Qed.

(** The double only adds objects to the store. *)
Lemma smoke_lib_keeps fail : library_keeps_objects (smoke_lib fail).
Proof.
  intros f args kwargs s. unfold smoke_lib.
  repeat (case_match; try reflexivity; try apply new_struct_keeps);
    repeat match goal with
           | Hn : new_array ?xs ?s = (?t, ?s1) |- _ =>
               pose proof (new_array_keeps xs s) as Hk; rewrite Hn in Hk; cbn [snd] in Hk;
               clear Hn
           end;
    try assumption;
    try (etrans; [eassumption | apply new_struct_keeps]).
Qed.

Lemma library_returns (l : list (event Q (list string))) :
  forallb (fun ev => match ev_library_raise ev with None => true | Some _ => false end) l = true →
  Forall (fun ev => ev_library_raise ev = None) l.
Proof.
  intros Hb. apply Forall_forall. intros ev Hin.
  rewrite forallb_forall in Hb. specialize (Hb ev).
  destruct (ev_library_raise ev); [| reflexivity].
  discriminate Hb. by apply list_elem_of_In.
Qed.

(** C1, refuted as stated: the run on the double asks [plane2D] for five
    image files, not four. *)
Lemma four_plane_plots_refuted :
  fst smoke_run = Ok VNone ∧
  length (requests_of "Plot_model.scatter3D" (image_requests (log (snd smoke_run)))) = 1%nat ∧
  length (requests_of "Plot_model.plane2D" (image_requests (log (snd smoke_run)))) ≠ 4%nat.
Proof.
  split; [vm_compute; reflexivity |]. split; [vm_compute; reflexivity |].
  vm_compute. discriminate.
Qed.

Lemma image_files_requested_witness :
  fst smoke_run = Ok VNone ∧
  image_requests (log (snd smoke_run)) =
    [ ("Plot_model.scatter3D", VStr "3DpointsBurger.png");
      ("Plot_model.plane2D", VStr "DensMidplane_Burger.png");
      ("Plot_model.plane2D", VStr "DensVertical_Burger.png");
      ("Plot_model.plane2D", VStr "TempMidplane_Burger.png");
      ("Plot_model.plane2D", VStr "TempVertical_Burger.png");
      ("Plot_model.plane2D", VStr "Emissivity_Burger.png") ].
Proof.
  assert (Hok : fst smoke_run = Ok VNone) by (vm_compute; reflexivity).
  split; [exact Hok |].
  exact (image_files_requested q_units (smoke_lib None) proc0 s0 VNone Hok).
Defined.

(** C4, refuted as stated: on the double, [Model.density_Env_Disc] is given
    the grid object, which is no literal; and the last [plane2D] call is
    given an array the script made itself between the two preceding
    library calls. *)
Lemma literal_arguments_refuted :
  ¬ only_literal_arguments (log (snd smoke_run)) ∧
  passes_computed (log (snd smoke_run)).
Proof.
  split.
  - intros Hall.
    assert (Hev : log (snd smoke_run) !! 4%nat = Some (event_at (log (snd smoke_run)) 4))
      by (vm_compute; reflexivity).
    pose proof (Forall_lookup_1 _ _ _ _ Hall Hev) as Hargs.
    assert (Harg : ev_arguments (event_at (log (snd smoke_run)) 4) !! 4%nat = Some (VRef 1%positive))
      by (vm_compute; reflexivity).
    exact (Forall_lookup_1 _ _ _ _ Hargs Harg).
  - exists 33%nat, (event_at (log (snd smoke_run)) 33), 29%positive.
    split; [vm_compute; reflexivity |]. split; [vm_compute; tauto |].
    exists 32%nat, (default s0 (post_state (log (snd smoke_run)) 32)),
      (default s0 (pre_state (log (snd smoke_run)) 33)).
    split; [vm_compute; reflexivity |]. split; [vm_compute; reflexivity |].
    split; [vm_compute; reflexivity |]. vm_compute. eexists; reflexivity.
Qed.

Lemma pipeline_in_fixed_order_witness :
  fst smoke_run = Ok VNone ∧
  calls (log (snd smoke_run)) = script_calls ∧
  stage_blocks (calls (log (snd smoke_run))) = pipeline ∧
  Forall (fun f => occurrences f (calls (log (snd smoke_run))) = 1%nat) stage_functions.
Proof.
  assert (Hok : fst smoke_run = Ok VNone) by (vm_compute; reflexivity).
  split; [exact Hok |].
  exact (proj2 (proj2 (proj2 (pipeline_in_fixed_order q_units (smoke_lib None) proc0 s0)))
           VNone Hok).
Defined.

Lemma export_called_once_witness :
  fst smoke_run = Ok VNone ∧
  ∃ before after density temperature density_total temperature_total
    vel abundance gtdratio GRID pre res post,
    log (snd smoke_run) =
      before ++ ECall "Model.DataTab_LIME"
                  [density_total; temperature_total; vel; abundance; gtdratio; GRID] []
                  pre res post :: after ∧
    calls_of "Model.DataTab_LIME" (before ++ after) = [] ∧
    returned_by "Model.Struct" before density ∧
    getattr_in (heap pre) density "total" = Ok density_total ∧
    returned_by "Model.temperature_Hamburgers" before temperature ∧
    getattr_in (heap pre) temperature "total" = Ok temperature_total ∧
    returned_by "Model.velocity" before vel ∧
    returned_by "Model.abundance" before abundance ∧
    returned_by "Model.gastodust" before gtdratio ∧
    returned_by "Model.grid" before GRID.
Proof.
  assert (Hok : fst smoke_run = Ok VNone) by (vm_compute; reflexivity).
  split; [exact Hok |].
  exact (export_called_once q_units (smoke_lib None) proc0 s0 VNone Hok).
Defined.

Lemma exceptions_propagate_witness :
  fst failing_run = Raise (PyExc "IOError") ∧
  log (snd failing_run) = take 8 (log (snd failing_run)) ++ [event_at (log (snd failing_run)) 8] ∧
  ev_failed (event_at (log (snd failing_run)) 8) = Some (PyExc "IOError") ∧
  (∃ l ev, log (snd failing_run) = l ++ [ev] ∧ all_normal l ∧
           ev_failed ev = Some (PyExc "IOError")) ∧
  (@nil (event Q (list string)) = [] ∧ fst failing_run = Raise (PyExc "IOError")).
Proof.
  assert (Hr : fst failing_run = Raise (PyExc "IOError")) by (vm_compute; reflexivity).
  assert (Hl : log (snd failing_run) =
               take 8 (log (snd failing_run)) ++ [event_at (log (snd failing_run)) 8])
    by (vm_compute; reflexivity).
  assert (He : ev_failed (event_at (log (snd failing_run)) 8) = Some (PyExc "IOError"))
    by (vm_compute; reflexivity).
  split; [exact Hr |]. split; [exact Hl |]. split; [exact He |].
  pose proof (exceptions_propagate q_units (smoke_lib (Some "Model.velocity")) proc0 s0)
    as [H1 H2].
  split; [exact (H1 _ Hr) | exact (H2 _ _ _ _ Hl He)].
Defined.

Lemma objects_left_as_created_witness :
  library_keeps_objects (smoke_lib None) ∧
  StronglySorted (⊆) (store_history s0 (log (snd smoke_run)) (st (snd smoke_run))).
Proof.
  split; [apply smoke_lib_keeps |].
  exact (proj2 (objects_left_as_created q_units (smoke_lib None) proc0 s0)
           (smoke_lib_keeps None)).
Defined.

Lemma composite_density_fields_witness :
  log (snd smoke_run) !! 6%nat = Some (event_at (log (snd smoke_run)) 6) ∧
  call_name (event_at (log (snd smoke_run)) 6) = Some "Model.Struct" ∧
  composite_density_built (take 6 (log (snd smoke_run))) (event_at (log (snd smoke_run)) 6).
Proof.
  assert (Hi : log (snd smoke_run) !! 6%nat = Some (event_at (log (snd smoke_run)) 6))
    by (vm_compute; reflexivity).
  assert (Hn : call_name (event_at (log (snd smoke_run)) 6) = Some "Model.Struct")
    by (vm_compute; reflexivity).
  split; [exact Hi |]. split; [exact Hn |].
  exact (composite_density_fields q_units (smoke_lib None) proc0 s0 6 _ Hi Hn).
Defined.

(** The double records the files it is asked to write: the export and the
    six images, in the order of the source. *)
Example smoke_run_files :
  world (st (snd smoke_run)) =
    [ "datatab.dat"; "3DpointsBurger.png"; "DensMidplane_Burger.png";
      "DensVertical_Burger.png"; "TempMidplane_Burger.png"; "TempVertical_Burger.png";
      "Emissivity_Burger.png" ].
Proof. vm_compute. reflexivity. Qed.

(** With a zero solar mass the division of line 24 raises: the run stops
    after its first call. *)
Example zero_solar_mass_run :
  let r := run {| MSun := 0%Q; MSun_yr := 3%Q; RSun := 7%Q; LSun := 4%Q;
                  TSun := 5772%Q; AU := 150%Q |}
             (smoke_lib None) proc0 s0 in
  fst r = Raise ZeroDivisionError ∧
  calls (log (snd r)) = ["time.time"] ∧
  last (log (snd r)) = Some (ERaise ZeroDivisionError).
Proof. vm_compute. repeat split; reflexivity. Qed.

End SmokeRuns.


(** * Further properties of the script *)

(** ** Operators of the script *)

Section Operators.
Context {F : Type} `{PyFloat F}.

(** A parameter block that succeeds has divided by the solar mass,
    luminosity and radius: none of them is zero. *)
Lemma general_parameters_divisors (U : units F) p :
  general_parameters U = Ok p →
  fis_zero (MSun U) = false ∧ fis_zero (LSun U) = false ∧ fis_zero (RSun U) = false.
Proof.
  unfold general_parameters, py_truediv.
  destruct (fis_zero (MSun U)); [discriminate |]. cbn [mbind result_bind].
  destruct (fpow _ (lit 0.8)) as [a|]; [| discriminate]. cbn [mbind result_bind].
  destruct (fpow _ (of_int 4)) as [b|]; [| discriminate]. cbn [mbind result_bind].
  destruct (fis_zero (LSun U)); [discriminate |]. cbn [mbind result_bind].
  destruct (fis_zero (RSun U)); [discriminate |]. done.
Qed.

Lemma getattr_in_raise (h : gmap positive (obj F)) (v : value F) a e :
  getattr_in h v a = Raise e → e = AttributeError.
Proof.
  destruct v as [| | | | | | |l]; cbn; try congruence.
  destruct (h !! l) as [[xs|d]|]; try congruence.
  destruct (d !! a); congruence.
Qed.

Lemma np_broadcast_eq (f : F → F → F) xs ys :
  length xs = length ys → np_broadcast f xs ys = Ok (zip_with f xs ys).
Proof. intros Hl. unfold np_broadcast. by rewrite Hl, Nat.eqb_refl. Qed.

Lemma np_broadcast_mismatch (f : F → F → F) xs ys :
  length xs ≠ length ys → length xs ≠ 1%nat → length ys ≠ 1%nat →
  np_broadcast f xs ys = Raise ValueError.
Proof.
  intros Hne Hx Hy. unfold np_broadcast.
  destruct (Nat.eqb_spec (length xs) (length ys)) as [Heq|_]; [contradiction |].
  destruct xs as [|x [|x' xs]]; destruct ys as [|y [|y' ys]]; cbn in *; congruence.
Qed.

End Operators.

(** ** The rest of a run *)

Section Tails.
Context {F : Type} `{PyFloat F} {W : Type}.
Context (lib : library F W).

(** Straight-line code only adds to the log: the calls it has been
    written to make, which all return, and then at most the event that
    raises. *)
Lemma straight_extends {A} names (m : M F W A) :
  straight lib names m →
  ∀ c, wp m (fun _ c' => ∃ l, log c' = log c ++ l ∧ all_normal l ∧ calls l = names)
            (fun e c' => ∃ l ev, log c' = log c ++ l ++ [ev] ∧ all_normal l ∧
                                 ev_failed ev = Some e ∧ calls (l ++ [ev]) `prefix_of` names) c.
Proof.
  induction 1 as [A m Hq | f m Hc | A B n1 n2 m k _ IHm _ IHk]; intros c.
  - specialize (Hq c). unfold wp. destruct (m c) as [[a|e] c']; destruct Hq as [Hl _].
    + exists []. rewrite app_nil_r. repeat split; [done | constructor].
    + exists [], (ERaise e). repeat split; [done | constructor | done].
  - destruct (Hc c) as (args & kwargs & r & s' & Hm & _). unfold wp. rewrite Hm.
    destruct r; cbn [log].
    + eexists. split; [reflexivity |]. split; [| reflexivity]. by repeat constructor.
    + exists [], (ECall f args kwargs (st c) (Raise e) s').
      repeat split; [constructor | done].
  - apply wp_bind. eapply wp_mono; [| | apply IHm].
    + intros a c' (l1 & Hl1 & Hn1 & Hp1). cbn beta.
      eapply wp_mono; [| | apply IHk].
      * intros b c'' (l2 & Hl2 & Hn2 & Hp2). exists (l1 ++ l2).
        rewrite Hl2, Hl1, <- app_assoc. split; [done |].
        split; [by apply all_normal_app |]. by rewrite calls_app, Hp1, Hp2.
      * intros e c'' (l2 & ev & Hl2 & Hn2 & He & Hp2). exists (l1 ++ l2), ev.
        rewrite Hl2, Hl1. split; [by rewrite <- !app_assoc |].
        split; [by apply all_normal_app |]. split; [done |].
        rewrite <- app_assoc, calls_app, Hp1. by apply prefix_app.
    + intros e c' (l1 & ev & Hl1 & Hn1 & He & Hp1). exists l1, ev.
      repeat split; try done. by apply prefix_app_r.
Qed.

(** The rest of a run, once it is known to be straight-line code:
    whatever it does, the log grows by events calling an initial part of
    [names]. *)
Lemma wp_tail {A} names (m : M F W A) (P : result A → cfg F W → Prop) c :
  straight lib names m →
  (∀ r c' l, log c' = log c ++ l → calls l `prefix_of` names → P r c') →
  wp m (fun a c' => P (Ok a) c') (fun e c' => P (Raise e) c') c.
Proof.
  intros Hs HP. eapply wp_mono; [| | by apply straight_extends].
  - intros a c' (l & Hl & _ & Hc). apply (HP _ _ l Hl). by rewrite Hc.
  - intros e c' (l & ev & Hl & _ & _ & Hc). by apply (HP _ _ (l ++ [ev]) Hl).
Qed.

Lemma wp_tail_log {A} names (m : M F W A) (P : cfg F W → Prop) c :
  straight lib names m →
  (∀ c' l, log c' = log c ++ l → calls l `prefix_of` names → P c') →
  wp m (fun _ c' => P c') (fun _ c' => P c') c.
Proof. intros Hs HP. apply (wp_tail names m (fun _ => P)); [done |]. intros _. exact HP. Qed.

(** A call followed by straight-line code: the call is logged where the
    log stood, and the rest only adds to the log. *)
Lemma wp_call_then {B} f args kwargs names (k : value F → M F W B) (P : cfg F W → Prop) c :
  (∀ v, straight lib names (k v)) →
  (∀ r s' c' tl, lib f args kwargs (st c) = (r, s') →
                 log c' = log c ++ ECall f args kwargs (st c) r s' :: tl → P c') →
  wp (call lib f args kwargs ≫= k) (fun _ c' => P c') (fun _ c' => P c') c.
Proof.
  intros Hs HP. apply wp_bind, wp_call. intros r s' Hc. destruct r as [v|e].
  - eapply wp_tail_log; [apply Hs |]. intros c' tl Htl _. cbn [log] in Htl.
    apply (HP _ _ _ tl Hc). by rewrite Htl, <- app_assoc.
  - apply (HP _ _ _ [] Hc). reflexivity.
Qed.

Lemma in_calls (l : list (event F W)) ev f :
  In ev l → call_name ev = Some f → f ∈ calls l.
Proof.
  intros Hin Hf. unfold calls. apply list_elem_of_omap.
  exists ev. split; [by apply list_elem_of_In | done].
Qed.

Lemma not_among (f : string) (names : list string) :
  forallb (fun g => negb (String.eqb f g)) names = true → f ∉ names.
Proof.
  intros Hb Hin. rewrite forallb_forall in Hb.
  apply list_elem_of_In in Hin. specialize (Hb f Hin). by rewrite String.eqb_refl in Hb.
Qed.

(** An event of a run that calls none of the functions that remain to be
    called was logged before the rest of the run. *)
Lemma tail_event (l0 l : list (event F W)) names ev f :
  In ev (l0 ++ l) → call_name ev = Some f → calls l `prefix_of` names →
  forallb (fun g => negb (String.eqb f g)) names = true →
  In ev l0.
Proof.
  intros Hin Hf [k Hk] Hb. apply in_app_or in Hin as [Hin|Hin]; [exact Hin |].
  exfalso. apply (not_among f names Hb).
  rewrite Hk. apply elem_of_app. left. by eapply in_calls.
Qed.

Lemma normal_lookup (l : list (event F W)) i ev :
  all_normal l → l !! i = Some ev →
  ∃ f args kwargs pre v post, ev = ECall f args kwargs pre (Ok v) post ∧ calls l !! i = Some f.
Proof.
  intros Hn. revert i. induction Hn as [|x l Hx _ IH]; intros i Hi; [done |].
  destruct x as [f a k p [v|e] q | e]; try discriminate.
  destruct i as [|i]; [injection Hi as <-; by eexists _, _, _, _, _, _ |].
  exact (IH i Hi).
Qed.

End Tails.

(** Symbolic execution up to the call of [f]. *)
Ltac wp_until f fin :=
  repeat (lazymatch goal with
          | |- wp (mbind _ (call _ f _ _)) _ _ _ => fail
          | |- _ => wp_step fin
          end).

(** The cases of an event found in a log that is written out. *)
Ltac split_in H :=
  repeat (lazymatch type of H with
          | In _ (_ :: _) => destruct H as [H|H]; [simplify_eq |]
          | In _ [] => destruct H
          end).

(** A branch that ends before the event looked for, or with an event
    that is no call. *)
Ltac fin_no_call :=
  let Hi := fresh "Hi" in let Hs := fresh "Hs" in
  intros ? Hi [? Hs];
  first [discriminate Hi | injection Hi as <-; discriminate Hs].

(** The store grows along the library calls and the allocations found in
    the context, [Hk] saying that the library keeps objects. *)
Ltac note_growth Hk :=
  repeat match goal with
         | Hc : _ ?f ?a ?k ?s = (_, ?s') |- _ =>
             lazymatch goal with
             | _ : heap s ⊆ heap s' |- _ => fail
             | |- _ =>
                 let Hg := fresh "Hgrow" in
                 pose proof (Hk f a k s) as Hg; rewrite Hc in Hg; cbn [snd] in Hg
             end
         | Hn : new_object _ ?s = (_, ?s') |- _ =>
             lazymatch goal with
             | _ : heap s ⊆ heap s' |- _ => fail
             | |- _ =>
                 let Hg := fresh "Hgrow" in
                 pose proof (proj1 (new_object_grows _ _ _ _ Hn)) as Hg
             end
         end.

Ltac grows :=
  repeat first [ reflexivity | eassumption | (etrans; [eassumption |]) ].

Section Runs.
Context {F : Type} `{PyFloat F} `{PyFormat F} {W : Type}.
Context (U : units F) (lib : library F W).
Implicit Types (proc : process) (s : state F W).

(** From a [wp] fact about the script to all its runs. *)
Lemma every_run (P : result (value F) → cfg F W → Prop) proc s :
  wp (script U lib proc) (fun v c => P (Ok v) c) (fun e c => P (Raise e) c)
     {| st := s; log := [] |} →
  P (fst (run U lib proc s)) (snd (run U lib proc s)).
Proof.
  unfold wp, run. destruct (script U lib proc _) as [[v|e] c]; exact (fun h => h).
Qed.

(** The shape of the log of any run: calls that returned normally,
    following [script_calls], and then at most one event, which raised. *)
Lemma run_shape proc s :
  ∃ l rest, log (snd (run U lib proc s)) = l ++ rest ∧ all_normal l ∧
            (length rest ≤ 1)%nat ∧ calls (l ++ rest) `prefix_of` script_calls.
Proof.
  pose proof (run_on_track U lib proc s) as Ht.
  destruct (run U lib proc s) as [[v|e] c]; cbn [snd].
  - destruct Ht as [Hn Hc]. exists (log c), []. rewrite app_nil_r.
    repeat split; [done | cbn; lia | by rewrite Hc].
  - destruct Ht as (l & ev & Hl & Hn & _ & Hp). exists l, [ev].
    repeat split; [done | done | cbn; lia | by rewrite <- Hl].
Qed.

(** The [i]-th event of a run, when it is a call, calls the [i]-th
    function of [script_calls]. *)
Lemma call_position proc s i ev f :
  log (snd (run U lib proc s)) !! i = Some ev → call_name ev = Some f →
  script_calls !! i = Some f.
Proof.
  destruct (run_shape proc s) as (l & rest & -> & Hn & Hr & Hp). intros Hi Hf.
  eapply prefix_lookup_Some; [| exact Hp]. rewrite calls_app.
  destruct (decide (i < length l)%nat) as [Hlt|Hge].
  - rewrite lookup_app_l in Hi by done.
    destruct (normal_lookup _ _ _ Hn Hi) as (f' & a & k & p & v & q & -> & Hf').
    injection Hf as <-. by apply lookup_app_l_Some.
  - rewrite lookup_app_r in Hi by lia.
    destruct rest as [|ev' [|? ?]]; [done | | cbn in Hr; lia].
    destruct (i - length l)%nat eqn:Hd; [| done]. injection Hi as ->.
    rewrite lookup_app_r; rewrite (all_normal_calls _ Hn); [| lia].
    rewrite Hd. cbn. by rewrite Hf.
Qed.

(** The events that precede an event of a run are calls that returned. *)
Lemma earlier_calls_returned proc s i j ev :
  log (snd (run U lib proc s)) !! j = Some ev → (i < j)%nat →
  ∃ f args kwargs pre v post,
    log (snd (run U lib proc s)) !! i = Some (ECall f args kwargs pre (Ok v) post) ∧
    script_calls !! i = Some f.
Proof.
  intros Hj Hij.
  destruct (run_shape proc s) as (l & rest & Hl & Hn & Hr & Hp).
  assert (Hlen : (j < length (l ++ rest))%nat) by (rewrite <- Hl; by eapply lookup_lt_Some).
  rewrite length_app in Hlen.
  destruct (lookup_lt_is_Some_2 l i) as [ev' Hev']; [lia |].
  destruct (normal_lookup _ _ _ Hn Hev') as (f & a & k & p & v & q & -> & Hf).
  assert (Hi : log (snd (run U lib proc s)) !! i = Some (ECall f a k p (Ok v) q)).
  { rewrite Hl. by apply lookup_app_l_Some. }
  exists f, a, k, p, v, q. split; [exact Hi |]. by eapply call_position.
Qed.

End Runs.

(** ** When the parameters or an answer of the library are unusable *)

Section Failures.
Context {F : Type} `{PyFloat F} `{PyFormat F} {W : Type}.
Context (U : units F) (lib : library F W).
Implicit Types (proc : process) (s : state F W).

(** X1.  When the parameter block of lines 22-27 raises, the run ends
    there with that exception: the clock has been read, nothing else
    has been called and the store is as the clock left it. *)
Theorem parameter_failure_stops_run proc s e t0 s1 :
  general_parameters U = Raise e →
  lib "time.time" [] [] s = (Ok t0, s1) →
  run U lib proc s =
    (Raise e, {| st := s1; log := [ECall "time.time" [] [] s (Ok t0) s1; ERaise e] |}).
Proof.
  intros Hp Hc. unfold run, script.
  unfold mbind at 1. unfold M_bind. unfold call at 1, logged. cbn [st log]. rewrite Hc.
  unfold mbind at 1. unfold M_bind. rewrite Hp. reflexivity.
Qed.

(** X2.  The divisions of line 29 cannot raise: when the clock returns and
    the parameter block succeeds, the second event of the run is the
    [print] of the stellar radius and luminosity in solar units and of the
    temperature. *)
Theorem first_message_is_printed proc s p t0 s1 :
  general_parameters U = Ok p →
  lib "time.time" [] [] s = (Ok t0, s1) →
  ∃ res s2,
    log (snd (run U lib proc s)) !! 1%nat =
      Some (ECall "print"
              [VStr "RStar:"; VFloat (fdiv_ieee (RStar p) (RSun U));
               VStr ", LStar:"; VFloat (fdiv_ieee (LStar p) (LSun U));
               VStr ", TStar:"; VFloat (TStar p)] [] s1 res s2).
Proof.
  intros Hp Hc.
  apply (every_run U lib (fun _ c => ∃ res s2, log c !! 1%nat = Some _)). unfold script.
  destruct (general_parameters_divisors _ _ Hp) as (_ & Hz1 & Hz2).
  apply wp_bind, wp_call. intros r s' Hcall. cbn [st] in Hcall. rewrite Hc in Hcall.
  injection Hcall as <- <-. cbn [st log app].
  apply wp_bind, wp_lift. rewrite Hp.
  unfold py_truediv. rewrite Hz1, Hz2.
  do 2 apply wp_bind, wp_lift.
  apply wp_bind, wp_call. intros r s2 _. cbn [st log app].
  destruct r; [| by eexists _, _].
  eapply wp_tail_log; [repeat straight_step |].
  intros c' tl -> _. by eexists _, _.
Qed.

End Failures.

(** The cases of an event found in the log of a branch of the script. *)
Ltac event_cases Hin :=
  cbn [log st fst snd] in *;
  try (eapply tail_event in Hin; [| eassumption | eassumption | reflexivity]);
  cbn [app] in Hin; split_in Hin;
  cbn [call_name ev_value ev_post] in *; simplify_eq.

Ltac fin_grid :=
  let Hin := fresh "Hin" in
  hnf; intros ? ? ? ? Hin ? ? ? ?; event_cases Hin;
  try match goal with
      | Hg : getattr_in _ _ "NPoints" = Raise _ |- _ =>
          pose proof (getattr_in_raise _ _ _ _ Hg); subst
      end;
  first [congruence | repeat split; first [reflexivity | congruence]].

Ltac fin_shapes :=
  let Hin := fresh "Hin" in let Hin' := fresh "Hin" in
  let Hne := fresh "Hne" in let Hx := fresh "Hx" in let Hy := fresh "Hy" in
  hnf; intros ? ? ? ? ? ? ? ? ? Hin Hin' ? ? ? ? ? ? ? ? ? Hne Hx Hy;
  event_cases Hin; event_cases Hin';
  pose proof (np_broadcast_mismatch fadd _ _ Hne Hx Hy);
  first [congruence | repeat split; first [reflexivity | congruence]].

Section Faults.
Context {F : Type} `{PyFloat F} `{PyFormat F} {W : Type}.
Context (U : units F) (lib : library F W).
Implicit Types (proc : process) (s : state F W).

(** X3.  When the grid the library returns has no attribute [NPoints],
    the run ends with [AttributeError] at line 39: after the clock and the
    first message only [Model.grid] has been called, and the store is as
    that call left it. *)
Theorem grid_without_npoints proc s i ev GRID post e :
  log (snd (run U lib proc s)) !! i = Some ev →
  call_name ev = Some "Model.grid" → ev_value ev = Some GRID → ev_post ev = Some post →
  getattr_in (heap post) GRID "NPoints" = Raise e →
  fst (run U lib proc s) = Raise AttributeError ∧
  calls (log (snd (run U lib proc s))) = ["time.time"; "print"; "Model.grid"] ∧
  st (snd (run U lib proc s)) = post.
Proof.
  intros Hi. apply list_elem_of_lookup_2, list_elem_of_In in Hi.
  revert ev GRID post e Hi.
  pattern (fst (run U lib proc s)), (snd (run U lib proc s)).
  lazymatch goal with |- ?P0 (fst _) (snd _) => set (P := P0) end.
  apply every_run. unfold script.
  wp_until "Res.Rho0" ltac:(fin_grid).
  eapply (wp_tail _ _ _ P); [repeat straight_step |].
  intros r c' tl Htl Hpre. hnf. rewrite Htl. fin_grid.
Qed.

(** X4.  When the [total] arrays of the envelope and of the disc, as the
    library left them, differ in length and none has length one, the sum
    of line 64 raises [ValueError]: the run ends there, after six calls,
    and the composite density is never built. *)
Theorem density_shapes_must_agree proc s i j evEnv evDisc densEnv densDisc post
    env_total disc_total xs ys :
  log (snd (run U lib proc s)) !! i = Some evEnv →
  call_name evEnv = Some "Model.density_Env_Disc" → ev_value evEnv = Some densEnv →
  log (snd (run U lib proc s)) !! j = Some evDisc →
  call_name evDisc = Some "Model.density_Hamburgers" → ev_value evDisc = Some densDisc →
  ev_post evDisc = Some post →
  getattr_in (heap post) densEnv "total" = Ok env_total →
  array_in (heap post) env_total = Ok xs →
  getattr_in (heap post) densDisc "total" = Ok disc_total →
  array_in (heap post) disc_total = Ok ys →
  length xs ≠ length ys → length xs ≠ 1%nat → length ys ≠ 1%nat →
  fst (run U lib proc s) = Raise ValueError ∧
  calls (log (snd (run U lib proc s))) = take 6 script_calls ∧
  st (snd (run U lib proc s)) = post.
Proof.
  intros Hi He Hv Hj He' Hv' Hp Hg Ha Hg' Ha' Hne Hx Hy.
  apply list_elem_of_lookup_2, list_elem_of_In in Hi, Hj.
  revert evEnv evDisc densEnv densDisc post env_total disc_total xs ys
    Hi Hj He Hv He' Hv' Hp Hg Ha Hg' Ha' Hne Hx Hy.
  pattern (fst (run U lib proc s)), (snd (run U lib proc s)).
  lazymatch goal with |- ?P0 (fst _) (snd _) => set (P := P0) end.
  apply every_run. unfold script.
  wp_until "Model.temperature_Hamburgers" ltac:(fin_shapes).
  eapply (wp_tail _ _ _ P); [repeat straight_step |].
  intros r c' tl Htl Hpre. hnf. rewrite Htl. fin_shapes.
Qed.

End Faults.

(** ** What every call of a run is given *)

Section CallInvariants.
Context {F : Type} `{PyFloat F} {W : Type}.
Context (lib : library F W).

Lemma invariant_bind {A B} J (m : M F W A) (k : A → M F W B) :
  log_invariant J m → (∀ a, log_invariant J (k a)) → log_invariant J (m ≫= k).
Proof.
  intros Hm Hk c Hc. apply wp_bind. eapply wp_mono; [| | by apply Hm].
  - intros a c' Hc'. by apply Hk.
  - by intros.
Qed.

Lemma invariant_wp {A} J (m : M F W A) c :
  log_invariant J m → J (log c) →
  wp m (fun _ c' => J (log c')) (fun _ c' => J (log c')) c.
Proof. intros Hm. apply Hm. Qed.

Context (P : string → list (value F) → list (string * value F) → Prop).

Lemma every_call_snoc (l : list (event F W)) ev :
  every_call P l →
  match ev with ECall f args kwargs _ _ _ => P f args kwargs | ERaise _ => True end →
  every_call P (l ++ [ev]).
Proof. intros Hl Hev. apply Forall_app. split; [exact Hl | by constructor]. Qed.

Lemma keeps_quiet {A} (m : M F W A) : quiet m → log_invariant (every_call P) m.
Proof.
  intros Hq c Hc. specialize (Hq c). unfold wp.
  destruct (m c) as [[a|e] c']; destruct Hq as [Hl _]; rewrite Hl; [done |].
  by apply every_call_snoc.
Qed.

Lemma keeps_logged f args kwargs (body : state F W → result (value F) * state F W) :
  P f args kwargs → log_invariant (every_call P) (logged f args kwargs body).
Proof.
  intros HP c Hc. apply wp_logged. intros r s' _.
  destruct r; cbn [log]; by apply every_call_snoc.
Qed.

Lemma keeps_call f args kwargs :
  P f args kwargs → log_invariant (every_call P) (call lib f args kwargs).
Proof. apply keeps_logged. Qed.

Lemma keeps_Model_Struct entries :
  P "Model.Struct" [] entries → log_invariant (W:=W) (every_call P) (Model_Struct entries).
Proof. apply keeps_logged. Qed.

Lemma keeps_np_array xs :
  P "np.array" [VList (map VFloat xs)] [] →
  log_invariant (W:=W) (every_call P) (np_array xs).
Proof. apply keeps_logged. Qed.

(** *** The norms of the plots *)

Lemma norms_fresh_snoc (l : list (event F W)) ev :
  norms_fresh l → uses_norm (last l) ev → norms_fresh (l ++ [ev]).
Proof.
  intros Hl Hev i ev' Hi.
  destruct (decide (i < length l)%nat) as [Hlt|Hge].
  - rewrite lookup_app_l in Hi by done. specialize (Hl i ev' Hi).
    destruct i as [|j]; [exact Hl |]. rewrite lookup_app_l by lia. exact Hl.
  - rewrite lookup_app_r in Hi by lia.
    destruct (i - length l)%nat eqn:Hd; [| by destruct n].
    injection Hi as <-. assert (i = length l) as -> by lia.
    destruct l as [|x l] using rev_ind; [exact Hev |].
    rewrite length_app, Nat.add_1_r. rewrite last_snoc in Hev.
    rewrite lookup_app_l by (rewrite length_app; cbn; lia).
    by rewrite lookup_app_r, Nat.sub_diag by lia.
Qed.

Lemma norms_fresh_other (l : list (event F W)) ev :
  norms_fresh l →
  match ev with ECall f _ _ _ _ _ => is_plot f = false | ERaise _ => True end →
  norms_fresh (l ++ [ev]).
Proof.
  intros Hl Hev. apply norms_fresh_snoc; [exact Hl |].
  destruct ev as [f a k p r q | e]; [| done]. cbn. by rewrite Hev.
Qed.

Lemma fresh_quiet {A} (m : M F W A) : quiet m → log_invariant norms_fresh m.
Proof.
  intros Hq c Hc. specialize (Hq c). unfold wp.
  destruct (m c) as [[a|e] c']; destruct Hq as [Hl _]; rewrite Hl; [done |].
  by apply norms_fresh_other.
Qed.

Lemma fresh_logged f args kwargs (body : state F W → result (value F) * state F W) :
  is_plot f = false → log_invariant norms_fresh (logged f args kwargs body).
Proof.
  intros Hf c Hc. apply wp_logged. intros r s' _.
  destruct r; cbn [log]; by apply norms_fresh_other.
Qed.

Lemma fresh_call f args kwargs :
  is_plot f = false → log_invariant norms_fresh (call lib f args kwargs).
Proof. apply fresh_logged. Qed.

End CallInvariants.

(** One step of a proof that the library calls of a computation satisfy a
    property; [tac] proves the property of a call. *)
Ltac keeps_step tac :=
  lazymatch goal with
  | |- log_invariant _ (mbind _ _) =>
      apply invariant_bind;
      [ first [ apply keeps_call; tac
              | apply keeps_Model_Struct; tac
              | apply keeps_np_array; tac
              | apply keeps_quiet; solve [auto with quiet] ]
      | let a := fresh "a" in
        intros a; cbv beta;
        lazymatch goal with
        | |- log_invariant _ (match a with _ => _ end) => destruct a; cbv beta iota
        | |- _ => idtac
        end ]
  | |- log_invariant _ (mret _) => apply keeps_quiet, quiet_ret
  end.

(** The norms are fresh in the log of a branch, [Hc] saying that they
    were when the block started. *)
Ltac fresh_log Hc :=
  cbn [log];
  repeat (first
    [ exact Hc
    | apply norms_fresh_other; [| first [exact I | reflexivity]]
    | apply norms_fresh_snoc;
      [| intros _; rewrite last_snoc; eexists _, _;
         split; [reflexivity |]; split; reflexivity ] ]).

(** One step of a proof that the norms are fresh; a block from
    [colors.LogNorm] to the plot that follows is executed as a whole. *)
Ltac fresh_step :=
  lazymatch goal with
  | |- log_invariant _ (mbind _ (call _ "colors.LogNorm" _ _)) =>
      let c := fresh "c" in let Hc := fresh "Hc" in
      intros c Hc;
      repeat (lazymatch goal with
              | |- wp (mbind _ (call _ "Plot_model.scatter3D" _ _)) _ _ _ => fail
              | |- wp (mbind _ (call _ "Plot_model.plane2D" _ _)) _ _ _ => fail
              | |- _ => wp_step ltac:(fresh_log Hc)
              end);
      wp_step ltac:(fresh_log Hc);
      apply invariant_wp; [| fresh_log Hc]; clear
  | |- log_invariant _ (mbind _ _) =>
      apply invariant_bind;
      [ first [ apply fresh_call; reflexivity
              | apply fresh_logged; reflexivity
              | apply fresh_quiet; solve [auto with quiet] ]
      | let a := fresh "a" in
        intros a; cbv beta;
        lazymatch goal with
        | |- log_invariant _ (match a with _ => _ end) => destruct a; cbv beta iota
        | |- _ => idtac
        end ]
  | |- log_invariant _ (mret _) => apply fresh_quiet, quiet_ret
  end.

Section CallArguments.
Context {F : Type} `{PyFloat F} `{PyFormat F} {W : Type}.
Context (U : units F) (lib : library F W).
Implicit Types (proc : process) (s : state F W).

Lemma run_invariant J proc s :
  log_invariant J (script U lib proc) → J [] → J (log (snd (run U lib proc s))).
Proof.
  intros Hk Hnil. specialize (Hk {| st := s; log := [] |} Hnil).
  unfold wp in Hk. unfold run. by destruct (script U lib proc _) as [[v|e] c].
Qed.

(** X5.  In every run, also one that fails later, each call of
    [scatter3D] and of [plane2D] is made with [show = False] and with the
    name of an output file: the script opens no window. *)
Theorem plots_go_to_files proc s :
  every_call plots_to_file (log (snd (run U lib proc s))).
Proof.
  apply run_invariant; [| constructor]. unfold script.
  repeat keeps_step ltac:(first [ by intros [=] | by (intros _; split; [| eexists]) ]).
Qed.

(** X6.  In every run, each call of [scatter3D] and of [plane2D] is given
    as its [norm] the value returned by the event just before it, a call
    of [colors.LogNorm]: never the norm of an earlier plot. *)
Theorem plots_use_the_latest_norm proc s :
  norms_fresh (log (snd (run U lib proc s))).
Proof.
  apply run_invariant; [| by intros [|i] ev]. unfold script.
  repeat fresh_step.
Qed.

(** X7.  An image is asked for only after the export has returned: an
    event that calls a plotting function comes after the twelfth event of
    the run, the call of [Model.DataTab_LIME], which returned normally. *)
Theorem plots_follow_export proc s i ev f :
  log (snd (run U lib proc s)) !! i = Some ev → call_name ev = Some f →
  is_plot f = true →
  (11 < i)%nat ∧
  ∃ export v,
    log (snd (run U lib proc s)) !! 11%nat = Some export ∧
    call_name export = Some "Model.DataTab_LIME" ∧ ev_value export = Some v.
Proof.
  intros Hi Hf Hplot. pose proof (call_position _ _ _ _ _ _ _ Hi Hf) as Hpos.
  assert (Hlt : (11 < i)%nat).
  { do 12 (destruct i as [|i]; [injection Hpos as <-; discriminate Hplot |]). lia. }
  split; [exact Hlt |].
  destruct (earlier_calls_returned _ _ _ _ _ _ _ Hi Hlt)
    as (f' & a & k & p & v & q & H11 & [= <-]).
  by eexists _, v.
Qed.

End CallArguments.

(** ** What the export and the last plot are given *)

Section DataFlow.
Context {F : Type} `{PyFloat F} `{PyFormat F} {W : Type}.
Context (U : units F) (lib : library F W).
Implicit Types (proc : process) (s : state F W).

Lemma export_position i : script_calls !! i = Some "Model.DataTab_LIME" → i = 11%nat.
Proof.
  do 34 (destruct i as [|i]; [first [reflexivity | discriminate] |]). discriminate.
Qed.

Lemma export_of_sum proc s :
  library_keeps_objects lib →
  ∀ ev, log (snd (run U lib proc s)) !! 11%nat = Some ev →
        is_Some (call_name ev) → density_sum_exported (log (snd (run U lib proc s))) ev.
Proof.
  intros Hk.
  apply (every_run U lib (fun _ c => ∀ ev, log c !! 11%nat = Some ev →
           is_Some (call_name ev) → density_sum_exported (log c) ev)).
  unfold script.
  wp_until "Model.DataTab_LIME" ltac:(fin_no_call).
  lazymatch goal with
  | |- wp _ (fun _ => ?P) _ _ =>
      eapply (wp_call_then _ _ _ _ _ _ P); [intros v; repeat straight_step |]
  end.
  cbn [st log]. intros r s12 c' tl _ Htl ev Hi _.
  rewrite Htl in Hi |- *. injection Hi as <-. cbn [density_sum_exported].
  note_growth Hk.
  destruct (array_in_inv _ _ _ Harr) as (le & -> & Hle).
  destruct (array_in_inv _ _ _ Harr0) as (ld & -> & Hld).
  pose proof (new_object_lookup _ _ _ _ Hnew) as Hlt.
  pose proof (new_object_lookup _ _ _ _ Hnew0) as Hlc.
  assert (Hd : getattr_in (heap s11) (VRef l0) "total" = Ok (VRef l)).
  { cbn [getattr_in]. by rewrite (lookup_weaken _ (heap s11) _ _ Hlc ltac:(grows)). }
  rewrite Hd in Hget9. injection Hget9 as <-.
  exists a7, a8, le, ld, l, a11, a12, a13, [a26; a22; a23; a24; a4].
  split; [reflexivity |].
  split; [do 4 eexists; apply in_or_app; left; cbn [In];
          repeat (first [left; reflexivity | right]) |].
  split; [do 4 eexists; apply in_or_app; left; cbn [In];
          repeat (first [left; reflexivity | right]) |].
  assert (H511 : heap s5 ⊆ heap s11) by grows.
  split; [exact (getattr_in_mono _ _ _ _ _ H511 Hget0) |].
  split; [exact (lookup_weaken _ _ _ _ Hle H511) |].
  split; [exact (getattr_in_mono _ _ _ _ _ H511 Hget1) |].
  split; [exact (lookup_weaken _ _ _ _ Hld H511) |].
  split; [eapply lookup_weaken; [exact Hlt | grows] |].
  exact Hlift2.
Qed.

(** X8.  With a library that leaves the objects of the store as they
    are, the first argument of the export is the array of line 64: when
    [Model.DataTab_LIME] is called, in any run that gets there, it holds
    the numpy sum of the envelope and disc [total] arrays as they then
    are. *)
Theorem export_receives_density_sum proc s i ev :
  library_keeps_objects lib →
  log (snd (run U lib proc s)) !! i = Some ev →
  call_name ev = Some "Model.DataTab_LIME" →
  density_sum_exported (log (snd (run U lib proc s))) ev.
Proof.
  intros Hk Hi Hf.
  pose proof (export_position _ (call_position _ _ _ _ _ _ _ Hi Hf)) as ->.
  apply (export_of_sum proc s Hk ev Hi). by rewrite Hf.
Qed.

(** X9.  With a library that leaves the objects of the store as they
    are, the last call of the script, the thirty-fourth event of a run
    that gets there, is the [plane2D] call for the emissivity image; it is
    given the grid and a new array that holds the numpy product of the
    temperature [total] with the composite density [total] divided by
    [1e6], as these arrays are when the call is made. *)
Theorem emissivity_is_temperature_times_density proc s ev :
  library_keeps_objects lib →
  log (snd (run U lib proc s)) !! 33%nat = Some ev →
  is_Some (call_name ev) →
  emissivity_plotted (log (snd (run U lib proc s))) ev.
Proof.
  intros Hk. revert ev.
  apply (every_run U lib (fun _ c => ∀ ev, log c !! 33%nat = Some ev →
           is_Some (call_name ev) → emissivity_plotted (log c) ev)).
  unfold script.
  repeat (lazymatch goal with
          | |- wp (mbind _ (call _ "Plot_model.plane2D" _ ?kw)) _ _ _ =>
              lazymatch kw with
              | context ["Emissivity_Burger.png"] => fail
              | _ => wp_step ltac:(fin_no_call)
              end
          | |- _ => wp_step ltac:(fin_no_call)
          end).
  lazymatch goal with
  | |- wp _ (fun _ => ?P) _ _ =>
      eapply (wp_call_then _ _ _ _ _ _ P); [intros v; repeat straight_step |]
  end.
  cbn [st log]. intros r s39 c' tl _ Htl ev Hi _.
  rewrite Htl in Hi |- *. injection Hi as <-. cbn [emissivity_plotted].
  note_growth Hk.
  pose proof (new_object_lookup _ _ _ _ Hnew) as Hl.
  pose proof (new_object_lookup _ _ _ _ Hnew0) as Hl0.
  pose proof (new_object_lookup _ _ _ _ Hnew1) as Hl1.
  pose proof (new_object_lookup _ _ _ _ Hnew11) as Hl11.
  assert (Hd16 : getattr_in (heap s16) (VRef l0) "total" = Ok (VRef l)).
  { cbn [getattr_in]. by rewrite (lookup_weaken _ (heap s16) _ _ Hl0 ltac:(grows)). }
  assert (Hd38 : getattr_in (heap s38) (VRef l0) "total" = Ok (VRef l)).
  { cbn [getattr_in]. by rewrite (lookup_weaken _ (heap s38) _ _ Hl0 ltac:(grows)). }
  rewrite Hd16 in Hget11. injection Hget11 as <-.
  cbn [array_in] in Harr1. rewrite (lookup_weaken _ (heap s16) _ _ Hl ltac:(grows)) in Harr1.
  injection Harr1 as <-.
  cbn [array_in] in Harr3. rewrite (lookup_weaken _ (heap s37) _ _ Hl1 ltac:(grows)) in Harr3.
  injection Harr3 as <-.
  destruct (array_in_inv _ _ _ Harr2) as (lt & -> & Hlt).
  exists a4, a21, (VRef l0), lt, l, l11, a47, a13, a49.
  split; [reflexivity |]. split; [reflexivity |]. split; [reflexivity |].
  split; [do 4 eexists; apply in_or_app; left; cbn [In];
          repeat (first [left; reflexivity | right]) |].
  split; [do 4 eexists; apply in_or_app; left; cbn [In];
          repeat (first [left; reflexivity | right]) |].
  split; [do 4 eexists; apply in_or_app; left; cbn [In];
          repeat (first [left; reflexivity | right]) |].
  split; [eapply getattr_in_mono; [| exact Hget15]; grows |].
  split; [eapply lookup_weaken; [exact Hlt | grows] |].
  split; [exact Hd38 |].
  split; [eapply lookup_weaken; [exact Hl | grows] |].
  split; [exact Hl11 |].
  exact Hlift3.
Qed.

End DataFlow.

(** ** When the answers of the library are usable *)

Section Usable.
Context {F : Type} `{PyFloat F} {W : Type}.
Context (lib : library F W).

(** While straight-line code runs, what is assumed of the events of its
    final log may be assumed of the events logged so far. *)
Lemma wp_usable_so_far {A} names (m : M F W A) n (G : result A → Prop) c :
  straight lib names m →
  (Forall (usable_result n) (log c) →
   wp m (fun a c' => Forall (usable_result n) (log c') → G (Ok a))
        (fun e c' => Forall (usable_result n) (log c') → G (Raise e)) c) →
  wp m (fun a c' => Forall (usable_result n) (log c') → G (Ok a))
       (fun e c' => Forall (usable_result n) (log c') → G (Raise e)) c.
Proof.
  intros Hs Hw. pose proof (straight_extends lib names m Hs c) as He.
  unfold wp in *. destruct (m c) as [[a|e] c'].
  - destruct He as (l & Hl & _). intros Hu. apply Hw; [| exact Hu].
    rewrite Hl in Hu. by apply Forall_app in Hu as [Hu _].
  - destruct He as (l & ev & Hl & _). intros Hu. apply Hw; [| exact Hu].
    rewrite Hl in Hu. by apply Forall_app in Hu as [Hu _].
Qed.

Lemma has_attrb_sound (h : gmap positive (obj F)) v a :
  has_attrb h v a = true → has_attr h v a.
Proof. unfold has_attrb, has_attr. destruct (getattr_in h v a); [by eexists | done]. Qed.

Lemma has_arrayb_sound (h : gmap positive (obj F)) v a n :
  has_arrayb h v a n = true → has_array h v a n.
Proof.
  unfold has_arrayb, has_array.
  destruct (getattr_in h v a) as [[| | | | | | |l]|]; try done.
  destruct (h !! l) as [[xs|d]|] eqn:Hl; try done.
  intros Hn%Nat.eqb_eq. by exists l, xs.
Qed.

Lemma usable_resultb_sound n (l : list (event F W)) :
  forallb (usable_resultb n) l = true → Forall (usable_result n) l.
Proof.
  intros Hb. apply Forall_forall. intros ev Hin.
  rewrite forallb_forall in Hb. specialize (Hb ev (proj1 (list_elem_of_In _ _) Hin)).
  destruct ev as [f args kwargs pre [v|e] post | e]; cbn in *; [| done | done].
  repeat case_match; try done;
    repeat match goal with
           | Hc : (_ && _)%bool = true |- _ => apply andb_prop in Hc as [? ?]
           end;
    repeat split; try (by apply has_attrb_sound); try (by apply has_arrayb_sound).
  destruct v; try done. by eexists.
Qed.

End Usable.

(** The facts about the store [s] move to the store [s'] it grew into. *)
Ltac move_facts Hg :=
  lazymatch type of Hg with
  | heap ?s ⊆ heap ?s' =>
      repeat match goal with
             | Hf : getattr_in (heap s) _ _ = Ok _ |- _ =>
                 apply (getattr_in_mono _ _ _ _ _ Hg) in Hf
             | Hf : heap s !! _ = Some _ |- _ =>
                 eapply lookup_weaken in Hf; [| exact Hg]
             end
  end.

Ltac new_facts :=
  repeat match goal with
         | Hf : ∃ _, _ |- _ => destruct Hf as [? Hf]
         | Hf : _ ∧ _ |- _ => destruct Hf as [? ?]
         | Hf : has_attr _ _ _ |- _ => unfold has_attr in Hf
         | Hf : has_array _ _ _ _ |- _ => unfold has_array in Hf
         | Hf : ?v = VFloat _ |- _ => is_var v; subst v
         end.

(** A library call that raises is not usable. *)
Ltac lib_raise :=
  let Hu := fresh "Hu" in
  cbn [log]; intros Hu; apply Forall_app in Hu as [_ Hu]; apply Forall_inv in Hu;
  exact (False_ind _ Hu).

(** A new object: the facts move to the new store, which also holds the
    object. *)
Ltac object_step Hn Hl :=
  let Hg := fresh "Hg" in
  pose proof (proj1 (new_object_grows _ _ _ _ Hn)) as Hg;
  pose proof (new_object_lookup _ _ _ _ Hn) as Hl;
  move_facts Hg; clear Hg Hn.

Ltac same_lengths := repeat first [rewrite length_map | rewrite length_zip_with]; lia.

(** What the call just logged returned is usable. *)
Ltac learn_result :=
  let Hsf := fresh "Hsf" in
  eapply (wp_usable_so_far _ _ _ _ (fun r => r = Ok VNone)); [repeat straight_step |];
  cbn [log]; intros Hsf; apply Forall_app in Hsf as [_ Hsf]; apply Forall_inv in Hsf;
  cbn in Hsf; new_facts.

(** One step of the run of the script with a library that keeps objects
    ([Hk]) and whose answers are usable: no operator of the script
    raises. *)
Ltac run_step Hk :=
  lazymatch goal with
  | |- wp (mbind _ _) _ _ _ => apply wp_bind; run_step Hk
  | |- wp (mret _) _ _ _ => apply wp_ret
  | |- wp (call _ ?f _ _) _ _ _ =>
      let r := fresh "r" in let s' := fresh "s" in
      let Hc := fresh "Hc" in let Hg := fresh "Hg" in
      apply wp_call; intros r s' Hc; cbn [st log] in Hc |- *;
      lazymatch type of Hc with
      | _ ?f ?a ?k ?s = _ => pose proof (Hk f a k s) as Hg; rewrite Hc in Hg; cbn [snd] in Hg
      end;
      move_facts Hg; clear Hg Hc;
      destruct r; [cbn beta iota | lib_raise];
      lazymatch f with
      | "time.time" => learn_result
      | "Model.grid" => learn_result
      | "Model.density_Env_Disc" => learn_result
      | "Model.density_Hamburgers" => learn_result
      | "Model.temperature_Hamburgers" => learn_result
      | _ => idtac
      end
  | |- wp (lift (general_parameters _)) _ _ _ =>
      apply wp_lift;
      match goal with Hp : general_parameters _ = Ok _ |- _ => rewrite Hp end
  | |- wp (lift (py_truediv _ ?y)) _ _ _ =>
      apply wp_lift; unfold py_truediv at 1;
      match goal with Hz : fis_zero y = false |- _ => rewrite Hz end
  | |- wp (getattr ?v ?a) _ _ _ =>
      apply wp_getattr, wp_lift; cbn [st log];
      match goal with Hf : getattr_in _ v a = Ok _ |- _ => rewrite Hf end
  | |- wp (read_array (VRef ?l)) _ _ _ =>
      apply wp_read_array, wp_lift; cbn [st log array_in];
      match goal with Hf : _ !! l = Some _ |- _ => rewrite Hf end
  | |- wp (lift (np_broadcast _ _ _)) _ _ _ =>
      apply wp_lift; rewrite np_broadcast_eq by same_lengths
  | |- wp (lift (percent_s ?a ?b)) _ _ _ =>
      let v := eval vm_compute in (percent_s a b) in
      change (percent_s a b) with v; apply wp_lift
  | |- wp (alloc _) _ _ _ =>
      let l := fresh "l" in let s := fresh "s" in
      let Hn := fresh "Hnew" in let Hl := fresh "Hl" in
      apply wp_alloc; intros l s Hn; cbn [st log] in Hn; object_step Hn Hl
  | |- wp (np_array _) _ _ _ =>
      let l := fresh "l" in let s := fresh "s" in
      let Hn := fresh "Hnew" in let Hl := fresh "Hl" in
      apply wp_np_array; intros l s Hn; cbn [st log] in Hn; object_step Hn Hl
  | |- wp (Model_Struct (("total", ?t) :: _)) _ _ _ =>
      let l := fresh "l" in let s := fresh "s" in
      let Hn := fresh "Hnew" in let Hl := fresh "Hl" in let Hd := fresh "Hd" in
      apply wp_Model_Struct; intros l s Hn; cbn [st log] in Hn; object_step Hn Hl;
      assert (Hd : getattr_in (heap s) (VRef l) "total" = Ok t)
        by (cbn [getattr_in]; rewrite Hl; reflexivity)
  | |- wp (ndarray_binop _ _ _) _ _ _ => unfold ndarray_binop at 1
  | |- wp (ndarray_div_float _ _) _ _ _ => unfold ndarray_div_float at 1
  | |- wp (unpack2 _) _ _ _ => unfold unpack2 at 1
  | |- wp (py_sub (VFloat _) (VFloat _)) _ _ _ => apply wp_ret
  end; cbn beta iota delta [st log map].

Section Completion.
Context {F : Type} `{PyFloat F} `{PyFormat F} {W : Type}.
Context (U : units F) (lib : library F W).
Implicit Types (proc : process) (s : state F W).

(** X10.  The script ends normally, returning [None], when the parameter
    block succeeds, the library leaves the objects of the store as they
    are, and every library call of the run returns something usable: a
    float from the clock, a grid with [NPoints], density and temperature
    aggregates with the attributes the script reads and [total] arrays of
    one length.  No operator of the script raises then. *)
Theorem run_completes proc s p n :
  general_parameters U = Ok p →
  library_keeps_objects lib →
  Forall (usable_result n) (log (snd (run U lib proc s))) →
  fst (run U lib proc s) = Ok VNone.
Proof.
  intros Hp Hk.
  apply (every_run U lib (fun r c => Forall (usable_result n) (log c) → r = Ok VNone)).
  unfold script.
  destruct (general_parameters_divisors _ _ Hp) as (_ & Hz1 & Hz2).
  repeat run_step Hk.
  done.
Qed.

End Completion.

(** ** The arguments of the library calls *)

Section Written.
Context {F : Type} `{PyFloat F} `{PyFormat F} {W : Type}.
Context (U : units F).

Lemma written_snoc (l : list (event F W)) ev :
  arguments_as_written U l → event_as_written U l (length l) ev →
  arguments_as_written U (l ++ [ev]).
Proof.
  intros Hl Hev i ev' Hi.
  destruct (decide (i < length l)%nat) as [Hlt|Hge].
  - rewrite lookup_app_l in Hi by done. rewrite take_app_le by lia. by apply Hl.
  - rewrite lookup_app_r in Hi by lia.
    destruct (i - length l)%nat eqn:Hd; [| by destruct n].
    injection Hi as <-. assert (i = length l) as -> by lia.
    by rewrite take_app_length.
Qed.

End Written.

(** The call about to be logged is made as the source writes it. *)
Ltac written_here :=
  cbn [length event_as_written written_call];
  unfold npoints_read, dens_plot_made;
  repeat lazymatch goal with
         | |- ∃ _, _ => eexists
         | |- _ ∧ _ => split
         end;
  first [eassumption | reflexivity].

(** The log of a branch that an operator of the script ends. *)
Ltac written_raise :=
  cbv beta; cbn [log];
  lazymatch goal with
  | HJ : arguments_as_written ?U ?L |- arguments_as_written ?U (?L ++ [?ev]) =>
      exact (written_snoc U L ev HJ I)
  end.

(** The call just made joins the calls known to be as written. *)
Ltac written_event HJ ev :=
  lazymatch type of HJ with
  | arguments_as_written ?U ?L =>
      let HJ' := fresh "HJ" in
      assert (HJ' : arguments_as_written U (L ++ [ev]))
        by (apply written_snoc; [exact HJ | written_here]);
      clear HJ; cbn [app] in HJ'
  end.

(** One step of the run of the script, keeping the calls made so far as
    the source writes them. *)
Ltac written_step :=
  lazymatch goal with
  | HJ : arguments_as_written _ _ |- wp (mbind _ (call _ ?f ?a ?k)) _ _ _ =>
      let r := fresh "r" in let s' := fresh "s" in let Hc := fresh "Hcall" in
      apply wp_bind, wp_call; intros r s' Hc; cbn [st log] in Hc |- *;
      lazymatch type of Hc with
      | _ _ _ _ ?s0 = _ => written_event HJ (ECall f a k s0 r s')
      end;
      destruct r; [| assumption];
      cbn beta iota delta [st log app map]
  | HJ : arguments_as_written _ _ |- wp (mbind _ (Model_Struct ?entries)) _ _ ?c =>
      let l := fresh "l" in let s' := fresh "s" in let Hn := fresh "Hnew" in
      let s0 := eval cbn [st] in (st c) in
      apply wp_bind, wp_Model_Struct; intros l s' Hn; cbn [st log] in Hn |- *;
      written_event HJ (ECall "Model.Struct" [] entries s0 (Ok (VRef l)) s');
      cbn beta iota delta [st log app map]
  | HJ : arguments_as_written _ _ |- wp (mbind _ (np_array ?xs)) _ _ ?c =>
      let l := fresh "l" in let s' := fresh "s" in let Hn := fresh "Hnew" in
      let s0 := eval cbn [st] in (st c) in
      apply wp_bind, wp_np_array; intros l s' Hn; cbn [st log] in Hn |- *;
      written_event HJ (ECall "np.array" [VList (map VFloat xs)] [] s0 (Ok (VRef l)) s');
      cbn beta iota delta [st log app map]
  | |- wp _ _ _ _ => wp_step written_raise
  end.

Section Arguments.
Context {F : Type} `{PyFloat F} `{PyFormat F} {W : Type}.
Context (U : units F) (lib : library F W).
Implicit Types (proc : process) (s : state F W).

(** C4 (amended).  In every run, also one that fails later, each library
    call is made as the source writes it.  Besides literals its arguments
    are constants of the unit module, results of earlier calls and
    attributes read from them, and values the script computes from those:
    the stellar parameters of lines 22-27 and their quotients of line 29,
    products such as [2.5 * Rd] and [500 * AU], the colour limits, the
    elapsed time, the formatted file names, and three arrays the script
    makes itself: the sum of the two density totals, the composite total
    divided by [1e6], and the product of the temperature with that
    quotient.  No run has a thirty-fifth call. *)
Theorem library_call_arguments proc s i ev :
  log (snd (run U lib proc s)) !! i = Some ev →
  event_as_written U (take i (log (snd (run U lib proc s)))) i ev.
Proof.
  revert i ev. change (arguments_as_written U (log (snd (run U lib proc s)))).
  apply (every_run U lib (fun _ c => arguments_as_written U (log c))).
  assert (HJ : arguments_as_written U (@nil (event F W))) by (by intros i ev).
  unfold script.
  repeat written_step.
  assumption.
Qed.

End Arguments.

(** ** The end of a run *)

Section Termination.
Context {F : Type} `{PyFloat F} `{PyFormat F} {W : Type}.
Context (U : units F) (lib : library F W).
Implicit Types (proc : process) (s : state F W).

(** A run that ends normally has made all the calls of [script_calls],
    which all returned, the last of them the last [plane2D] call. *)
Lemma completed_after_last_plot proc s v :
  fst (run U lib proc s) = Ok v →
  ends_after_last_plot (run U lib proc s) ∧
  calls (log (snd (run U lib proc s))) = script_calls ∧
  all_normal (log (snd (run U lib proc s))).
Proof.
  intros Hok. pose proof (run_on_track U lib proc s) as Ht.
  destruct (run U lib proc s) as [[v'|e] c]; [| discriminate]. cbn [fst snd] in *.
  destruct Ht as [Hn Hc]. split; [| done].
  unfold ends_after_last_plot. cbn [fst snd].
  destruct (log c) as [|x l] using rev_ind; [discriminate |]. clear IHl.
  pose proof Hn as Hn'.
  apply all_normal_app in Hn' as [_ Hx]. inversion Hx as [|? ? Hev _]; subst.
  destruct x as [f a k pre [w|e'] post | e']; try discriminate.
  rewrite calls_app in Hc. cbn in Hc.
  assert (Hf : last (calls l ++ [f]) = last script_calls) by (by rewrite Hc).
  rewrite last_snoc in Hf. cbn in Hf. injection Hf as ->.
  exists v', a, k, pre, w, post. split; [reflexivity |]. apply last_snoc.
Qed.

(** C8 (amended).  The module body is straight-line code and its embedding
    a total function: every run ends, after at most 35 events.  When all
    the library calls of a run return, the run ends after the last
    plotting call or with an exception raised by an operator of the
    script itself, which is then its last event.  It does end after the
    last plotting call, having made every call of [script_calls], when
    moreover the parameter block succeeds, the library leaves the objects
    of the store as they are and every library call returns something
    usable. *)
Theorem script_terminates proc s :
  let r := run U lib proc s in
  straight lib script_calls (script U lib proc) ∧
  (length (log (snd r)) ≤ 35)%nat ∧
  (Forall (fun ev => ev_library_raise ev = None) (log (snd r)) →
   ends_after_last_plot r ∨
   ∃ e, fst r = Raise e ∧ last (log (snd r)) = Some (ERaise e)) ∧
  (∀ p n, general_parameters U = Ok p → library_keeps_objects lib →
          Forall (usable_result n) (log (snd r)) →
          ends_after_last_plot r ∧ calls (log (snd r)) = script_calls ∧
          all_normal (log (snd r))).
Proof.
  cbn zeta. split; [apply script_straight |]. split; [| split].
  - pose proof (run_on_track U lib proc s) as Ht.
    destruct (run U lib proc s) as [[v|e] c]; cbn [snd].
    + destruct Ht as [Hn Hc]. rewrite <- (all_normal_calls _ Hn), Hc. cbn. lia.
    + destruct Ht as (l & ev & Hl & Hn & _ & [k Hp]).
      rewrite Hl, length_app, <- (all_normal_calls _ Hn). cbn.
      rewrite Hl, calls_app in Hp. apply (f_equal length) in Hp.
      rewrite !length_app in Hp. cbn in Hp. lia.
  - intros Hlib. destruct (fst (run U lib proc s)) as [v|e] eqn:Hr.
    + left. by apply (completed_after_last_plot proc s v).
    + right. exists e. split; [reflexivity |].
      pose proof (run_on_track U lib proc s) as Ht.
      destruct (run U lib proc s) as [[v|e'] c]; [discriminate |]. cbn [fst snd] in *.
      injection Hr as ->.
      destruct Ht as (l & ev & Hl & _ & He & _). rewrite Hl, last_snoc. f_equal.
      rewrite Hl in Hlib. apply Forall_app in Hlib as [_ Hlib].
      inversion Hlib as [|? ? Hev _]; subst.
      destruct ev as [f a k' pre [v'|e'] post | e']; cbn in He, Hev; congruence.
  - intros p n Hp Hk Hu.
    apply (completed_after_last_plot proc s VNone). revert Hu.
    apply (every_run U lib (fun r c => Forall (usable_result n) (log c) → r = Ok VNone)).
    unfold script.
    destruct (general_parameters_divisors _ _ Hp) as (_ & Hz1 & Hz2).
    repeat run_step Hk.
    done.
Qed.

End Termination.

(** ** The parameters over the reals *)

Lemma Q2R_frac (q : Q) n d : Qred q = Qmake n d -> Q2R q = (IZR n / IZR (Zpos d))%R.
Proof.
  intros Hq. rewrite <- (Qreals.Qeq_eqR _ _ (Qred_correct q)), Hq. reflexivity.
Qed.

(** The literals of the goal as quotients of integers. *)
Ltac q2r :=
  repeat match goal with
         | |- context [Q2R ?q] =>
             let n := eval vm_compute in (Qnum (Qred q)) in
             let d := eval vm_compute in (Qden (Qred q)) in
             rewrite (Q2R_frac q n d) by (vm_compute; reflexivity)
         end.

Section StellarEdge.
Import RealFloat.
Local Open Scope R_scope.

Lemma real_truediv_zero (x y : R) : y = 0 -> py_truediv x y = Raise ZeroDivisionError.
Proof.
  intros Hy. unfold py_truediv. cbn.
  destruct (Req_dec_T y 0); [reflexivity | contradiction].
Qed.

Lemma Rpower_below_one (x y : R) : 0 < x < 1 -> 0 < y -> 0 < Rpower x y < 1.
Proof.
  intros Hx Hy. split; [apply exp_pos |].
  assert (H1 : Rpower 1 y = 1) by (unfold Rpower; rewrite ln_1, Rmult_0_r; apply exp_0).
  rewrite <- H1. apply Rlt_Rpower_l; lra.
Qed.

(** The parameter block in closed form. *)
Lemma general_parameters_real (U : units R) :
  MSun U <> 0 -> LSun U <> 0 -> RSun U <> 0 ->
  general_parameters U =
    Ok {| MStar := 0.86 * MSun U;
          MRate := lit 5e-6 * MSun_yr U;
          RStar := RSun U * Rpower 0.86 0.8;
          LStar := LSun U * Rpower 0.86 4;
          TStar := TSun U * Rpower (Rpower 0.86 4 / Rpower (Rpower 0.86 0.8) 2) 0.25;
          Rd := lit 264 * AU U |}.
Proof.
  intros HM HL HR. unfold general_parameters.
  set (m := fmul (lit 0.86) (MSun U)).
  assert (Hm : m / MSun U = 0.86).
  { unfold m. change (0.86 * MSun U / MSun U = 0.86). field. exact HM. }
  rewrite (real_truediv _ _ HM), Hm. cbn [mbind result_bind].
  assert (H086 : 0 < 0.86) by lra.
  rewrite !(real_pow_pos _ _ H086). cbn [mbind result_bind].
  set (a := Rpower 0.86 (lit 0.8)).
  set (b := Rpower 0.86 (of_int 4)).
  assert (Ha : 0 < a) by apply exp_pos.
  assert (Hb : 0 < b) by apply exp_pos.
  assert (Hl : fmul (LSun U) b / LSun U = b).
  { change (LSun U * b / LSun U = b). field. exact HL. }
  assert (Hr : fmul (RSun U) a / RSun U = a).
  { change (RSun U * a / RSun U = a). field. exact HR. }
  rewrite (real_truediv _ _ HL), Hl. cbn [mbind result_bind].
  rewrite (real_truediv _ _ HR), Hr. cbn [mbind result_bind].
  rewrite (real_pow_pos _ _ Ha). cbn [mbind result_bind].
  assert (Ha2 : 0 < Rpower a (of_int 2)) by apply exp_pos.
  rewrite (real_truediv b (Rpower a (of_int 2))) by lra. cbn [mbind result_bind].
  assert (Hq : 0 < b / Rpower a (of_int 2)) by (apply Rdiv_lt_0_compat; assumption).
  rewrite (real_pow_pos _ _ Hq). cbn [mbind result_bind].
  reflexivity.
Qed.

Lemma zero_unit_raises (U : units R) :
  MSun U = 0 \/ LSun U = 0 \/ RSun U = 0 ->
  general_parameters U = Raise ZeroDivisionError.
Proof.
  intros Hz. destruct (Req_dec_T (MSun U) 0) as [HM|HM].
  - unfold general_parameters. by rewrite (real_truediv_zero _ _ HM).
  - unfold general_parameters.
    set (m := fmul (lit 0.86) (MSun U)).
    assert (Hm : m / MSun U = 0.86).
    { unfold m. change (0.86 * MSun U / MSun U = 0.86). field. exact HM. }
    rewrite (real_truediv _ _ HM), Hm. cbn [mbind result_bind].
    assert (H086 : 0 < 0.86) by lra.
    rewrite !(real_pow_pos _ _ H086). cbn [mbind result_bind].
    destruct (Req_dec_T (LSun U) 0) as [HL|HL].
    + by rewrite (real_truediv_zero _ _ HL).
    + rewrite (real_truediv _ _ HL). cbn [mbind result_bind].
      destruct Hz as [Hz | [Hz | Hz]]; [contradiction | contradiction |].
      by rewrite (real_truediv_zero _ _ Hz).
Qed.

(** X11.  Over the reals the parameter block of lines 22-27 raises exactly
    when the solar mass, luminosity or radius of the unit module is zero,
    and then it raises [ZeroDivisionError]: the powers never raise. *)
Theorem parameters_fail_on_zero_units (U : units R) :
  (general_parameters U = Raise ZeroDivisionError <->
   MSun U = 0 \/ LSun U = 0 \/ RSun U = 0) /\
  (forall e, general_parameters U = Raise e -> e = ZeroDivisionError).
Proof.
  assert (Hok : MSun U <> 0 -> LSun U <> 0 -> RSun U <> 0 ->
                exists p, general_parameters U = Ok p).
  { intros HM HL HR. eexists. by apply general_parameters_real. }
  split; [split; [| apply zero_unit_raises] |].
  - intros Hr. destruct (Req_dec_T (MSun U) 0) as [HM|HM]; [by left |].
    destruct (Req_dec_T (LSun U) 0) as [HL|HL]; [by right; left |].
    destruct (Req_dec_T (RSun U) 0) as [HR|HR]; [by right; right |].
    destruct (Hok HM HL HR) as [p Hp]. congruence.
  - intros e He.
    destruct (Req_dec_T (MSun U) 0) as [HM|HM];
      [rewrite zero_unit_raises in He by tauto; congruence |].
    destruct (Req_dec_T (LSun U) 0) as [HL|HL];
      [rewrite zero_unit_raises in He by tauto; congruence |].
    destruct (Req_dec_T (RSun U) 0) as [HR|HR];
      [rewrite zero_unit_raises in He by tauto; congruence |].
    destruct (Hok HM HL HR) as [p Hp]. congruence.
Qed.

(** X12.  Over the reals, with positive unit constants, the parameters are
    those of a star smaller than the Sun: the mass, radius, luminosity and
    temperature are positive and below the solar ones, and the accretion
    rate and the centrifugal radius are positive. *)
Theorem star_is_subsolar (U : units R) :
  0 < MSun U -> 0 < MSun_yr U -> 0 < RSun U -> 0 < LSun U -> 0 < TSun U -> 0 < AU U ->
  exists p, general_parameters U = Ok p /\
    0 < MStar p < MSun U /\ 0 < RStar p < RSun U /\ 0 < LStar p < LSun U /\
    0 < TStar p < TSun U /\ 0 < MRate p /\ 0 < Rd p.
Proof.
  intros HM HY HR HL HT HA.
  eexists. split; [apply general_parameters_real; lra |].
  cbn [MStar RStar LStar TStar MRate Rd].
  assert (H086 : 0 < 0.86 < 1) by lra.
  pose proof (Rpower_below_one 0.86 0.8 H086 ltac:(lra)) as Ha.
  pose proof (Rpower_below_one 0.86 4 H086 ltac:(lra)) as Hb.
  assert (Ht : 0 < Rpower (Rpower 0.86 4 / Rpower (Rpower 0.86 0.8) 2) 0.25 < 1).
  { apply Rpower_below_one; [| lra].
    replace (Rpower 0.86 4 / Rpower (Rpower 0.86 0.8) 2) with (Rpower 0.86 2.4).
    - apply Rpower_below_one; lra.
    - rewrite Rpower_mult. unfold Rdiv. rewrite <- Rpower_Ropp, <- Rpower_plus.
      f_equal. lra. }
  assert (H5 : 0 < lit 5e-6) by (cbn [lit real_float]; q2r; lra).
  assert (H264 : 0 < lit 264) by (cbn [lit real_float]; q2r; lra).
  repeat split; nra.
Qed.

End StellarEdge.

(** ** The colour limits *)

Section LimitInvariants.
Import RealFloat.
Context {W : Type}.
Context (lib : library R W).

Lemma limits_snoc (l : list (event R W)) ev :
  limits_valid l → limits_from (last l) ev → limits_valid (l ++ [ev]).
Proof.
  intros Hl Hev i ev' Hi.
  destruct (decide (i < length l)%nat) as [Hlt|Hge].
  - rewrite lookup_app_l in Hi by done. specialize (Hl i ev' Hi).
    destruct i as [|j]; [exact Hl |]. rewrite lookup_app_l by lia. exact Hl.
  - rewrite lookup_app_r in Hi by lia.
    destruct (i - length l)%nat eqn:Hd; [| by destruct n].
    injection Hi as <-. assert (i = length l) as -> by lia.
    destruct l as [|x l] using rev_ind; [exact Hev |].
    rewrite length_app, Nat.add_1_r. rewrite last_snoc in Hev.
    rewrite lookup_app_l by (rewrite length_app; cbn; lia).
    by rewrite lookup_app_r, Nat.sub_diag by lia.
Qed.

Lemma limits_other (l : list (event R W)) ev :
  limits_valid l →
  match ev with ECall f _ _ _ _ _ => f ≠ "colors.LogNorm" | ERaise _ => True end →
  limits_valid (l ++ [ev]).
Proof.
  intros Hl Hev. apply limits_snoc; [exact Hl |].
  destruct ev as [f a k p r q | e]; [| done]. cbn. by intros Hf.
Qed.

Lemma limits_quiet {A} (m : M R W A) : quiet m → log_invariant limits_valid m.
Proof.
  intros Hq c Hc. specialize (Hq c). unfold wp.
  destruct (m c) as [[a|e] c']; destruct Hq as [Hl _]; rewrite Hl; [done |].
  by apply limits_other.
Qed.

Lemma limits_logged f args kwargs (body : state R W → result (value R) * state R W) :
  f ≠ "colors.LogNorm" → log_invariant limits_valid (logged f args kwargs body).
Proof.
  intros Hf c Hc. apply wp_logged. intros r s' _.
  destruct r; cbn [log]; by apply limits_other.
Qed.

Lemma limits_call f args kwargs :
  f ≠ "colors.LogNorm" → log_invariant limits_valid (call lib f args kwargs).
Proof. apply limits_logged. Qed.

End LimitInvariants.

(** The limits are valid in the log of a branch, [Hc] saying that they
    were when the block started. *)
Ltac limits_log Hc :=
  cbv beta; cbn [log];
  repeat (first
    [ exact Hc
    | apply limits_other; [| first [exact I | discriminate]]
    | apply limits_snoc;
      [| intros _; rewrite last_snoc; eexists _, _, _, _, _, _, _;
         split; [reflexivity |]; split; [reflexivity |]; split; [reflexivity |];
         split; [first [left; split; reflexivity | right; split; reflexivity] |];
         cbn [fdiv_ieee lit RealFloat.real_float]; q2r; lra ] ]).

(** One step of a proof that the colour limits are valid; a block from
    [np.array] to the call of [colors.LogNorm] that follows is executed
    as a whole. *)
Ltac limits_step :=
  lazymatch goal with
  | |- log_invariant _ (mbind _ (np_array _)) =>
      let c := fresh "c" in let Hc := fresh "Hc" in
      intros c Hc;
      repeat (lazymatch goal with
              | |- wp (mbind _ (call _ "colors.LogNorm" _ _)) _ _ _ => fail
              | |- _ => wp_step ltac:(limits_log Hc)
              end);
      wp_step ltac:(limits_log Hc);
      apply invariant_wp; [| limits_log Hc]; clear
  | |- log_invariant _ (mbind _ _) =>
      apply invariant_bind;
      [ first [ apply limits_call; discriminate
              | apply limits_logged; discriminate
              | apply limits_quiet; solve [auto with quiet] ]
      | let a := fresh "a" in
        intros a; cbv beta;
        lazymatch goal with
        | |- log_invariant _ (match a with _ => _ end) => destruct a; cbv beta iota
        | |- _ => idtac
        end ]
  | |- log_invariant _ (mret _) => apply limits_quiet, quiet_ret
  end.

Section ColourLimits.
Import RealFloat.
Context `{PyFormat R} {W : Type}.
Context (U : units R) (lib : library R W).

(** X13.  Over the reals, in every run, each call of [colors.LogNorm]
    comes just after the call of [np.array] on the two limits written in
    the source, and is given nothing but [vmin] and [vmax]: these two
    floats, as they are or both divided by [1e6], with
    [0 < vmin < vmax], as a logarithmic norm needs them. *)
Theorem colour_limits_are_valid proc s :
  limits_valid (log (snd (run U lib proc s))).
Proof.
  apply run_invariant; [| by intros [|i] ev]. unfold script.
  repeat limits_step.
Qed.

End ColourLimits.

(** ** Further runs on the smoke-test double *)

Section FurtherSmokeRuns.
Import Smoke.

Lemma parameter_failure_stops_run_witness :
  general_parameters zero_mass_units = Raise ZeroDivisionError ∧
  smoke_lib None "time.time" [] [] s0 = (Ok (VFloat 0%Q), s0) ∧
  zero_mass_run =
    (Raise ZeroDivisionError,
     {| st := s0;
        log := [ECall "time.time" [] [] s0 (Ok (VFloat 0%Q)) s0; ERaise ZeroDivisionError] |}).
Proof.
  assert (Hp : general_parameters zero_mass_units = Raise ZeroDivisionError)
    by (vm_compute; reflexivity).
  assert (Hc : smoke_lib None "time.time" [] [] s0 = (Ok (VFloat 0%Q), s0))
    by (vm_compute; reflexivity).
  split; [exact Hp |]. split; [exact Hc |].
  exact (parameter_failure_stops_run zero_mass_units (smoke_lib None) proc0 s0 _ _ _ Hp Hc).
Defined.

Lemma first_message_is_printed_witness :
  general_parameters q_units = Ok q_params ∧
  smoke_lib None "time.time" [] [] s0 = (Ok (VFloat 0%Q), s0) ∧
  ∃ res s2,
    log (snd smoke_run) !! 1%nat =
      Some (ECall "print"
              [VStr "RStar:"; VFloat (fdiv_ieee (RStar q_params) (RSun q_units));
               VStr ", LStar:"; VFloat (fdiv_ieee (LStar q_params) (LSun q_units));
               VStr ", TStar:"; VFloat (TStar q_params)] [] s0 res s2).
Proof.
  assert (Hp : general_parameters q_units = Ok q_params) by (vm_compute; reflexivity).
  assert (Hc : smoke_lib None "time.time" [] [] s0 = (Ok (VFloat 0%Q), s0))
    by (vm_compute; reflexivity).
  split; [exact Hp |]. split; [exact Hc |].
  exact (first_message_is_printed q_units (smoke_lib None) proc0 s0 _ _ _ Hp Hc).
Defined.

Lemma grid_without_npoints_witness :
  log (snd gridless_run) !! 2%nat = Some (event_at (log (snd gridless_run)) 2) ∧
  call_name (event_at (log (snd gridless_run)) 2) = Some "Model.grid" ∧
  ev_value (event_at (log (snd gridless_run)) 2) = Some VNone ∧
  ev_post (event_at (log (snd gridless_run)) 2) = Some s0 ∧
  getattr_in (heap s0) VNone "NPoints" = Raise AttributeError ∧
  fst gridless_run = Raise AttributeError ∧
  calls (log (snd gridless_run)) = ["time.time"; "print"; "Model.grid"] ∧
  st (snd gridless_run) = s0.
Proof.
  assert (Hi : log (snd gridless_run) !! 2%nat = Some (event_at (log (snd gridless_run)) 2))
    by (vm_compute; reflexivity).
  assert (Hf : call_name (event_at (log (snd gridless_run)) 2) = Some "Model.grid")
    by (vm_compute; reflexivity).
  assert (Hv : ev_value (event_at (log (snd gridless_run)) 2) = Some VNone)
    by (vm_compute; reflexivity).
  assert (Hp : ev_post (event_at (log (snd gridless_run)) 2) = Some s0)
    by (vm_compute; reflexivity).
  assert (Hg : getattr_in (heap s0) (VNone : value Q) "NPoints" = Raise AttributeError)
    by reflexivity.
  split; [exact Hi |]. split; [exact Hf |]. split; [exact Hv |]. split; [exact Hp |].
  split; [exact Hg |].
  exact (grid_without_npoints q_units gridless_lib proc0 s0 _ _ _ _ _ Hi Hf Hv Hp Hg).
Defined.

Lemma density_shapes_must_agree_witness :
  log (snd ragged_run) !! 4%nat = Some (event_at (log (snd ragged_run)) 4) ∧
  call_name (event_at (log (snd ragged_run)) 4) = Some "Model.density_Env_Disc" ∧
  ev_value (event_at (log (snd ragged_run)) 4) = Some (VRef 3) ∧
  log (snd ragged_run) !! 5%nat = Some (event_at (log (snd ragged_run)) 5) ∧
  call_name (event_at (log (snd ragged_run)) 5) = Some "Model.density_Hamburgers" ∧
  ev_value (event_at (log (snd ragged_run)) 5) = Some (VRef 5) ∧
  ev_post (event_at (log (snd ragged_run)) 5) = Some ragged_post ∧
  getattr_in (heap ragged_post) (VRef 3) "total" = Ok (VRef 2) ∧
  array_in (heap ragged_post) (VRef 2) = Ok [1%Q; 2%Q] ∧
  getattr_in (heap ragged_post) (VRef 5) "total" = Ok (VRef 4) ∧
  array_in (heap ragged_post) (VRef 4) = Ok [10%Q; 20%Q; 30%Q] ∧
  fst ragged_run = Raise ValueError ∧
  calls (log (snd ragged_run)) = take 6 script_calls ∧
  st (snd ragged_run) = ragged_post.
Proof.
  assert (Hi : log (snd ragged_run) !! 4%nat = Some (event_at (log (snd ragged_run)) 4))
    by (vm_compute; reflexivity).
  assert (Hf : call_name (event_at (log (snd ragged_run)) 4) = Some "Model.density_Env_Disc")
    by (vm_compute; reflexivity).
  assert (Hv : ev_value (event_at (log (snd ragged_run)) 4) = Some (VRef 3))
    by (vm_compute; reflexivity).
  assert (Hj : log (snd ragged_run) !! 5%nat = Some (event_at (log (snd ragged_run)) 5))
    by (vm_compute; reflexivity).
  assert (Hf' : call_name (event_at (log (snd ragged_run)) 5) = Some "Model.density_Hamburgers")
    by (vm_compute; reflexivity).
  assert (Hv' : ev_value (event_at (log (snd ragged_run)) 5) = Some (VRef 5))
    by (vm_compute; reflexivity).
  assert (Hp : ev_post (event_at (log (snd ragged_run)) 5) = Some ragged_post)
    by (vm_compute; reflexivity).
  assert (Hg : getattr_in (heap ragged_post) (VRef 3) "total" = Ok (VRef 2))
    by (vm_compute; reflexivity).
  assert (Ha : array_in (heap ragged_post) (VRef 2) = Ok [1%Q; 2%Q])
    by (vm_compute; reflexivity).
  assert (Hg' : getattr_in (heap ragged_post) (VRef 5) "total" = Ok (VRef 4))
    by (vm_compute; reflexivity).
  assert (Ha' : array_in (heap ragged_post) (VRef 4) = Ok [10%Q; 20%Q; 30%Q])
    by (vm_compute; reflexivity).
  split; [exact Hi |]. split; [exact Hf |]. split; [exact Hv |]. split; [exact Hj |].
  split; [exact Hf' |]. split; [exact Hv' |]. split; [exact Hp |]. split; [exact Hg |].
  split; [exact Ha |]. split; [exact Hg' |]. split; [exact Ha' |].
  apply (density_shapes_must_agree q_units ragged_lib proc0 s0 _ _ _ _ _ _ _ _ _ _ _
           Hi Hf Hv Hj Hf' Hv' Hp Hg Ha Hg' Ha'); cbn; lia.
Defined.

Lemma plots_follow_export_witness :
  log (snd smoke_run) !! 18%nat = Some (event_at (log (snd smoke_run)) 18) ∧
  call_name (event_at (log (snd smoke_run)) 18) = Some "Plot_model.scatter3D" ∧
  is_plot "Plot_model.scatter3D" = true ∧
  (11 < 18)%nat ∧
  ∃ export v,
    log (snd smoke_run) !! 11%nat = Some export ∧
    call_name export = Some "Model.DataTab_LIME" ∧ ev_value export = Some v.
Proof.
  assert (Hi : log (snd smoke_run) !! 18%nat = Some (event_at (log (snd smoke_run)) 18))
    by (vm_compute; reflexivity).
  assert (Hf : call_name (event_at (log (snd smoke_run)) 18) = Some "Plot_model.scatter3D")
    by (vm_compute; reflexivity).
  split; [exact Hi |]. split; [exact Hf |]. split; [reflexivity |].
  exact (plots_follow_export q_units (smoke_lib None) proc0 s0 _ _ _ Hi Hf eq_refl).
Defined.

Lemma export_receives_density_sum_witness :
  library_keeps_objects (smoke_lib None) ∧
  log (snd smoke_run) !! 11%nat = Some (event_at (log (snd smoke_run)) 11) ∧
  call_name (event_at (log (snd smoke_run)) 11) = Some "Model.DataTab_LIME" ∧
  density_sum_exported (log (snd smoke_run)) (event_at (log (snd smoke_run)) 11).
Proof.
  assert (Hi : log (snd smoke_run) !! 11%nat = Some (event_at (log (snd smoke_run)) 11))
    by (vm_compute; reflexivity).
  assert (Hf : call_name (event_at (log (snd smoke_run)) 11) = Some "Model.DataTab_LIME")
    by (vm_compute; reflexivity).
  split; [apply smoke_lib_keeps |]. split; [exact Hi |]. split; [exact Hf |].
  exact (export_receives_density_sum q_units (smoke_lib None) proc0 s0 _ _
           (smoke_lib_keeps None) Hi Hf).
Defined.

Lemma emissivity_is_temperature_times_density_witness :
  library_keeps_objects (smoke_lib None) ∧
  log (snd smoke_run) !! 33%nat = Some (event_at (log (snd smoke_run)) 33) ∧
  is_Some (call_name (event_at (log (snd smoke_run)) 33)) ∧
  emissivity_plotted (log (snd smoke_run)) (event_at (log (snd smoke_run)) 33).
Proof.
  assert (Hi : log (snd smoke_run) !! 33%nat = Some (event_at (log (snd smoke_run)) 33))
    by (vm_compute; reflexivity).
  assert (Hf : is_Some (call_name (event_at (log (snd smoke_run)) 33)))
    by (exists "Plot_model.plane2D"; vm_compute; reflexivity).
  split; [apply smoke_lib_keeps |]. split; [exact Hi |]. split; [exact Hf |].
  exact (emissivity_is_temperature_times_density q_units (smoke_lib None) proc0 s0 _
           (smoke_lib_keeps None) Hi Hf).
Defined.

Lemma run_completes_witness :
  general_parameters q_units = Ok q_params ∧
  library_keeps_objects (smoke_lib None) ∧
  Forall (usable_result 2) (log (snd smoke_run)) ∧
  fst smoke_run = Ok VNone.
Proof.
  assert (Hp : general_parameters q_units = Ok q_params) by (vm_compute; reflexivity).
  assert (Hu : Forall (usable_result 2) (log (snd smoke_run)))
    by (apply usable_resultb_sound; vm_compute; reflexivity).
  split; [exact Hp |]. split; [apply smoke_lib_keeps |]. split; [exact Hu |].
  pose proof (run_completes q_units (smoke_lib None) proc0 s0 q_params 2 Hp
                (smoke_lib_keeps None)) as Hrun.
  exact (Hrun Hu).
Defined.

End FurtherSmokeRuns.

Section FurtherRealRuns.
Import RealFloat.
Local Open Scope R_scope.

Lemma star_is_subsolar_witness :
  0 < MSun si_units /\ 0 < MSun_yr si_units /\ 0 < RSun si_units /\ 0 < LSun si_units /\
  0 < TSun si_units /\ 0 < AU si_units /\
  exists p, general_parameters si_units = Ok p /\
    0 < MStar p < MSun si_units /\ 0 < RStar p < RSun si_units /\
    0 < LStar p < LSun si_units /\ 0 < TStar p < TSun si_units /\
    0 < MRate p /\ 0 < Rd p.
Proof.
  assert (HM : 0 < MSun si_units) by (change (0 < 1.9891e30); lra).
  assert (HY : 0 < MSun_yr si_units) by (change (0 < 6.3e22); lra).
  assert (HR : 0 < RSun si_units) by (change (0 < 6.957e8); lra).
  assert (HL : 0 < LSun si_units) by (change (0 < 3.828e26); lra).
  assert (HT : 0 < TSun si_units) by (change (0 < 5772); lra).
  assert (HA : 0 < AU si_units) by (change (0 < 1.495978707e11); lra).
  split; [exact HM |]. split; [exact HY |]. split; [exact HR |]. split; [exact HL |].
  split; [exact HT |]. split; [exact HA |].
  exact (star_is_subsolar si_units HM HY HR HL HT HA).
Defined.

End FurtherRealRuns.

(** ** The arguments and the end of the runs on the double *)

Section ArgumentRuns.
Import Smoke.

Lemma library_call_arguments_witness :
  log (snd smoke_run) !! 6%nat = Some (event_at (log (snd smoke_run)) 6) ∧
  event_as_written q_units (take 6 (log (snd smoke_run))) 6 (event_at (log (snd smoke_run)) 6) ∧
  log (snd smoke_run) !! 9%nat = Some (event_at (log (snd smoke_run)) 9) ∧
  event_as_written q_units (take 9 (log (snd smoke_run))) 9 (event_at (log (snd smoke_run)) 9) ∧
  log (snd smoke_run) !! 33%nat = Some (event_at (log (snd smoke_run)) 33) ∧
  event_as_written q_units (take 33 (log (snd smoke_run))) 33
    (event_at (log (snd smoke_run)) 33).
Proof.
  assert (H6 : log (snd smoke_run) !! 6%nat = Some (event_at (log (snd smoke_run)) 6))
    by (vm_compute; reflexivity).
  assert (H9 : log (snd smoke_run) !! 9%nat = Some (event_at (log (snd smoke_run)) 9))
    by (vm_compute; reflexivity).
  assert (H33 : log (snd smoke_run) !! 33%nat = Some (event_at (log (snd smoke_run)) 33))
    by (vm_compute; reflexivity).
  split; [exact H6 |].
  split; [exact (library_call_arguments q_units (smoke_lib None) proc0 s0 6 _ H6) |].
  split; [exact H9 |].
  split; [exact (library_call_arguments q_units (smoke_lib None) proc0 s0 9 _ H9) |].
  split; [exact H33 |].
  exact (library_call_arguments q_units (smoke_lib None) proc0 s0 33 _ H33).
Defined.

End ArgumentRuns.

Section TerminationRuns.
Import Smoke.

(** C8, refuted as stated: on the double with a zero solar mass every
    library call returns, yet the run does not end after the last plotting
    call: the division of line 24 raises after the first call. *)
Lemma ends_after_last_plot_refuted :
  Forall (fun ev => ev_library_raise ev = None) (log (snd zero_mass_run)) ∧
  ¬ ends_after_last_plot zero_mass_run ∧
  fst zero_mass_run = Raise ZeroDivisionError ∧
  calls (log (snd zero_mass_run)) = ["time.time"].
Proof.
  split; [apply library_returns; vm_compute; reflexivity |].
  split; [| split; vm_compute; reflexivity].
  intros (v & a & k & pre & res & post & Hok & _). vm_compute in Hok. discriminate.
Qed.

Lemma script_terminates_witness :
  general_parameters q_units = Ok q_params ∧
  library_keeps_objects (smoke_lib None) ∧
  Forall (usable_result 2) (log (snd smoke_run)) ∧
  ends_after_last_plot smoke_run ∧
  calls (log (snd smoke_run)) = script_calls ∧
  all_normal (log (snd smoke_run)).
Proof.
  assert (Hp : general_parameters q_units = Ok q_params) by (vm_compute; reflexivity).
  assert (Hu : Forall (usable_result 2) (log (snd smoke_run)))
    by (apply usable_resultb_sound; vm_compute; reflexivity).
  split; [exact Hp |]. split; [apply smoke_lib_keeps |]. split; [exact Hu |].
  pose proof (proj2 (proj2 (proj2 (script_terminates q_units (smoke_lib None) proc0 s0)))
                q_params 2%nat Hp (smoke_lib_keeps None)) as Hrun.
  exact (Hrun Hu).
Defined.

End TerminationRuns.
